(** * avanza-api: session authentication and realtime multiplexer

    A shallow embedding of the TypeScript sources of the repository:

    - [Http]       : the JSON values handled by [request] and the merge of
                     the transport status into the parsed body;
    - [Retry]      : [genericRetryStrategy] and the [retryWhen] loop it drives;
    - [Validation] : [checkCredentials];
    - [Login]      : the pipeline behind [authenticate] (credentials, second
                     factor, retry), common to the two [Avanza] classes;
    - [Service]    : class [Avanza] with [setCredentials] and [authenticate];
    - [Monolith]   : class [Avanza] of the single-file variant, which logs
                     in from its constructor;
    - [RealTime]   : class [AvanzaRealTime] (handshake / connect / subscribe);
    - [Stated]     : sentences of the specification the code does not satisfy;
    - [Traffic], [RetryRun], [Runs] : what the properties say about frames,
                     retry loops and runs of the login;
    - [Api]        : [request], [call] and the path builders of the service
                     file;
    - [Client]     : [call] of the single-file variant, which waits for the
                     session.

    The sources are written with RxJS.  Every subject is modelled by the
    value it currently holds, every subscription by the function that runs
    when the subject emits, in the order in which the constructor subscribed.
    [Subject.next] is synchronous in RxJS, so a handler that calls [next] on
    another subject runs the handlers of that subject before it continues;
    the functions below are nested in exactly that way.  What happens
    outside (socket events, answers to HTTP requests, calls of the public
    methods, the passing of time) is an event; an instance is a state and a
    total function [step] from a state and an event to a state.  Time is a
    virtual clock in milliseconds: [Elapse] moves it, up to the next timer
    that is due, and [Fire] runs that timer. *)

From Stdlib Require Import ZArith List String Ascii Bool Lia DecimalString.
Import ListNotations.

Local Open Scope Z_scope.

(* ================================================================== *)
(** ** JSON values and the [request] helper                             *)
(* ================================================================== *)

Module Http.

(** A parsed JSON text.  Numbers are integers here: the status codes the
    sources compare are integers, and no arithmetic is done on body values. *)
#[local] Unset Elimination Schemes.
Inductive json : Type :=
| JNull
| JBool (b : bool)
| JNum (n : Z)
| JStr (s : string)
| JArr (items : list json)
| JObj (fields : list (string * json)).
#[local] Set Elimination Schemes.

(** A JavaScript object with JSON values: its own properties.  Only lookups
    are made on these objects, so the order of the list carries no meaning. *)
Definition object : Type := list (string * json).

(** [o[key]]; [None] is [undefined]. *)
Fixpoint get (key : string) (o : object) : option json :=
  match o with
  | [] => None
  | (k, v) :: rest => if String.eqb k key then Some v else get key rest
  end.

(** [o[key] = v]. *)
Fixpoint set (key : string) (v : json) (o : object) : object :=
  match o with
  | [] => [(key, v)]
  | (k, w) :: rest =>
      if String.eqb k key then (k, v) :: rest else (k, w) :: set key v rest
  end.

Definition assign (target : object) (props : list (string * json)) : object :=
  fold_left (fun o kv => set (fst kv) (snd kv) o) props target.

Definition index_key (n : nat) : string :=
  NilEmpty.string_of_uint (Nat.to_uint n).

Definition indexed (items : list json) : list (string * json) :=
  combine (map index_key (seq 0 (List.length items))) items.

(** The own enumerable properties of a value, in source order: the
    members of an object, the indices of an array, the characters of a
    string, nothing for [null], booleans and numbers. *)
Definition members (v : json) : list (string * json) :=
  match v with
  | JObj fields => fields
  | JArr items => indexed items
  | JStr s => indexed (map (fun c => JStr (String c EmptyString))
                           (list_ascii_of_string s))
  | JNull | JBool _ | JNum _ => []
  end.

(** The object with these properties; a name written twice in a JSON
    object keeps its last value, as [JSON.parse] does. *)
Definition objectOf (v : json) : object := assign [] (members v).

(** [{ ...target, ...source }] for an object [target] already built. *)
Definition spread (target : object) (source : json) : object :=
  assign target (members source).

(** What [fetch] resolves with: the status line, the body as
    [response.json()] parses it ([None] when the body is not JSON and the
    promise rejects), and the headers, names in lower case as node-fetch
    keeps them. *)
Record Response : Type := mkResponse {
  status : Z;
  body : option json;
  headers : list (string * string)
}.

(** [headers.get(name)]; [None] is [null]. *)
Fixpoint headers_get (name : string) (hs : list (string * string)) : option string :=
  match hs with
  | [] => None
  | (k, v) :: rest => if String.eqb k name then Some v else headers_get name rest
  end.

(** The [json] member of the value [request] returns,
    [{ statusCode: response.status, ...(await response.json()) }];
    [None] when [response.json()] rejects. *)
Definition request_json (response : Response) : option object :=
  match body response with
  | Some parsed => Some (spread [("statusCode"%string, JNum (status response))] parsed)
  | None => None
  end.

(** [json.statusCode !== 200]. *)
Definition statusCode_isnt_200 (o : object) : bool :=
  match get "statusCode" o with
  | Some (JNum n) => negb (Z.eqb n 200)
  | _ => true
  end.

(** A value thrown into the error channel of a pipeline: [response.json]
    (the [throw] of the two [tap]s) or anything else (a rejected promise, a
    [TypeError], a string thrown by [checkCredentials]). *)
Inductive Thrown : Type :=
| ThrownJson (o : object)
| ThrownOther (description : string).

(** [v[key]] for a name that is no built-in member of arrays and strings;
    reading a property of a boolean or a number gives [undefined]. *)
Definition property (v : json) (key : string) : option json :=
  get key (objectOf v).

(** [error.statusCode]. *)
Definition statusCode_of (error : Thrown) : option json :=
  match error with
  | ThrownJson o => get "statusCode" o
  | ThrownOther _ => None
  end.

End Http.

(* ================================================================== *)
(** ** The retry policy ([genericRetryStrategy])                        *)
(* ================================================================== *)

Module Retry.
Import Http.

(** The destructured argument of [genericRetryStrategy]; a field left out
    by the caller takes its default. *)
Record Options : Type := mkOptions {
  maxRetryAttempts : option Z;
  scalingDuration : option Z;
  excludedStatusCodes : option (list Z)
}.

Definition orDefault {A : Type} (o : option A) (d : A) : A :=
  match o with Some v => v | None => d end.

(** The default of [excludedStatusCodes] differs between the two files. *)
Definition defaultExcluded_service : list Z := [401; 400].
Definition defaultExcluded_monolith : list Z := [401].

(** The options both [authenticate] pipelines pass:
    [{ maxRetryAttempts: 10, scalingDuration: 10000 }]. *)
Definition authenticateOptions : Options :=
  mkOptions (Some 10) (Some 10000) None.

Definition noOptions : Options := mkOptions None None None.

(** [excludedStatusCodes.includes(error.statusCode)]: only a number can be
    equal to a member of an array of numbers. *)
Definition isExcluded (codes : list Z) (error : Thrown) : bool :=
  match statusCode_of error with
  | Some (JNum n) => existsb (Z.eqb n) codes
  | _ => false
  end.

(** What the function given to [mergeMap] returns: [throwError(...)] or
    [timer(ms)], [ms] being the argument as the source computes it. *)
Inductive Decision : Type :=
| ThrowError (error : Thrown)
| Timer (ms : Z).

(** The body of [mergeMap((error, i) => ...)]; [i] counts from 0 the
    errors the notifier has received.  [defaultExcluded] is the default
    written in the file at hand. *)
Definition genericRetryStrategy (defaultExcluded : list Z) (o : Options)
    (error : Thrown) (i : Z) : Decision :=
  let maxRetryAttempts := orDefault (maxRetryAttempts o) 3 in
  let scalingDuration := orDefault (scalingDuration o) 1000 in
  let excludedStatusCodes := orDefault (excludedStatusCodes o) defaultExcluded in
  let isExcludedErrorCode := isExcluded excludedStatusCodes error in
  let retryAttempt := i + 1 in
  if (retryAttempt >? maxRetryAttempts) || isExcludedErrorCode
  then ThrowError error
  else Timer (retryAttempt * scalingDuration).

(** The arguments of [timer] that the host's timers take as they are: a
    delay below 1 ms or above 2^31 - 1 ms is not waited for but replaced by
    a delay of about a millisecond.  Only for an argument in this range is
    the argument of [timer] the time that passes before the retry. *)
Definition TIMEOUT_MAX : Z := 2147483647.

Definition honoured (ms : Z) : bool := (1 <=? ms) && (ms <=? TIMEOUT_MAX).

(** [source.pipe(retryWhen(genericRetryStrategy(o)))] run against the
    outcomes of the successive subscriptions to [source]: each is an error
    or a value.  The result tells how the loop ended, how many
    subscriptions were made and, in [delays], the arguments of the calls of
    [timer], in order; they are the times waited when they are [honoured]. *)
Inductive Ending (A : Type) : Type :=
| Emitted (value : A)
| Failed (error : Thrown)
| Waiting.
Arguments Emitted {A} value.
Arguments Failed {A} error.
Arguments Waiting {A}.

Record Run (A : Type) : Type := mkRun {
  ending : Ending A;
  attempts : nat;
  delays : list Z
}.
Arguments mkRun {A} ending attempts delays.
Arguments ending {A} r.
Arguments attempts {A} r.
Arguments delays {A} r.

Fixpoint retryLoop {A : Type} (defaultExcluded : list Z) (o : Options)
    (outcomes : list (Thrown + A)) (i : Z) (made : nat) (asked : list Z) : Run A :=
  match outcomes with
  | [] => mkRun Waiting made asked
  | inr value :: _ => mkRun (Emitted value) (S made) asked
  | inl error :: rest =>
      match genericRetryStrategy defaultExcluded o error i with
      | ThrowError e => mkRun (Failed e) (S made) asked
      | Timer ms => retryLoop defaultExcluded o rest (i + 1) (S made) (asked ++ [ms])
      end
  end.

Definition retryWhen {A : Type} (defaultExcluded : list Z) (o : Options)
    (outcomes : list (Thrown + A)) : Run A :=
  retryLoop defaultExcluded o outcomes 0 0%nat [].

End Retry.

(* ================================================================== *)
(** ** Credential validation ([checkCredentials])                       *)
(* ================================================================== *)

Module Validation.

(** [interface Credentials]. *)
Record Credentials : Type := mkCredentials {
  username : string;
  password : string;
  totp : option string;
  totpSecret : string
}.

Definition MIN_INACTIVE_MINUTES : Z := 30.
Definition MAX_INACTIVE_MINUTES : Z := 60 * 24.

(** The three [throw] statements. *)
Inductive CheckError : Type :=
| MissingUsername
| MissingPassword
| TimeoutNotInRange.

Definition thrownText (e : CheckError) : string :=
  match e with
  | MissingUsername => "Missing credentials.username."
  | MissingPassword => "Missing credentials.password."
  | TimeoutNotInRange => "Session timeout not in range 30 - 1440 minutes."
  end.

Inductive Checked : Type :=
| Returns
| Throws (e : CheckError).

(** [!s] for a string: only the empty string is falsy. *)
Definition falsy (s : string) : bool := String.eqb s "".

Definition checkCredentials (credentials : Credentials)
    (authenticationTimeout : Z) : Checked :=
  if falsy (username credentials) then Throws MissingUsername
  else if falsy (password credentials) then Throws MissingPassword
  else if negb ((authenticationTimeout >=? MIN_INACTIVE_MINUTES)
                && (authenticationTimeout <=? MAX_INACTIVE_MINUTES))
  then Throws TimeoutNotInRange
  else Returns.

(** The names the specification gives to the failures. *)
Inductive ErrorKind : Type :=
| InvalidCredentials
| InvalidTimeout.

Definition kindOf (e : CheckError) : ErrorKind :=
  match e with
  | MissingUsername | MissingPassword => InvalidCredentials
  | TimeoutNotInRange => InvalidTimeout
  end.

(** [checkCredentials] throws, and the failure has the name [k]. *)
Definition failsWith (k : ErrorKind) (credentials : Credentials)
    (authenticationTimeout : Z) : Prop :=
  exists e, checkCredentials credentials authenticationTimeout = Throws e /\
            kindOf e = k.

End Validation.

(* ================================================================== *)
(** ** The login sequence shared by the two [Avanza] classes            *)
(* ================================================================== *)

Module Login.
Import Http Retry Validation.

(** The two calls of [request]: what is posted to [AUTHENTICATION_PATH] and
    to [TOTP_PATH].  [transactionId] is the value interpolated into the
    cookie header, [None] for [undefined]. *)
Inductive Request : Type :=
| LoginRequest (maxInactiveMinutes : Z) (password username : string)
| TotpRequest (totpCode : string) (transactionId : option json).

(** The object built by the [map] of the second [switchMap]. *)
Record AuthSession : Type := mkAuthSession {
  auth : object;
  twoFactorLogin : json;
  securityToken : option string
}.

(** What a step of the pipeline asks of the class that owns it: a call of
    [request], a [timer] of the retry strategy, a value or an error handed
    to the subscriber after [retryWhen].  [Raise e] stands for
    [throwError(JSON.stringify(e, null, 4))]: the text is not modelled, the
    error it is printed from is kept. *)
Inductive Effect : Type :=
| Post (r : Request)
| StartTimer (ms : Z)
| Emit (v : AuthSession)
| Raise (e : Thrown).

(** The requests among the effects of a step. *)
Definition posts (effects : list Effect) : list Request :=
  flat_map (fun e => match e with Post r => [r] | _ => [] end) effects.

(** The values among the effects of a step. *)
Definition emitted (effects : list Effect) : list AuthSession :=
  flat_map (fun e => match e with Emit v => [v] | _ => [] end) effects.

(** One subscription to

      authenticate$.pipe(withLatestFrom(credentials$), filter, switchMap,
                         withLatestFrom(totpCode$), switchMap, retryWhen)

    - [active]: the part before [retryWhen] is subscribed (it is not while
      a retry timer runs, nor after the end);
    - [latest]: the credentials held by the first [withLatestFrom] and the
      code held by the second, computed when those credentials were emitted;
    - [login], [second]: the request whose promise the first and the second
      [switchMap] are subscribed to, the second with the [twoFactorLogin]
      it was built from;
    - [errors]: how many errors the retry notifier has received;
    - [stopped]: the subscription has ended. *)
Record Pipeline : Type := mkPipeline {
  active : bool;
  latest : option (Credentials * string);
  login : option nat;
  second : option (nat * json);
  errors : Z;
  stopped : bool
}.

Definition fresh : Pipeline := mkPipeline false None None None 0 false.

Definition stop (p : Pipeline) : Pipeline :=
  mkPipeline false None None None (errors p) true.

Section Pipeline.

(** [totp(secret)] of the package totp-generator, which reads the clock. *)
Variable totp : string -> Z -> string.
(** The default of [excludedStatusCodes] in the file at hand. *)
Variable defaultExcluded : list Z.
(** What subscribing to [credentials$] does with the value it emits. *)
Variable validate : Credentials -> Checked.
(** [this._authenticationTimeout]. *)
Variable authenticationTimeout : Z.

(** An error reaches [retryWhen]: the part before it is unsubscribed and
    the strategy decides.  With the options of the login pipelines the
    timers asked for are 10000, 20000, ..., 100000 ms, which the host waits
    for as they are. *)
Definition fail (error : Thrown) (p : Pipeline) : Pipeline * list Effect :=
  match genericRetryStrategy defaultExcluded authenticateOptions error (errors p) with
  | ThrowError e =>
      (mkPipeline false None None None (errors p + 1) true, [Raise e])
  | Timer ms =>
      (mkPipeline false None None None (errors p + 1) false, [StartTimer ms])
  end.

(** [authenticate$] emits: the first [switchMap] drops the request it was
    waiting for and posts the credentials.  [nextId] numbers the request. *)
Definition emit (nextId : nat) (p : Pipeline) : Pipeline * list Effect :=
  if active p then
    match latest p with
    | Some (credentials, _) =>
        (mkPipeline true (latest p) (Some nextId) (second p) (errors p) false,
         [Post (LoginRequest authenticationTimeout
                  (password credentials) (username credentials))])
    | None => (p, [])
    end
  else (p, []).

(** [credentials$] emits to the two [withLatestFrom]. *)
Definition credentials_next (now : Z) (credentials : Credentials) (p : Pipeline)
    : Pipeline * list Effect :=
  if active p then
    match validate credentials with
    | Throws e => fail (ThrownOther (thrownText e)) p
    | Returns =>
        (mkPipeline true (Some (credentials, totp (totpSecret credentials) now))
                    (login p) (second p) (errors p) false, [])
    end
  else (p, []).

(** Subscription (by the first call or by a retry): [credentials$]
    replays its last value, if any, to the two [withLatestFrom], then
    [authenticate$], a [BehaviorSubject], emits its value. *)
Definition subscribe (now : Z) (nextId : nat) (replayed : option Credentials)
    (p : Pipeline) : Pipeline * list Effect :=
  let p0 := mkPipeline true None None None (errors p) false in
  match replayed with
  | None => (p0, [])
  | Some credentials =>
      let (p1, effects) := credentials_next now credentials p0 in
      let (p2, effects') := emit nextId p1 in
      (p2, effects ++ effects')
  end.

Definition awaits (slot : option nat) (id : nat) : bool :=
  match slot with Some i => Nat.eqb i id | None => false end.

(** The promise of login request [id] resolves with [response]. *)
Definition loginResponse (nextId id : nat) (response : Response) (p : Pipeline)
    : Pipeline * list Effect :=
  if active p && awaits (login p) id then
    match request_json response with
    | None => fail (ThrownOther "response.json() rejected") p
    | Some json =>
        if statusCode_isnt_200 json then fail (ThrownJson json) p
        else
          match latest p with
          | None => (p, [])
          | Some (_, totpCode) =>
              match get "twoFactorLogin" json with
              | None =>
                  fail (ThrownOther "TypeError: twoFactorLogin is undefined") p
              | Some JNull =>
                  fail (ThrownOther "TypeError: twoFactorLogin is null") p
              | Some v =>
                  (mkPipeline true (latest p) None (Some (nextId, v)) (errors p) false,
                   [Post (TotpRequest totpCode (property v "transactionId"))])
              end
          end
    end
  else (p, []).

(** The promise of second-factor request [id] resolves with [response]. *)
Definition totpResponse (id : nat) (response : Response) (p : Pipeline)
    : Pipeline * list Effect :=
  match second p with
  | Some (i, twoFactorLogin) =>
      if active p && Nat.eqb i id then
        match request_json response with
        | None => fail (ThrownOther "response.json() rejected") p
        | Some json =>
            if statusCode_isnt_200 json then fail (ThrownJson json) p
            else
              (mkPipeline true (latest p) (login p) None (errors p) false,
               [Emit (mkAuthSession json twoFactorLogin
                        (headers_get "x-securitytoken" (headers response)))])
        end
      else (p, [])
  | None => (p, [])
  end.

End Pipeline.

(** Timers: the due time on the virtual clock and what runs then. *)
Inductive TimerKind : Type :=
| Renewal
| RetryOf (call : nat).

Definition Scheduled : Type := (Z * TimerKind)%type.

(** [setTimeout]: timers run in the order of their due times, and in the
    order they were started when due together. *)
Fixpoint schedule (t : Scheduled) (timers : list Scheduled) : list Scheduled :=
  match timers with
  | [] => [t]
  | u :: rest =>
      if fst u <=? fst t then u :: schedule t rest else t :: u :: rest
  end.

(** The argument of [delay] on [authSession$].  RxJS takes the absolute
    value of a numeric delay. *)
Definition renewalDelay (authenticationTimeout : Z) : Z :=
  Z.abs ((authenticationTimeout - 1) * 60 * 1000).

(** The clock moves forward by [ms], but not past the next timer: that one
    has to run first. *)
Definition elapse (ms : Z) (now : Z) (timers : list Scheduled) : Z :=
  let target := now + Z.max 0 ms in
  match timers with
  | [] => target
  | (due, _) :: _ => Z.max now (Z.min due target)
  end.

(** Values used in the examples: credentials, the answer to the login
    request and the answer to the second-factor request. *)
Definition someone : Credentials :=
  mkCredentials "user" "secret" None "JBSWY3DPEHPK3PXP".

Definition loginOk : Response :=
  mkResponse 200
    (Some (JObj [("twoFactorLogin"%string,
                  JObj [("transactionId"%string, JStr "tx-1");
                        ("method"%string, JStr "TOTP")])]))
    [].

Definition totpOk : Response :=
  mkResponse 200
    (Some (JObj [("authenticationSession"%string, JStr "session-1");
                 ("pushSubscriptionId"%string, JStr "push-1");
                 ("customerId"%string, JStr "42");
                 ("registrationComplete"%string, JBool true)]))
    [("x-securitytoken"%string, "token-1"%string)].

(** A code generator for the examples. *)
Definition fixedCode : string -> Z -> string := fun _ _ => "123456"%string.

(** An answer with status 401 and a JSON body without [statusCode]. *)
Definition unauthorized : Response :=
  mkResponse 401 (Some (JObj [("message"%string, JStr "denied")])) [].

(** Status line 500, but the body says [statusCode: 200]. *)
Definition disguised500 : Response :=
  mkResponse 500
    (Some (JObj [("statusCode"%string, JNum 200);
                 ("twoFactorLogin"%string,
                  JObj [("transactionId"%string, JStr "tx-1")])]))
    [].

(** Status line 200, but the body says [statusCode: 503]. *)
Definition disguised200 : Response :=
  mkResponse 200
    (Some (JObj [("statusCode"%string, JNum 503);
                 ("twoFactorLogin"%string,
                  JObj [("transactionId"%string, JStr "tx-1")])]))
    [].

End Login.

(* ================================================================== *)
(** ** Class [Avanza] of the service file ([setCredentials], [authenticate]) *)
(* ================================================================== *)

Module Service.
Import Http Retry Validation Login.

(** The object built by the last [map] of [authenticate]; a member the
    response does not have is [undefined], here [None]. *)
Record SessionAuth : Type := mkSessionAuth {
  securityToken : option string;
  authenticationSession : option json;
  pushSubscriptionId : option json
}.

Definition toSessionAuth (authSession : AuthSession) : SessionAuth :=
  mkSessionAuth (Login.securityToken authSession)
                (get "authenticationSession" (auth authSession))
                (get "pushSubscriptionId" (auth authSession)).

(** The promise [authenticate] returns.  [Rejected e] stands for a
    rejection with the text [JSON.stringify(e, null, 4)]. *)
Inductive Promise : Type :=
| Pending
| Resolved (v : SessionAuth)
| Rejected (e : Thrown).

(** One call of [authenticate]: its own subscription and its promise. *)
Record Call : Type := mkCall {
  pipeline : Pipeline;
  promise : Promise
}.

(** An instance.
    - [now]: the virtual clock, in milliseconds;
    - [onSetCredentials]: the buffer of the [ReplaySubject];
    - [watching]: the subscription [merge(this.credentials$).subscribe()]
      of the constructor is alive;
    - [uncaught]: errors that reached a subscriber without error handler;
    - [calls]: the calls of [authenticate], oldest first;
    - [requests]: the calls of [request]; a request is named by its position;
    - [authSession]: the value of the public [authSession$]. *)
Record State : Type := mkState {
  now : Z;
  authenticationTimeout : Z;
  onSetCredentials : list Credentials;
  watching : bool;
  uncaught : list Thrown;
  calls : list Call;
  requests : list Request;
  timers : list Scheduled;
  authSession : option AuthSession
}.

Fixpoint update {A : Type} (k : nat) (x : A) (l : list A) : list A :=
  match l, k with
  | [], _ => []
  | _ :: rest, O => x :: rest
  | y :: rest, S k' => y :: update k' x rest
  end.

Definition lastCredentials (st : State) : option Credentials :=
  last (map Some (onSetCredentials st)) None.

Definition set_call (k : nat) (c : Call) (st : State) : State :=
  mkState (now st) (authenticationTimeout st) (onSetCredentials st)
          (watching st) (uncaught st) (update k c (calls st)) (requests st)
          (timers st) (authSession st).

Definition set_timers (ts : list Scheduled) (st : State) : State :=
  mkState (now st) (authenticationTimeout st) (onSetCredentials st)
          (watching st) (uncaught st) (calls st) (requests st) ts
          (authSession st).

Definition settle (k : nat) (result : Promise) (st : State) : State :=
  match nth_error (calls st) k with
  | Some c => set_call k (mkCall (stop (pipeline c)) result) st
  | None => st
  end.

(** What call [k] does with an effect of its pipeline.  A value passes
    [map] and [first], which resolves the promise and unsubscribes; an
    error rejects the promise. *)
Definition perform (k : nat) (st : State) (e : Effect) : State :=
  match e with
  | Post r =>
      mkState (now st) (authenticationTimeout st) (onSetCredentials st)
              (watching st) (uncaught st) (calls st) (requests st ++ [r])
              (timers st) (authSession st)
  | StartTimer ms => set_timers (schedule (now st + ms, RetryOf k) (timers st)) st
  | Emit v => settle k (Resolved (toSessionAuth v)) st
  | Raise e => settle k (Rejected e) st
  end.

(** The same on the call alone. *)
Definition applyEffect (c : Call) (e : Effect) : Call :=
  match e with
  | Emit v => mkCall (stop (pipeline c)) (Resolved (toSessionAuth v))
  | Raise e => mkCall (stop (pipeline c)) (Rejected e)
  | Post _ | StartTimer _ => c
  end.

(** A call after a step [f] of its pipeline, [n] being the number the
    next request gets. *)
Definition callAfter (f : nat -> Pipeline -> Pipeline * list Effect)
    (n : nat) (c : Call) : Call :=
  match promise c with
  | Pending =>
      let (p', effects) := f n (pipeline c) in
      fold_left applyEffect effects (mkCall p' Pending)
  | Resolved _ | Rejected _ => c
  end.

(** Run a step of the pipeline of call [k], if its promise is pending. *)
Definition drive (f : nat -> Pipeline -> Pipeline * list Effect)
    (st : State) (k : nat) : State :=
  match nth_error (calls st) k with
  | Some (mkCall p Pending) =>
      let (p', effects) := f (List.length (requests st)) p in
      fold_left (perform k) effects (set_call k (mkCall p' Pending) st)
  | _ => st
  end.

(** The same step for every call, oldest first.  (A subject serves its
    subscribers in the order they subscribed; a call that subscribed again
    after a retry is served here in its original place, which only changes
    the order of the requests posted within one event.) *)
Definition broadcast (f : nat -> Pipeline -> Pipeline * list Effect)
    (st : State) : State :=
  fold_left (drive f) (seq 0 (List.length (calls st))) st.

Section WithTotp.

Variable totp : string -> Z -> string.

(** The [tap] of [credentials$]: the timeout it checks is the value of
    [authenticationTimeout$], a [BehaviorSubject] created with
    [MAX_INACTIVE_MINUTES] and never given another value. *)
Definition validate (credentials : Credentials) : Checked :=
  checkCredentials credentials MAX_INACTIVE_MINUTES.

(** [authenticate$] emits to a call. *)
Definition emit' (st : State) :=
  Login.emit (authenticationTimeout st).

(** A call subscribes, in [authenticate] or after a retry timer:
    [credentials$] replays the last credentials set. *)
Definition subscribe' (st : State) :=
  fun nextId => Login.subscribe totp defaultExcluded_service validate
                  (authenticationTimeout st) (now st) nextId (lastCredentials st).

(** The subscription of the constructor receives a value of
    [credentials$]; a throw of the check ends it, and the error is
    reported as uncaught. *)
Definition watch (credentials : Credentials) (st : State) : State :=
  if watching st then
    match validate credentials with
    | Throws e =>
        mkState (now st) (authenticationTimeout st) (onSetCredentials st)
                false (uncaught st ++ [ThrownOther (thrownText e)]) (calls st)
                (requests st) (timers st) (authSession st)
    | Returns => st
    end
  else st.

(** [new Avanza(credentials, _authenticationTimeout)]. *)
Definition construct (credentials : option Credentials)
    (authenticationTimeout : Z) : State :=
  let st := mkState 0 authenticationTimeout
                    (match credentials with Some c => [c] | None => [] end)
                    true [] [] [] [] None in
  match credentials with
  | Some c => watch c st
  | None => st
  end.

(** [setCredentials(credentials)]: [onSetCredentials$.next], received by
    the subscription of the constructor and by the calls in flight. *)
Definition setCredentials (credentials : Credentials) (st : State) : State :=
  let st1 := mkState (now st) (authenticationTimeout st)
                     (onSetCredentials st ++ [credentials]) (watching st)
                     (uncaught st) (calls st) (requests st) (timers st)
                     (authSession st) in
  broadcast (fun _ => Login.credentials_next totp defaultExcluded_service
                        validate (now st) credentials)
            (watch credentials st1).

(** [authenticate()]: a new subscription and a new promise. *)
Definition authenticate (st : State) : State :=
  let k := List.length (calls st) in
  let st1 := mkState (now st) (authenticationTimeout st) (onSetCredentials st)
                     (watching st) (uncaught st)
                     (calls st ++ [mkCall fresh Pending]) (requests st)
                     (timers st) (authSession st) in
  drive (subscribe' st1) st1 k.

(** [authSession$.next(value)] by a user of the class: the value passes the
    [filter] and enters [delay]. *)
Definition authSession_next (value : AuthSession) (st : State) : State :=
  mkState (now st) (authenticationTimeout st) (onSetCredentials st)
          (watching st) (uncaught st) (calls st) (requests st)
          (schedule (now st + renewalDelay (authenticationTimeout st), Renewal)
                    (timers st))
          (Some value).

(** The first timer runs, if it is due: the renewal does
    [authenticate$.next()], a retry subscribes again. *)
Definition fire (st : State) : State :=
  match timers st with
  | (due, kind) :: rest =>
      if due <=? now st then
        let st1 := set_timers rest st in
        match kind with
        | Renewal => broadcast (fun nextId => emit' st1 nextId) st1
        | RetryOf k => drive (subscribe' st1) st1 k
        end
      else st
  | [] => st
  end.

Inductive Event : Type :=
| SetCredentials (credentials : Credentials)
| Authenticate
| LoginResponse (id : nat) (response : Response)
| TotpResponse (id : nat) (response : Response)
| AuthSessionNext (value : AuthSession)
| Elapse (ms : Z)
| Fire.

Definition step (st : State) (e : Event) : State :=
  match e with
  | SetCredentials c => setCredentials c st
  | Authenticate => authenticate st
  | LoginResponse id response =>
      broadcast (fun nextId =>
                   Login.loginResponse defaultExcluded_service nextId id response) st
  | TotpResponse id response =>
      broadcast (fun _ => Login.totpResponse defaultExcluded_service id response) st
  | AuthSessionNext value => authSession_next value st
  | Elapse ms =>
      mkState (elapse ms (now st) (timers st)) (authenticationTimeout st)
              (onSetCredentials st) (watching st) (uncaught st) (calls st)
              (requests st) (timers st) (authSession st)
  | Fire => fire st
  end.

Definition run (st : State) (es : list Event) : State := fold_left step es st.

End WithTotp.

(** A pending renewal. *)
Definition isRenewal (t : Scheduled) : bool :=
  match snd t with Renewal => true | RetryOf _ => false end.

(** The events in which no user of the class pushes a value into the
    public [authSession$]. *)
Definition internal (e : Event) : bool :=
  match e with AuthSessionNext _ => false | _ => true end.

(** The promise of call [k]. *)
Definition promiseOf (st : State) (k : nat) : option Promise :=
  option_map promise (nth_error (calls st) k).

(** A complete, successful login, then 29 minutes. *)
Definition loggedIn : list Event :=
  [Authenticate; LoginResponse 0 loginOk; TotpResponse 1 totpOk].

Definition renewalDue : list Event := [Elapse (29 * 60 * 1000); Fire].

End Service.

(* ================================================================== *)
(** ** Class [Avanza] of the single-file variant (login in the constructor) *)
(* ================================================================== *)

Module Monolith.
Import Http Retry Validation Login.

(** The part of an instance that takes part in the login: the socket
    fields and their subscriptions are those of [AvanzaRealTime] below.
    [credentials] is the value of [credentials$], [pipeline] the one
    subscription made by the constructor, [authSession] the value of
    [authSession$]. *)
Record State : Type := mkState {
  now : Z;
  authenticationTimeout : Z;
  credentials : Credentials;
  pipeline : Pipeline;
  requests : list Request;
  timers : list Scheduled;
  authSession : option AuthSession;
  uncaught : list Thrown
}.

Definition set_pipeline (p : Pipeline) (st : State) : State :=
  mkState (now st) (authenticationTimeout st) (credentials st) p
          (requests st) (timers st) (authSession st) (uncaught st).

Definition set_timers (ts : list Scheduled) (st : State) : State :=
  mkState (now st) (authenticationTimeout st) (credentials st) (pipeline st)
          (requests st) ts (authSession st) (uncaught st).

(** What the subscriber of the constructor does with an effect.  A value
    reaches the final [tap], [authSession$.next(values)], and from there
    the [delay] of the renewal; an error has no handler. *)
Definition perform (st : State) (e : Effect) : State :=
  match e with
  | Post r =>
      mkState (now st) (authenticationTimeout st) (credentials st)
              (pipeline st) (requests st ++ [r]) (timers st) (authSession st)
              (uncaught st)
  | StartTimer ms => set_timers (schedule (now st + ms, RetryOf 0) (timers st)) st
  | Emit v =>
      mkState (now st) (authenticationTimeout st) (credentials st)
              (pipeline st) (requests st)
              (schedule (now st + renewalDelay (authenticationTimeout st), Renewal)
                        (timers st))
              (Some v) (uncaught st)
  | Raise e =>
      mkState (now st) (authenticationTimeout st) (credentials st)
              (pipeline st) (requests st) (timers st) (authSession st)
              (uncaught st ++ [e])
  end.

Definition drive (f : nat -> Pipeline -> Pipeline * list Effect) (st : State) : State :=
  if stopped (pipeline st) then st
  else
    let (p', effects) := f (List.length (requests st)) (pipeline st) in
    fold_left perform effects (set_pipeline p' st).

Section WithTotp.

Variable totp : string -> Z -> string.

(** [credentials$] is a [BehaviorSubject] here: subscribing runs no check. *)
Definition validate (_ : Credentials) : Checked := Returns.

(** [authenticate$] emits to the pipeline. *)
Definition emit' (st : State) :=
  Login.emit (authenticationTimeout st).

(** The pipeline subscribes, in the constructor or after a retry timer:
    [credentials$] emits the credentials of the constructor. *)
Definition subscribe' (st : State) :=
  fun nextId => Login.subscribe totp defaultExcluded_monolith validate
                  (authenticationTimeout st) (now st) nextId (Some (credentials st)).

(** [new Avanza(credentials, _authenticationTimeout)]: the check, the
    subscription of the pipeline, and at the end [authenticate$.next()].
    A throw of the check leaves the constructor at once. *)
Definition construct (credentials : Credentials) (authenticationTimeout : Z)
    : CheckError + State :=
  match checkCredentials credentials authenticationTimeout with
  | Throws e => inl e
  | Returns =>
      let st0 := mkState 0 authenticationTimeout credentials fresh [] [] None [] in
      let st1 := drive (subscribe' st0) st0 in
      inr (drive (emit' st1) st1)
  end.

Definition fire (st : State) : State :=
  match timers st with
  | (due, kind) :: rest =>
      if due <=? now st then
        let st1 := set_timers rest st in
        match kind with
        | Renewal => drive (emit' st1) st1
        | RetryOf _ => drive (subscribe' st1) st1
        end
      else st
  | [] => st
  end.

Inductive Event : Type :=
| LoginResponse (id : nat) (response : Response)
| TotpResponse (id : nat) (response : Response)
| Elapse (ms : Z)
| Fire.

Definition step (st : State) (e : Event) : State :=
  match e with
  | LoginResponse id response =>
      drive (fun nextId =>
               Login.loginResponse defaultExcluded_monolith nextId id response) st
  | TotpResponse id response =>
      drive (fun _ => Login.totpResponse defaultExcluded_monolith id response) st
  | Elapse ms =>
      mkState (elapse ms (now st) (timers st)) (authenticationTimeout st)
              (credentials st) (pipeline st) (requests st) (timers st)
              (authSession st) (uncaught st)
  | Fire => fire st
  end.

Definition run (st : State) (es : list Event) : State := fold_left step es st.

End WithTotp.

(** The constructor posts the credentials twice (requests 0 and 1) and
    waits for the answer to the second; request 2 is the second factor. *)
Definition loggedIn : list Event :=
  [LoginResponse 1 loginOk; TotpResponse 2 totpOk].

(** The instance [new Avanza(someone, 30)] of the examples. *)
Definition started (totp : string -> Z -> string) : State :=
  match construct totp someone 30 with
  | inr st => st
  | inl _ => mkState 0 30 someone fresh [] [] None []
  end.

End Monolith.

(* ================================================================== *)
(** ** The realtime channel multiplexer (class [AvanzaRealTime])        *)
(* ================================================================== *)

Module RealTime.

(** [enum Channels] of models/constants.ts, with the string each member
    stands for. *)
Inductive Channels : Type :=
| ACCOUNTS | QUOTES | ORDERDEPTHS | TRADES
| BROKERTRADESUMMARY | POSITIONS | ORDERS | DEALS.

Definition channel_value (c : Channels) : string :=
  match c with
  | ACCOUNTS => "accounts"
  | QUOTES => "quotes"
  | ORDERDEPTHS => "orderdepths"
  | TRADES => "trades"
  | BROKERTRADESUMMARY => "brokertradesummary"
  | POSITIONS => "positions"
  | ORDERS => "orders"
  | DEALS => "deals"
  end.

Definition Channels_eqb (a b : Channels) : bool :=
  String.eqb (channel_value a) (channel_value b).

(** [Array.prototype.includes] on an array of channels. *)
Definition includes (xs : list Channels) (c : Channels) : bool :=
  existsb (Channels_eqb c) xs.

(** The value pushed into [addSubscription$]. *)
Record Subscription : Type := mkSubscription {
  channel : Channels;
  ids : list string
}.

(** [interface SessionAuth]. *)
Record SessionAuth : Type := mkSessionAuth {
  securityToken : string;
  authenticationSession : string;
  pushSubscriptionId : string
}.

(** The three object literals handed to [onSocketSend$.next].  Fields that
    are constants of the literal (advice of the handshake, connectionType,
    versions) are not repeated; [advice] of a connect frame records whether
    the literal carries [advice: {timeout: 0}]. *)
Inductive Frame : Type :=
| Handshake (id : Z) (subscriptionId : string)
| Connect (id : Z) (clientId : option string) (advice : bool)
| Subscribe (id : Z) (clientId : option string) (subscription : string).

Definition frame_id (f : Frame) : Z :=
  match f with
  | Handshake i _ => i
  | Connect i _ _ => i
  | Subscribe i _ _ => i
  end.

Definition frame_channel (f : Frame) : string :=
  match f with
  | Handshake _ _ => "/meta/handshake"
  | Connect _ _ _ => "/meta/connect"
  | Subscribe _ _ _ => "/meta/subscribe"
  end.

Definition is_subscribe (f : Frame) : bool :=
  match f with Subscribe _ _ _ => true | _ => false end.

Definition frame_subscription (f : Frame) : option string :=
  match f with Subscribe _ _ p => Some p | _ => None end.

(** One element of the array obtained from [JSON.parse(response.data)]:
    the fields the dispatcher reads ([channel], [successful], [clientId])
    and the rest of the frame, kept as [payload]. *)
Record Message : Type := mkMessage {
  msg_channel : string;
  successful : bool;
  clientId : option string;
  payload : string
}.

(** The subjects of the class, each by its current value.  [isSocketOpen]
    and [authSession] are [None] until their stream has emitted
    ([combineLatest] and [withLatestFrom] wait for a first value).
    [subscriptions] is what an observer of [subscriptions$] subscribed at
    construction holds; [sent] lists the arguments of [socket$.send], each
    frame standing for the one-element array [[message]]. *)
Record State : Type := mkState {
  addSubscription : option Subscription;
  subscriptions : list (option Subscription);
  messages : list Message;
  socketMessageCount : Z;
  socketClientId : option string;
  isSocketAuth : bool;
  isSocketOpen : option bool;
  authSession : option SessionAuth;
  sent : list Frame
}.

Definition init : State :=
  {| addSubscription := None;
     subscriptions := [None];
     messages := [];
     socketMessageCount := 1;
     socketClientId := None;
     isSocketAuth := false;
     isSocketOpen := None;
     authSession := None;
     sent := [] |}.

Definition set_addSubscription (v : option Subscription) (st : State) : State :=
  mkState v (subscriptions st ++ [v]) (messages st) (socketMessageCount st)
          (socketClientId st) (isSocketAuth st) (isSocketOpen st)
          (authSession st) (sent st).

Definition set_messages (v : list Message) (st : State) : State :=
  mkState (addSubscription st) (subscriptions st) v (socketMessageCount st)
          (socketClientId st) (isSocketAuth st) (isSocketOpen st)
          (authSession st) (sent st).

Definition set_socketClientId (v : option string) (st : State) : State :=
  mkState (addSubscription st) (subscriptions st) (messages st)
          (socketMessageCount st) v (isSocketAuth st) (isSocketOpen st)
          (authSession st) (sent st).

Definition set_isSocketAuth (v : bool) (st : State) : State :=
  mkState (addSubscription st) (subscriptions st) (messages st)
          (socketMessageCount st) (socketClientId st) v (isSocketOpen st)
          (authSession st) (sent st).

Definition set_isSocketOpen (v : bool) (st : State) : State :=
  mkState (addSubscription st) (subscriptions st) (messages st)
          (socketMessageCount st) (socketClientId st) (isSocketAuth st)
          (Some v) (authSession st) (sent st).

Definition set_authSession (v : SessionAuth) (st : State) : State :=
  mkState (addSubscription st) (subscriptions st) (messages st)
          (socketMessageCount st) (socketClientId st) (isSocketAuth st)
          (isSocketOpen st) (Some v) (sent st).

(** [onSocketSend$.next(message)].  Two subscribers, in subscription order:
    the first does [socketMessageCount$.next(value + 1)], the second
    [socket$.send(JSON.stringify([message]))]. *)
Definition onSocketSend_next (message : Frame) (st : State) : State :=
  mkState (addSubscription st) (subscriptions st) (messages st)
          (socketMessageCount st + 1) (socketClientId st) (isSocketAuth st)
          (isSocketOpen st) (authSession st) (sent st ++ [message]).

(** The two template strings of the subscription handler. *)
Definition accountPath (s : Subscription) : string :=
  ("/" ++ channel_value (channel s) ++ String.concat "," (ids s))%string.

Definition idPath (s : Subscription) (id : string) : string :=
  ("/" ++ channel_value (channel s) ++ "/" ++ id)%string.

(** Body of the [map] of the subscription pipeline.  [count] and
    [clientId] come from [withLatestFrom], read once when the pipeline
    receives the pair, and are used for every frame of the [for] loop. *)
Definition sendSubscription (subscription : Subscription) (st : State) : State :=
  let count := socketMessageCount st in
  let clientId := socketClientId st in
  if includes [ORDERS; DEALS; POSITIONS] (channel subscription) then
    onSocketSend_next (Subscribe count clientId (accountPath subscription)) st
  else
    fold_left
      (fun s id =>
         onSocketSend_next (Subscribe count clientId (idPath subscription id)) s)
      (ids subscription) st.

(** An emission of [combineLatest(addSubscription$, isSocketAuth$.pipe(
    distinctUntilChanged()))] followed by the [filter]: the pair holds the
    current value of [addSubscription$] ([None] is the initial [null], which
    the filter stops) and the last value let through by
    [distinctUntilChanged]. *)
Definition subscriptionPipeline (st : State) : State :=
  match addSubscription st with
  | Some subscription =>
      if isSocketAuth st then sendSubscription subscription st else st
  | None => st
  end.

(** [addSubscription$.next(subscription)]. *)
Definition addSubscription_next (subscription : Subscription) (st : State) : State :=
  subscriptionPipeline (set_addSubscription (Some subscription) st).

(** [isSocketAuth$.next(v)].  Every value of the subject goes through
    [distinctUntilChanged], so the value it compares with is the previous
    value of the subject; an equal value stops there. *)
Definition isSocketAuth_next (v : bool) (st : State) : State :=
  if Bool.eqb v (isSocketAuth st) then st
  else subscriptionPipeline (set_isSocketAuth v st).

(** [onSocketAuth$.next()]: the handshake frame, with the current counter
    and the latest session. *)
Definition onSocketAuth_next (st : State) : State :=
  match authSession st with
  | Some session =>
      onSocketSend_next
        (Handshake (socketMessageCount st) (pushSubscriptionId session)) st
  | None => st
  end.

(** An emission of [combineLatest(isSocketOpen$, authSession$)] followed by
    the [filter] and the [tap].  A session is an object, so [!!authSession]
    holds as soon as one has been pushed. *)
Definition openPipeline (st : State) : State :=
  match isSocketOpen st, authSession st with
  | Some true, Some _ => onSocketAuth_next st
  | _, _ => st
  end.

(** One iteration of [for (const message of messages)].  The two
    arguments [socketMessageCount] and [socketClientId] are the values
    [withLatestFrom] paired with the socket event. *)
Definition dispatch (socketMessageCount0 : Z) (socketClientId0 : option string)
    (st : State) (message : Message) : State :=
  if String.eqb (msg_channel message) "/meta/handshake" then
    if successful message then
      onSocketSend_next
        (Connect socketMessageCount0 (clientId message) true)
        (set_socketClientId (clientId message) st)
    else st
  else if String.eqb (msg_channel message) "/meta/connect" then
    onSocketSend_next
      (Connect socketMessageCount0 socketClientId0 false)
      (isSocketAuth_next true st)
  else set_messages (messages st ++ [message]) st.

Definition onSocketMessage (batch : list Message) (st : State) : State :=
  fold_left (dispatch (socketMessageCount st) (socketClientId st)) batch st.

(** What can happen to an instance: the three socket events, a session
    pushed into [authSession$], a request pushed into [addSubscription$]. *)
Inductive Event : Type :=
| SocketOpen
| SocketClose
| SocketMessage (batch : list Message)
| AuthSession (session : SessionAuth)
| AddSubscription (subscription : Subscription).

Definition step (st : State) (e : Event) : State :=
  match e with
  | SocketOpen => openPipeline (set_isSocketOpen true st)
  | SocketClose => openPipeline (set_isSocketOpen false st)
  | SocketMessage batch => onSocketMessage batch st
  | AuthSession session => openPipeline (set_authSession session st)
  | AddSubscription subscription => addSubscription_next subscription st
  end.

Definition run (st : State) (es : list Event) : State := fold_left step es st.

(** The frames written to the socket while [e] is handled. *)
Definition outputs (st : State) (e : Event) : list Frame :=
  skipn (List.length (sent st)) (sent (step st e)).

Definition subscribesOf (fs : list Frame) : list Frame := filter is_subscribe fs.

Definition pathsOf (fs : list Frame) : list string :=
  flat_map (fun f => match frame_subscription f with
                     | Some p => [p] | None => [] end) fs.

(** The frames [sendSubscription] sends for a request, given the counter
    and the client id it read. *)
Definition subscriptionFrames (s : Subscription) (count : Z)
    (clientId : option string) : list Frame :=
  if includes [ORDERS; DEALS; POSITIONS] (channel s)
  then [Subscribe count clientId (accountPath s)]
  else map (fun id => Subscribe count clientId (idPath s id)) (ids s).

(** Their subscription paths. *)
Definition subscriptionPaths (s : Subscription) : list string :=
  if includes [ORDERS; DEALS; POSITIONS] (channel s)
  then [accountPath s]
  else map (idPath s) (ids s).

(** The paths of the request [addSubscription$] currently holds. *)
Definition latestPaths (st : State) : list string :=
  match addSubscription st with
  | Some s => subscriptionPaths s
  | None => []
  end.

(** An inbound frame dispatched to the [/meta/connect] case. *)
Definition isConnectMessage (m : Message) : bool :=
  String.eqb (msg_channel m) "/meta/connect".



(** [st'] is [st] after the frames [out] were handed to the socket. *)
Definition sends (st st' : State) (out : list Frame) : Prop :=
  sent st' = sent st ++ out /\
  socketMessageCount st' = socketMessageCount st + Z.of_nat (List.length out).

(** The fields no inbound frame changes. *)
Definition keeps (st st' : State) : Prop :=
  addSubscription st' = addSubscription st /\
  subscriptions st' = subscriptions st /\
  isSocketOpen st' = isSocketOpen st /\
  authSession st' = authSession st.

(** [onSocketSend$.next] for each frame of a list in turn. *)
Definition sendFrames (fs : list Frame) (st : State) : State :=
  fold_left (fun s f => onSocketSend_next f s) fs st.

(** Frames used in the examples. *)
Definition handshakeOk (cid : string) : Message :=
  mkMessage "/meta/handshake" true (Some cid) "".
Definition connectOk : Message := mkMessage "/meta/connect" true None "".
Definition session0 : SessionAuth := mkSessionAuth "tok" "sess" "push".

(** Consecutive integers: each next one is the previous plus one. *)
Fixpoint consecutive (l : list Z) : bool :=
  match l with
  | a :: (b :: _) as rest => (b =? a + 1) && consecutive rest
  | _ => true
  end.


(** Scenarios. *)
Definition quotes56 : Subscription := mkSubscription QUOTES ["5"; "6"]%string.
Definition orders56 : Subscription := mkSubscription ORDERS ["5"; "6"]%string.

(** Session available, socket open, handshake accepted with client id
    [C1]: the connect frame is out, its answer has not arrived. *)
Definition handshaken : State :=
  run init [AuthSession session0; SocketOpen; SocketMessage [handshakeOk "C1"]].

(** The same after the answer to the connect frame. *)
Definition connected : State := step handshaken (SocketMessage [connectOk]).

(** A request made before the connect answer, and that answer. *)
Definition replayTrace : list Event :=
  [AuthSession session0; SocketOpen; SocketMessage [handshakeOk "C1"];
   AddSubscription quotes56; SocketMessage [connectOk]].

(** Two requests made before the connect answer. *)
Definition twoPending : State :=
  run handshaken [AddSubscription (mkSubscription QUOTES ["1"]%string);
                  AddSubscription (mkSubscription TRADES ["2"]%string)].

End RealTime.

(* ================================================================== *)
(** ** Statements of the specification that the code does not satisfy   *)
(* ================================================================== *)

Module Stated.

(** "Whenever the connection transitions into the authenticated state,
    every entry currently stored in the Subscription Ledger is (re)sent as
    a [/meta/subscribe] frame." *)
Definition replays_whole_ledger (st : RealTime.State) (e : RealTime.Event) : Prop :=
  RealTime.isSocketAuth st = false ->
  RealTime.isSocketAuth (RealTime.step st e) = true ->
  forall s, In (Some s) (RealTime.subscriptions st) ->
            incl (RealTime.subscriptionPaths s)
                 (RealTime.pathsOf (RealTime.outputs st e)).

(** "For every socket close event, the multiplexer discards the stored
    clientId and resets the handshake progress to Unauthenticated." *)
Definition close_discards (st : RealTime.State) : Prop :=
  RealTime.socketClientId (RealTime.step st RealTime.SocketClose) = None /\
  RealTime.isSocketAuth (RealTime.step st RealTime.SocketClose) = false.

(** "addSubscription with channel orders and ids 5, 6 made while the
    connection is authenticated: exactly one frame, path /orders56." *)
Definition orders_path_is_concatenation (st : RealTime.State) : Prop :=
  RealTime.isSocketAuth st = true ->
  RealTime.pathsOf
    (RealTime.outputs st (RealTime.AddSubscription RealTime.orders56))
  = ["/orders56"%string].

(** "For every pair of authenticate() invocations where the second is made
    while the first's login sequence is still in flight, no duplicate
    network attempts are issued." *)
Definition joins_in_flight (totp : string -> Z -> string) (st : Service.State) : Prop :=
  (exists c, In c (Service.calls st) /\ Service.promise c = Service.Pending /\
             Login.login (Service.pipeline c) <> None) ->
  Service.requests (Service.authenticate totp st) = Service.requests st.


(** "401 always being excluded": a failure with status code 401 is
    propagated immediately, whatever the options. *)
Definition always_excludes_401 : Prop :=
  forall (d : list Z) (o : Retry.Options) (error : Http.Thrown) (i : Z),
    d = Retry.defaultExcluded_service \/ d = Retry.defaultExcluded_monolith ->
    Http.statusCode_of error = Some (Http.JNum 401) ->
    Retry.genericRetryStrategy d o error i = Retry.ThrowError error.

(** "Credential validation fails with InvalidTimeout exactly when the
    timeout lies outside [30, 1440]." *)
Definition timeout_failure_iff_out_of_range : Prop :=
  forall (c : Validation.Credentials) (t : Z),
    Validation.failsWith Validation.InvalidTimeout c t <-> (t < 30 \/ 1440 < t).

End Stated.


(* ================================================================== *)
(** ** What an observer of the multiplexer sees                         *)
(* ================================================================== *)

Module Traffic.
Import RealTime.

(** An inbound frame dispatched to the [default] case of the [switch]. *)
Definition isData (m : Message) : bool :=
  negb (String.eqb (msg_channel m) "/meta/handshake")
  && negb (String.eqb (msg_channel m) "/meta/connect").

(** The frames of a run that reach [messages$], in arrival order. *)
Definition forwarded (es : list Event) : list Message :=
  flat_map (fun e => match e with
                     | SocketMessage batch => filter isData batch
                     | _ => []
                     end) es.

(** The requests pushed into [addSubscription$] during a run, in order. *)
Definition requested (es : list Event) : list (option Subscription) :=
  flat_map (fun e => match e with
                     | AddSubscription s => [Some s]
                     | _ => []
                     end) es.

Definition isConnectFrame (f : Frame) : bool :=
  match f with Connect _ _ _ => true | _ => false end.

Definition isHandshakeFrame (f : Frame) : bool :=
  match f with Handshake _ _ => true | _ => false end.

(** The connect frames the two protocol cases of the [switch] build for a
    batch, from the counter and the client id paired with the batch. *)
Definition connectFrames (count : Z) (clientId0 : option string)
    (batch : list Message) : list Frame :=
  flat_map
    (fun m =>
       if String.eqb (msg_channel m) "/meta/handshake" then
         if successful m then [Connect count (clientId m) true] else []
       else if String.eqb (msg_channel m) "/meta/connect" then
         [Connect count clientId0 false]
       else []) batch.

(** The id of every frame sent is at least 1 and at most its position on
    the wire (the first frame has position 1); the counter is one more than
    the number of frames sent. *)
Definition wellNumbered (st : State) : Prop :=
  socketMessageCount st = 1 + Z.of_nat (List.length (sent st)) /\
  forall k f, nth_error (sent st) k = Some f ->
              1 <= frame_id f <= Z.of_nat k + 1.

End Traffic.

(* ================================================================== *)
(** ** Where a [retryWhen] loop ends                                    *)
(* ================================================================== *)

Module RetryRun.
Import Http Retry.

(** The outcome of subscription number [k] (from 0) ends the loop: it is a
    value, an error with an excluded status code, or an error that comes
    after [max] errors. *)
Definition stopsAt {A : Type} (max : Z) (excluded : list Z) (k : nat)
    (outcome : Thrown + A) : bool :=
  match outcome with
  | inr _ => true
  | inl error => (Z.of_nat k + 1 >? max) || isExcluded excluded error
  end.

Definition endingOf {A : Type} (outcome : Thrown + A) : Ending A :=
  match outcome with
  | inr value => Emitted value
  | inl error => Failed error
  end.


End RetryRun.

(* ================================================================== *)
(** ** Runs of the service class used in the properties                 *)
(* ================================================================== *)

Module Runs.
Import Http Validation Login.

(** Events other than a call of [setCredentials]. *)
Definition keepsCredentials (e : Service.Event) : bool :=
  match e with Service.SetCredentials _ => false | _ => true end.

(** A pipeline that holds no credentials and waits for no answer. *)
Definition idle (p : Pipeline) : Prop :=
  latest p = None /\ login p = None /\ second p = None.

(** A step that keeps an idle pipeline idle and asks for no request. *)
Definition harmless (f : nat -> Pipeline -> Pipeline * list Effect) : Prop :=
  forall n p, idle p -> idle (fst (f n p)) /\ posts (snd (f n p)) = [].

(** Every call of an instance is idle. *)
Definition allIdle (st : Service.State) : Prop :=
  forall k call, nth_error (Service.calls st) k = Some call ->
                 idle (Service.pipeline call).

(** The clock reaches the retry timer number 1, 2, ..., [n] of a call
    (10, 20, ... seconds after the failure before it), and the timer runs. *)
Definition retryRounds (n : nat) : list Service.Event :=
  flat_map (fun k => [Service.Elapse (Z.of_nat k * 10000); Service.Fire])
           (seq 1 n).

(** An instance with one call whose subscription has failed [i] times on
    the check of the credentials and waits for retry timer number [i],
    started at time [now]. *)
Definition failing (c : Credentials) (timeout : Z) (text : string) (i now : Z)
    : Service.State :=
  Service.mkState now timeout [c] false [ThrownOther text]
    [Service.mkCall (mkPipeline false None None None i false) Service.Pending]
    [] [(now + i * 10000, RetryOf 0)] None.

(** The same instance once the promise is rejected. *)
Definition rejected (c : Credentials) (timeout : Z) (text : string) (now : Z)
    : Service.State :=
  Service.mkState now timeout [c] false [ThrownOther text]
    [Service.mkCall (mkPipeline false None None None 11 true)
       (Service.Rejected (ThrownOther text))]
    [] [] None.

(** Credentials without user name. *)
Definition nobody : Credentials := mkCredentials "" "secret" None "JBSWY3DPEHPK3PXP".

(** An answer with status 200 and a JSON body without [twoFactorLogin]. *)
Definition emptyOk : Response := mkResponse 200 (Some (JObj [])) [].

(** An answer with status 503 and a JSON body. *)
Definition unavailable : Response :=
  mkResponse 503 (Some (JObj [("message"%string, JStr "try later")])) [].

(** A login answer the pipeline cannot go on with although it is no
    refusal: the body is not JSON, or the status test passes and the member
    [twoFactorLogin] is missing or [null]. *)
Definition malformed (r : Response) : bool :=
  match request_json r with
  | None => true
  | Some json =>
      negb (statusCode_isnt_200 json) &&
      match get "twoFactorLogin" json with
      | None | Some JNull => true
      | Some _ => false
      end
  end.

(** Other credentials, with another secret. *)
Definition other : Credentials :=
  mkCredentials "other" "hidden" None "KRSXG5CTMVRXEZLU".

(** Status 400 with a JSON body. *)
Definition badRequest : Http.Response :=
  Http.mkResponse 400 (Some (Http.JObj [("message"%string, Http.JStr "bad request")])) [].

End Runs.

(* ================================================================== *)
(** ** The calls of the REST interface ([call] and the path builders)   *)
(* ================================================================== *)

Module Api.
Import Http.

(** [enum Paths] of models/constants.ts: the members the two classes use. *)
Definition BASE : string := "www.avanza.se".
Definition POSITIONS_PATH : string := "/_mobile/account/positions".
Definition OVERVIEW_PATH : string := "/_mobile/account/overview".
Definition ACCOUNT_OVERVIEW_PATH : string := "/_mobile/account/{0}/overview".
Definition DEALS_AND_ORDERS_PATH : string := "/_mobile/account/dealsandorders".
Definition INSTRUMENT_PATH : string := "/_mobile/market/{0}/{1}".
Definition ORDERBOOK_PATH : string := "/_mobile/order/{0}".
Definition ORDERBOOK_LIST_PATH : string := "/_mobile/market/orderbooklist/{0}".
Definition CHARTDATA_PATH : string := "/_mobile/chart/orderbook/{0}".
Definition INSPIRATION_LIST_PATH : string := "/_mobile/marketing/inspirationlist/{0}".

(** [enum InstrumentType], with the string each member stands for. *)
Inductive InstrumentType : Type :=
| STOCK | FUND | BOND | OPTION | FUTURE_FORWARD | CERTIFICATE | WARRANT
| ETF | INDEX | PREMIUM_BOND | SUBSCRIPTION_OPTION | EQUITY_LINKED_BOND
| CONVERTIBLE.

Definition instrument_value (t : InstrumentType) : string :=
  match t with
  | STOCK => "stock"
  | FUND => "fund"
  | BOND => "bond"
  | OPTION => "option"
  | FUTURE_FORWARD => "future_forward"
  | CERTIFICATE => "certificate"
  | WARRANT => "warrant"
  | ETF => "exchange_traded_fund"
  | INDEX => "index"
  | PREMIUM_BOND => "premium_bond"
  | SUBSCRIPTION_OPTION => "subscription_option"
  | EQUITY_LINKED_BOND => "equity_linked_bond"
  | CONVERTIBLE => "convertible"
  end.

(** [enum ChartDataPeriod]. *)
Inductive ChartDataPeriod : Type :=
| TODAY | ONE_MONTH | THREE_MONTHS | ONE_WEEK | THIS_YEAR | ONE_YEAR
| FIVE_YEARS.

Definition period_value (p : ChartDataPeriod) : string :=
  match p with
  | TODAY => "today"
  | ONE_MONTH => "one_month"
  | THREE_MONTHS => "three_months"
  | ONE_WEEK => "one_week"
  | THIS_YEAR => "this_year"
  | ONE_YEAR => "one_year"
  | FIVE_YEARS => "five_years"
  end.

(** [String.prototype.toLowerCase], on the characters of ASCII. *)
Definition lower (c : ascii) : ascii :=
  let n := nat_of_ascii c in
  if (Nat.leb 65 n && Nat.leb n 90)%bool then ascii_of_nat (n + 32) else c.

Fixpoint toLowerCase (s : string) : string :=
  match s with
  | EmptyString => EmptyString
  | String c rest => String (lower c) (toLowerCase rest)
  end.

(** [s] starts with [p]: what follows [p]. *)
Fixpoint stripPrefix (p s : string) : option string :=
  match p, s with
  | EmptyString, _ => Some s
  | String a p', String b s' => if Ascii.eqb a b then stripPrefix p' s' else None
  | String _ _, EmptyString => None
  end.

(** The first occurrence of [pattern] in [s]: the text before it and the
    text after it. *)
Fixpoint findFirst (pattern s : string) : option (string * string) :=
  match stripPrefix pattern s with
  | Some rest => Some (EmptyString, rest)
  | None =>
      match s with
      | EmptyString => None
      | String c s' =>
          match findFirst pattern s' with
          | Some (before, after) => Some (String c before, after)
          | None => None
          end
      end
  end.

(** The replacement text of [replace] for a string pattern: [$$] is a
    dollar sign, [$&] the matched text, [$`] the text before the match,
    [$'] the text after it; there are no captures, so any other [$] stands
    for itself. *)
Fixpoint expand (matched before after replacement : string) : string :=
  match replacement with
  | EmptyString => EmptyString
  | String c rest =>
      if Ascii.eqb c "$" then
        match rest with
        | EmptyString => String c EmptyString
        | String d rest' =>
            if Ascii.eqb d "$" then String "$" (expand matched before after rest')
            else if Ascii.eqb d "&" then matched ++ expand matched before after rest'
            else if Ascii.eqb d "`" then before ++ expand matched before after rest'
            else if Ascii.eqb d "'" then after ++ expand matched before after rest'
            else String c (expand matched before after rest)
        end
      else String c (expand matched before after rest)
  end%string.

(** [s.replace(pattern, replacement)] with two strings: only the first
    occurrence is replaced. *)
Definition replace (pattern replacement s : string) : string :=
  match findFirst pattern s with
  | Some (before, after) =>
      (before ++ expand pattern before after replacement ++ after)%string
  | None => s
  end.

(** A header value: a string, [null] or [undefined] ([None]), kept as the
    caller gave it. *)
Definition Value : Type := option json.

Definition ofToken (token : option string) : Value :=
  match token with
  | Some s => Some (JStr s)
  | None => Some JNull
  end.

Fixpoint put (key : string) (v : Value) (o : list (string * Value))
    : list (string * Value) :=
  match o with
  | [] => [(key, v)]
  | (k, w) :: rest =>
      if String.eqb k key then (k, v) :: rest else (k, w) :: put key v rest
  end.

(** The call of [fetch] made by [request] for a call without body. *)
Record Fetch : Type := mkFetch {
  url : string;
  method : string;
  headers : list (string * Value)
}.

(** [request(path, { method, headers })]: the two fixed headers, then
    [...headers]. *)
Definition request (path method : string) (given : list (string * Value)) : Fetch :=
  mkFetch ("https://" ++ BASE ++ path) method
          (fold_left (fun o kv => put (fst kv) (snd kv) o) given
             [("Accept"%string, Some (JStr "*/*"));
              ("Content-Type"%string, Some (JStr "application/json"))]).

(** The session headers, from the two values [call] reads. *)
Definition sessionHeaders (authenticationSession : Value) (securityToken : Value)
    : list (string * Value) :=
  [("X-AuthenticationSession"%string, authenticationSession);
   ("X-SecurityToken"%string, securityToken)].

(** *** The service file: the caller passes the session. *)

Definition call (method path : string) (sessionAuth : Service.SessionAuth) : Fetch :=
  request path method
    (sessionHeaders (Service.authenticationSession sessionAuth)
                    (ofToken (Service.securityToken sessionAuth))).

Definition getInspirationLists (auth : Service.SessionAuth) : Fetch :=
  call "get" (replace "{0}" "" INSPIRATION_LIST_PATH) auth.

Definition getPositions (auth : Service.SessionAuth) : Fetch :=
  call "get" POSITIONS_PATH auth.

Definition getOverview (auth : Service.SessionAuth) : Fetch :=
  call "get" OVERVIEW_PATH auth.

Definition getAccountOverview (accountId : string) (auth : Service.SessionAuth)
    : Fetch :=
  let path := replace "{0}" accountId ACCOUNT_OVERVIEW_PATH in
  call "GET" path auth.

Definition getDealsAndOrders (auth : Service.SessionAuth) : Fetch :=
  call "GET" DEALS_AND_ORDERS_PATH auth.

Definition getInstrument (instrumentType : InstrumentType) (instrumentId : string)
    (auth : Service.SessionAuth) : Fetch :=
  let path := replace "{1}" instrumentId
                (replace "{0}" (toLowerCase (instrument_value instrumentType))
                   INSTRUMENT_PATH) in
  call "GET" path auth.

Section Query.

(** [stringify] of the package qs, applied to an object with string
    members. *)
Variable stringify : list (string * string) -> string.

Definition getOrderbook (orderbookId : string) (instrumentType : InstrumentType)
    (auth : Service.SessionAuth) : Fetch :=
  let path := replace "{0}" (toLowerCase (instrument_value instrumentType))
                ORDERBOOK_PATH in
  let query := stringify [("orderbookId"%string, orderbookId)] in
  call "GET" (path ++ "?" ++ query) auth.

Definition getOrderbooks (orderbookIds : list string) (auth : Service.SessionAuth)
    : Fetch :=
  let ids := String.concat "," orderbookIds in
  let path := replace "{0}" ids ORDERBOOK_LIST_PATH in
  let query := stringify [("sort"%string, "name"%string)] in
  call "GET" (path ++ "?" ++ query) auth.

Definition getChartdata (orderbookId : string) (chartDataPeriod : ChartDataPeriod)
    (auth : Service.SessionAuth) : Fetch :=
  let path := replace "{0}" orderbookId CHARTDATA_PATH in
  let query := stringify [("timePeriod"%string, period_value chartDataPeriod)] in
  call "GET" (path ++ "?" ++ query) auth.

End Query.

(** No dollar sign in a string. *)
Fixpoint plain (s : string) : bool :=
  match s with
  | EmptyString => true
  | String c rest => negb (Ascii.eqb c "$") && plain rest
  end.

Definition someAuth : Service.SessionAuth :=
  Service.mkSessionAuth (Some "token-1"%string) (Some (JStr "session-1"))
                        (Some (JStr "push-1")).

End Api.

(* ================================================================== *)
(** ** [call] of the single-file class: requests wait for the session   *)
(* ================================================================== *)

Module Client.
Import Http Login.

(** An instance of the single-file class with the calls of [call], up to
    the request each of them makes (the answers, which settle the promises,
    are left out):
    - [core]: the login side;
    - [waiting]: the calls subscribed to [authSession$] that have seen no
      session yet, oldest first, each with its method and path;
    - [fetched]: the calls of [fetch] made for [call], in order. *)
Record State : Type := mkState {
  core : Monolith.State;
  waiting : list (string * string);
  fetched : list Api.Fetch
}.

(** The [request] of the [switchMap] of [call]. *)
Definition fetchWith (authSession : AuthSession) (target : string * string)
    : Api.Fetch :=
  Api.request (snd target) (fst target)
    (Api.sessionHeaders (get "authenticationSession" (auth authSession))
                        (Api.ofToken (securityToken authSession))).

(** [call(method, path)]: [combineLatest] receives the value of
    [authSession$] at once; [null] is filtered out and the call waits,
    a session passes [first] and the request is made. *)
Definition call (method path : string) (st : State) : State :=
  match Monolith.authSession (core st) with
  | Some authSession =>
      mkState (core st) (waiting st)
              (fetched st ++ [fetchWith authSession (method, path)])
  | None => mkState (core st) (waiting st ++ [(method, path)]) (fetched st)
  end.

(** Something happens on the login side.  A call waits only while no
    session has been published, so a session present afterwards was
    published by this step: [authSession$] hands it to the waiting calls in
    the order they subscribed, and [first] ends each of them. *)
Definition login (totp : string -> Z -> string) (e : Monolith.Event) (st : State)
    : State :=
  let core' := Monolith.step totp (core st) e in
  match Monolith.authSession core' with
  | Some authSession =>
      mkState core' [] (fetched st ++ map (fetchWith authSession) (waiting st))
  | None => mkState core' (waiting st) (fetched st)
  end.

Definition getInspirationLists : State -> State :=
  call "get" (Api.replace "{0}" "" Api.INSPIRATION_LIST_PATH).

Definition getPositions : State -> State := call "get" Api.POSITIONS_PATH.

Definition getOverview : State -> State := call "get" Api.OVERVIEW_PATH.

Definition getAccountOverview (accountId : string) : State -> State :=
  let path := Api.replace "{0}" accountId Api.ACCOUNT_OVERVIEW_PATH in
  call "GET" path.

Definition getDealsAndOrders : State -> State :=
  call "GET" Api.DEALS_AND_ORDERS_PATH.

Inductive Event : Type :=
| Call (method path : string)
| Login (e : Monolith.Event).

Definition step (totp : string -> Z -> string) (st : State) (e : Event) : State :=
  match e with
  | Call method path => call method path st
  | Login e' => login totp e' st
  end.

Definition run (totp : string -> Z -> string) (st : State) (es : list Event)
    : State :=
  fold_left (step totp) es st.

(** The instance the constructor leaves. *)
Definition construct (totp : string -> Z -> string)
    (credentials : Validation.Credentials) (authenticationTimeout : Z)
    : Validation.CheckError + State :=
  match Monolith.construct totp credentials authenticationTimeout with
  | inl e => inl e
  | inr st => inr (mkState st [] [])
  end.

(** The event of a call with this method and path. *)
Definition callOf (target : string * string) : Event :=
  Call (fst target) (snd target).

(** The calls among the events, in order. *)
Definition callsOf (es : list Event) : list (string * string) :=
  flat_map (fun e => match e with Call m p => [(m, p)] | Login _ => [] end) es.

(** Method and address of a call, and of a call of [fetch]. *)
Definition addressOf (target : string * string) : string * string :=
  (fst target, ("https://" ++ Api.BASE ++ snd target)%string).

Definition addressed (f : Api.Fetch) : string * string :=
  (Api.method f, Api.url f).

End Client.

(* ================================================================== *)
(** * Properties                                                        *)
(* ================================================================== *)

(** ** The definitions on small inputs *)

Example request_merges_status :
  Http.request_json Login.unauthorized =
  Some [("statusCode"%string, Http.JNum 401); ("message"%string, Http.JStr "denied")].
Proof. reflexivity. Qed.

Example request_body_overrides_status :
  Http.request_json Login.disguised200 =
  Some [("statusCode"%string, Http.JNum 503);
        ("twoFactorLogin"%string,
         Http.JObj [("transactionId"%string, Http.JStr "tx-1")])].
Proof. reflexivity. Qed.

Example spread_of_an_array :
  Http.spread [("statusCode"%string, Http.JNum 200)]
              (Http.JArr [Http.JNull; Http.JBool true]) =
  [("statusCode"%string, Http.JNum 200); ("0"%string, Http.JNull);
   ("1"%string, Http.JBool true)].
Proof. reflexivity. Qed.

Example strategy_first_failure :
  Retry.genericRetryStrategy Retry.defaultExcluded_service Retry.noOptions
    (Http.ThrownJson [("statusCode"%string, Http.JNum 500)]) 0 = Retry.Timer 1000.
Proof. reflexivity. Qed.

Example strategy_fourth_failure :
  Retry.genericRetryStrategy Retry.defaultExcluded_service Retry.noOptions
    (Http.ThrownJson [("statusCode"%string, Http.JNum 500)]) 3 =
  Retry.ThrowError (Http.ThrownJson [("statusCode"%string, Http.JNum 500)]).
Proof. reflexivity. Qed.

Example strategy_400_differs :
  Retry.genericRetryStrategy Retry.defaultExcluded_service Retry.noOptions
    (Http.ThrownJson [("statusCode"%string, Http.JNum 400)]) 0 =
  Retry.ThrowError (Http.ThrownJson [("statusCode"%string, Http.JNum 400)]) /\
  Retry.genericRetryStrategy Retry.defaultExcluded_monolith Retry.noOptions
    (Http.ThrownJson [("statusCode"%string, Http.JNum 400)]) 0 = Retry.Timer 1000.
Proof. split; reflexivity. Qed.

Example check_accepts_30 :
  Validation.checkCredentials Login.someone 30 = Validation.Returns.
Proof. reflexivity. Qed.

Example check_rejects_29 :
  Validation.checkCredentials Login.someone 29 =
  Validation.Throws Validation.TimeoutNotInRange.
Proof. reflexivity. Qed.

Example monolith_constructor_posts_twice :
  Monolith.requests (Monolith.started Login.fixedCode) =
  [Login.LoginRequest 30 "secret" "user"; Login.LoginRequest 30 "secret" "user"].
Proof. reflexivity. Qed.

Example service_retries_a_500 :
  Service.timers
    (Service.run Login.fixedCode (Service.construct (Some Login.someone) 30)
       [Service.Authenticate;
        Service.LoginResponse 0 (Http.mkResponse 500 (Some (Http.JObj [])) [])]) =
  [(10000, Login.RetryOf 0)].
Proof. reflexivity. Qed.

Example realtime_first_frames :
  RealTime.sent RealTime.connected =
  [RealTime.Handshake 1 "push"; RealTime.Connect 2 (Some "C1"%string) true;
   RealTime.Connect 3 (Some "C1"%string) false].
Proof. reflexivity. Qed.

(** ** Lists and strings *)

Lemma skipn_length_app {A : Type} (l l' : list A) :
  skipn (List.length l) (l ++ l') = l'.
Proof. induction l as [|a l IH]; simpl; auto. Qed.

Lemma handshake_is_not_connect (c : string) :
  String.eqb c "/meta/handshake" = true -> String.eqb c "/meta/connect" = false.
Proof.
  intro H. apply String.eqb_eq in H. subst c. reflexivity.
Qed.

(** ** The multiplexer *)

Lemma sendFrames_closed (fs : list RealTime.Frame) (st : RealTime.State) :
  RealTime.sendFrames fs st =
  RealTime.mkState (RealTime.addSubscription st) (RealTime.subscriptions st)
    (RealTime.messages st)
    (RealTime.socketMessageCount st + Z.of_nat (List.length fs))
    (RealTime.socketClientId st) (RealTime.isSocketAuth st)
    (RealTime.isSocketOpen st) (RealTime.authSession st)
    (RealTime.sent st ++ fs).
Proof.
  unfold RealTime.sendFrames.
  revert st. induction fs as [|f fs IH]; intro st.
  - destruct st; simpl. now rewrite Z.add_0_r, app_nil_r.
  - cbn [fold_left]. rewrite IH. unfold RealTime.onSocketSend_next; simpl.
    f_equal.
    + lia.
    + now rewrite <- app_assoc.
Qed.

Lemma sendSubscription_closed (s : RealTime.Subscription) (st : RealTime.State) :
  RealTime.sendSubscription s st =
  RealTime.sendFrames
    (RealTime.subscriptionFrames s (RealTime.socketMessageCount st)
       (RealTime.socketClientId st)) st.
Proof.
  unfold RealTime.sendSubscription, RealTime.subscriptionFrames, RealTime.sendFrames.
  destruct (RealTime.includes _ _).
  - reflexivity.
  - generalize (RealTime.socketMessageCount st) (RealTime.socketClientId st).
    intros count cid. revert st.
    induction (RealTime.ids s) as [|id l IH]; intro st; simpl; auto.
Qed.

Lemma pathsOf_app (a b : list RealTime.Frame) :
  RealTime.pathsOf (a ++ b) = RealTime.pathsOf a ++ RealTime.pathsOf b.
Proof. unfold RealTime.pathsOf. apply flat_map_app. Qed.

Lemma pathsOf_subscriptionFrames (s : RealTime.Subscription) count cid :
  RealTime.pathsOf (RealTime.subscriptionFrames s count cid) =
  RealTime.subscriptionPaths s.
Proof.
  unfold RealTime.subscriptionFrames, RealTime.subscriptionPaths.
  destruct (RealTime.includes _ _); [reflexivity|].
  induction (RealTime.ids s) as [|id l IH]; simpl; [reflexivity|].
  now f_equal.
Qed.

Lemma sends_refl (st : RealTime.State) : RealTime.sends st st [].
Proof. split; simpl; [now rewrite app_nil_r | lia]. Qed.

Lemma sends_trans (a b c : RealTime.State) (o1 o2 : list RealTime.Frame) :
  RealTime.sends a b o1 -> RealTime.sends b c o2 -> RealTime.sends a c (o1 ++ o2).
Proof.
  intros [H1 H2] [H3 H4]. split.
  - rewrite H3, H1. now rewrite app_assoc.
  - rewrite H4, H2, length_app, Nat2Z.inj_add. lia.
Qed.

Lemma sends_sendFrames (fs : list RealTime.Frame) (st : RealTime.State) :
  RealTime.sends st (RealTime.sendFrames fs st) fs.
Proof. rewrite sendFrames_closed. split; reflexivity. Qed.

Lemma sends_outputs (st : RealTime.State) (e : RealTime.Event) out :
  RealTime.sends st (RealTime.step st e) out -> RealTime.outputs st e = out.
Proof.
  intros [H _]. unfold RealTime.outputs. rewrite H. apply skipn_length_app.
Qed.

Lemma subscriptionPipeline_closed (st : RealTime.State) :
  RealTime.subscriptionPipeline st =
  RealTime.sendFrames
    (match RealTime.addSubscription st with
     | Some s =>
         if RealTime.isSocketAuth st
         then RealTime.subscriptionFrames s (RealTime.socketMessageCount st)
                (RealTime.socketClientId st)
         else []
     | None => []
     end) st.
Proof.
  unfold RealTime.subscriptionPipeline.
  destruct (RealTime.addSubscription st) as [s|]; [|reflexivity].
  destruct (RealTime.isSocketAuth st); [|reflexivity].
  apply sendSubscription_closed.
Qed.

(** One inbound frame: what is sent, what is kept, and when the
    authenticated flag is raised. *)
Lemma dispatch_spec (c0 : Z) (cid0 : option string) (st : RealTime.State)
    (m : RealTime.Message) :
  exists out,
    RealTime.sends st (RealTime.dispatch c0 cid0 st m) out /\
    RealTime.keeps st (RealTime.dispatch c0 cid0 st m) /\
    RealTime.isSocketAuth (RealTime.dispatch c0 cid0 st m) =
      RealTime.isSocketAuth st || RealTime.isConnectMessage m /\
    RealTime.pathsOf out =
      (if negb (RealTime.isSocketAuth st) && RealTime.isConnectMessage m
       then RealTime.latestPaths st else []).
Proof.
  unfold RealTime.dispatch, RealTime.isConnectMessage, RealTime.keeps.
  destruct (String.eqb (RealTime.msg_channel m) "/meta/handshake") eqn:Hh.
  - rewrite (handshake_is_not_connect _ Hh).
    rewrite orb_false_r, andb_false_r.
    destruct (RealTime.successful m).
    + exists [RealTime.Connect c0 (RealTime.clientId m) true].
      repeat split.
    + exists []. repeat split; try apply sends_refl.
  - destruct (String.eqb (RealTime.msg_channel m) "/meta/connect") eqn:Hc.
    + rewrite orb_true_r, andb_true_r.
      unfold RealTime.isSocketAuth_next, RealTime.latestPaths.
      destruct (RealTime.isSocketAuth st) eqn:Ha; simpl Bool.eqb; cbv iota.
      * exists [RealTime.Connect c0 cid0 false]. simpl. rewrite Ha.
        repeat split.
      * rewrite subscriptionPipeline_closed, sendFrames_closed. simpl.
        destruct (RealTime.addSubscription st) as [s|] eqn:Hs.
        -- exists (RealTime.subscriptionFrames s (RealTime.socketMessageCount st)
                     (RealTime.socketClientId st)
                   ++ [RealTime.Connect c0 cid0 false]).
           repeat split; simpl.
           ++ now rewrite app_assoc.
           ++ rewrite length_app, Nat2Z.inj_add. simpl. lia.
           ++ rewrite pathsOf_app, pathsOf_subscriptionFrames. simpl.
              now rewrite app_nil_r.
        -- exists [RealTime.Connect c0 cid0 false].
           repeat split; simpl.
           ++ now rewrite app_nil_r.
           ++ lia.
    + rewrite orb_false_r, andb_false_r.
      exists []. repeat split; simpl; try lia.
      now rewrite app_nil_r.
Qed.

Lemma latestPaths_keeps (st st' : RealTime.State) :
  RealTime.keeps st st' -> RealTime.latestPaths st' = RealTime.latestPaths st.
Proof. intros [H _]. unfold RealTime.latestPaths. now rewrite H. Qed.

Lemma keeps_trans (a b c : RealTime.State) :
  RealTime.keeps a b -> RealTime.keeps b c -> RealTime.keeps a c.
Proof.
  unfold RealTime.keeps. intros (H1 & H2 & H3 & H4) (H5 & H6 & H7 & H8).
  repeat split; congruence.
Qed.

(** The whole batch. *)
Lemma dispatch_loop (c0 : Z) (cid0 : option string)
    (batch : list RealTime.Message) (st : RealTime.State) :
  let st' := fold_left (RealTime.dispatch c0 cid0) batch st in
  exists out,
    RealTime.sends st st' out /\
    RealTime.keeps st st' /\
    RealTime.isSocketAuth st' =
      RealTime.isSocketAuth st || existsb RealTime.isConnectMessage batch /\
    RealTime.pathsOf out =
      (if negb (RealTime.isSocketAuth st)
          && existsb RealTime.isConnectMessage batch
       then RealTime.latestPaths st else []).
Proof.
  revert st. induction batch as [|m batch IH]; intro st; cbn zeta.
  - exists []. simpl. rewrite orb_false_r, andb_false_r.
    repeat split; try apply sends_refl.
  - cbn [fold_left existsb].
    destruct (dispatch_spec c0 cid0 st m) as (o1 & S1 & K1 & A1 & P1).
    destruct (IH (RealTime.dispatch c0 cid0 st m)) as (o2 & S2 & K2 & A2 & P2).
    exists (o1 ++ o2). split; [|split; [|split]].
    + eapply sends_trans; eauto.
    + eapply keeps_trans; eauto.
    + rewrite A2, A1. now rewrite orb_assoc.
    + rewrite pathsOf_app, P1, P2, A1, (latestPaths_keeps _ _ K1).
      destruct (RealTime.isSocketAuth st), (RealTime.isConnectMessage m),
        (existsb RealTime.isConnectMessage batch); simpl;
        try reflexivity; now rewrite app_nil_r.
Qed.

Lemma openPipeline_closed (st : RealTime.State) :
  RealTime.openPipeline st =
  RealTime.sendFrames
    (match RealTime.isSocketOpen st, RealTime.authSession st with
     | Some true, Some session =>
         [RealTime.Handshake (RealTime.socketMessageCount st)
            (RealTime.pushSubscriptionId session)]
     | _, _ => []
     end) st.
Proof.
  unfold RealTime.openPipeline, RealTime.onSocketAuth_next.
  destruct (RealTime.isSocketOpen st) as [[|]|];
    destruct (RealTime.authSession st); reflexivity.
Qed.

(** Every event only appends to what was sent, and moves the counter by the
    number of frames it sent. *)
Lemma step_sends (st : RealTime.State) (e : RealTime.Event) :
  exists out, RealTime.sends st (RealTime.step st e) out.
Proof.
  destruct e as [| |batch|session|s]; simpl.
  - rewrite openPipeline_closed. eexists. apply (sends_sendFrames _ (RealTime.set_isSocketOpen true st)).
  - rewrite openPipeline_closed. eexists. apply (sends_sendFrames _ (RealTime.set_isSocketOpen false st)).
  - destruct (dispatch_loop (RealTime.socketMessageCount st)
                (RealTime.socketClientId st) batch st) as (out & H & _).
    now exists out.
  - rewrite openPipeline_closed. eexists. apply (sends_sendFrames _ (RealTime.set_authSession session st)).
  - unfold RealTime.addSubscription_next. rewrite subscriptionPipeline_closed.
    eexists. apply (sends_sendFrames _ (RealTime.set_addSubscription (Some s) st)).
Qed.

Lemma run_sends (es : list RealTime.Event) (st : RealTime.State) :
  exists out, RealTime.sends st (RealTime.run st es) out.
Proof.
  revert st. induction es as [|e es IH]; intro st.
  - exists []. apply sends_refl.
  - destruct (step_sends st e) as (o1 & H1).
    destruct (IH (RealTime.step st e)) as (o2 & H2).
    exists (o1 ++ o2). simpl. eapply sends_trans; eauto.
Qed.

(** The counter is one more than the number of frames sent so far. *)
Lemma counter_counts_frames (es : list RealTime.Event) :
  RealTime.socketMessageCount (RealTime.run RealTime.init es) =
  1 + Z.of_nat (List.length (RealTime.sent (RealTime.run RealTime.init es))).
Proof.
  destruct (run_sends es RealTime.init) as (out & H1 & H2).
  rewrite H2, H1. reflexivity.
Qed.

(** C1.  The counter starts at 1 and moves by one with every frame sent,
    whatever the events; but a frame does not always carry the value the
    counter has when it is sent.  With a request for two ids made before
    the answer to the connect frame, that answer makes the instance send
    two subscribe frames and a connect frame which all carry the id 3: the
    ids on the wire are 1, 2, 3, 3, 3 and do not increase by one.  A request
    for two ids made after that answer sends two frames with the id 4. *)
Theorem C1_frame_ids_repeat :
  (forall es,
     RealTime.socketMessageCount (RealTime.run RealTime.init es) =
     1 + Z.of_nat (List.length (RealTime.sent (RealTime.run RealTime.init es)))) /\
  map RealTime.frame_channel
      (RealTime.sent (RealTime.run RealTime.init RealTime.replayTrace)) =
    ["/meta/handshake"; "/meta/connect"; "/meta/subscribe"; "/meta/subscribe";
     "/meta/connect"]%string /\
  map RealTime.frame_id
      (RealTime.sent (RealTime.run RealTime.init RealTime.replayTrace)) =
    [1; 2; 3; 3; 3] /\
  RealTime.consecutive
    (map RealTime.frame_id
       (RealTime.sent (RealTime.run RealTime.init RealTime.replayTrace))) = false /\
  map RealTime.frame_id
      (RealTime.sent (RealTime.step RealTime.connected
                        (RealTime.AddSubscription RealTime.quotes56))) =
    [1; 2; 3; 4; 4].
Proof.
  split; [exact counter_counts_frames|].
  repeat split; vm_compute; reflexivity.
Qed.

(** The answer to a connect frame, and nothing else, raises the flag. *)
Lemma isSocketAuth_step (st : RealTime.State) (e : RealTime.Event) :
  RealTime.isSocketAuth (RealTime.step st e) =
  match e with
  | RealTime.SocketMessage batch =>
      RealTime.isSocketAuth st || existsb RealTime.isConnectMessage batch
  | _ => RealTime.isSocketAuth st
  end.
Proof.
  destruct e as [| |batch|session|s]; cbn [RealTime.step].
  - now rewrite openPipeline_closed, sendFrames_closed.
  - now rewrite openPipeline_closed, sendFrames_closed.
  - destruct (dispatch_loop (RealTime.socketMessageCount st)
                (RealTime.socketClientId st) batch st) as (out & _ & _ & H & _).
    exact H.
  - now rewrite openPipeline_closed, sendFrames_closed.
  - unfold RealTime.addSubscription_next.
    now rewrite subscriptionPipeline_closed, sendFrames_closed.
Qed.

Lemma outputs_SocketMessage (st : RealTime.State) (batch : list RealTime.Message) :
  RealTime.pathsOf (RealTime.outputs st (RealTime.SocketMessage batch)) =
  (if negb (RealTime.isSocketAuth st) && existsb RealTime.isConnectMessage batch
   then RealTime.latestPaths st else []).
Proof.
  destruct (dispatch_loop (RealTime.socketMessageCount st)
              (RealTime.socketClientId st) batch st) as (out & S & _ & _ & P).
  now rewrite (sends_outputs st (RealTime.SocketMessage batch) out S).
Qed.

(** C2, as the specification states it, fails when two requests were made
    before the answer to the connect frame: the ledger holds both, the
    replay sends the second only. *)
Lemma C2_ledger_not_replayed :
  ~ Stated.replays_whole_ledger RealTime.twoPending
      (RealTime.SocketMessage [RealTime.connectOk]).
Proof.
  intro H.
  specialize (H eq_refl eq_refl (RealTime.mkSubscription RealTime.QUOTES ["1"%string])).
  assert (Hin : In (Some (RealTime.mkSubscription RealTime.QUOTES ["1"%string]))
                   (RealTime.subscriptions RealTime.twoPending)).
  { vm_compute. right. left. reflexivity. }
  specialize (H Hin "/quotes/1"%string (or_introl eq_refl)).
  vm_compute in H. destruct H as [H|[]]. discriminate H.
Qed.

(** C2, amended.  Only an inbound batch can raise the authenticated flag.
    A batch that raises it (the flag was down, the batch holds a
    [/meta/connect] frame) makes the instance send subscribe frames for the
    request [addSubscription$] holds at that moment, the last one made, and
    for no other entry of the ledger; a batch received with the flag up
    sends no subscribe frame at all. *)
Theorem C2_replay_sends_latest_request (st : RealTime.State) (e : RealTime.Event) :
  RealTime.isSocketAuth (RealTime.step st e) =
    match e with
    | RealTime.SocketMessage batch =>
        RealTime.isSocketAuth st || existsb RealTime.isConnectMessage batch
    | _ => RealTime.isSocketAuth st
    end /\
  match e with
  | RealTime.SocketMessage batch =>
      RealTime.pathsOf (RealTime.outputs st e) =
      if negb (RealTime.isSocketAuth st) && existsb RealTime.isConnectMessage batch
      then match RealTime.addSubscription st with
           | Some s => RealTime.subscriptionPaths s
           | None => []
           end
      else []
  | _ => True
  end.
Proof.
  split; [apply isSocketAuth_step|].
  destruct e; try exact I.
  apply outputs_SocketMessage.
Qed.

(** C3, as the specification states it, fails in the state reached after
    the answer to the connect frame: a close event leaves the client id
    [C1] and the authenticated flag in place. *)
Lemma C3_close_discards_nothing : ~ Stated.close_discards RealTime.connected.
Proof.
  intros [H _]. vm_compute in H. discriminate H.
Qed.

(** C3, amended.  A close event only records that the socket is not open:
    the stored client id, the authenticated flag, the counter and the frames
    sent are what they were.  An open event that follows sends exactly one
    frame, a handshake carrying the current counter, when a session is
    available, and nothing otherwise. *)
Theorem C3_close_keeps_client_id (st : RealTime.State) :
  RealTime.step st RealTime.SocketClose = RealTime.set_isSocketOpen false st /\
  RealTime.socketClientId (RealTime.step st RealTime.SocketClose) =
    RealTime.socketClientId st /\
  RealTime.isSocketAuth (RealTime.step st RealTime.SocketClose) =
    RealTime.isSocketAuth st /\
  RealTime.isSocketOpen (RealTime.step st RealTime.SocketClose) = Some false /\
  RealTime.outputs st RealTime.SocketClose = [] /\
  RealTime.outputs (RealTime.step st RealTime.SocketClose) RealTime.SocketOpen =
    match RealTime.authSession st with
    | Some session =>
        [RealTime.Handshake (RealTime.socketMessageCount st)
           (RealTime.pushSubscriptionId session)]
    | None => []
    end.
Proof.
  assert (E : RealTime.step st RealTime.SocketClose
              = RealTime.set_isSocketOpen false st) by reflexivity.
  rewrite E. repeat split.
  - apply sends_outputs. rewrite E. split; simpl; [now rewrite app_nil_r | lia].
  - apply sends_outputs. cbn [RealTime.step]. rewrite openPipeline_closed.
    simpl RealTime.isSocketOpen. simpl RealTime.authSession.
    destruct (RealTime.authSession st) as [session|];
      apply (sends_sendFrames _ (RealTime.set_isSocketOpen true
                                   (RealTime.set_isSocketOpen false st))).
Qed.

(** C4, as the specification states it, fails: the path sent for orders
    with ids 5 and 6 is not [/orders56]. *)
Lemma C4_orders_path_has_comma :
  ~ Stated.orders_path_is_concatenation RealTime.connected.
Proof.
  intro H. specialize (H eq_refl). vm_compute in H. discriminate H.
Qed.

(** C4, amended.  A request for a channel among orders, deals, positions
    made while the authenticated flag is up sends exactly one subscribe
    frame; its path is a slash, the channel name and the ids joined by
    commas, with nothing between the name and the first id. *)
Theorem C4_account_channel_path (st : RealTime.State) (s : RealTime.Subscription) :
  RealTime.isSocketAuth st = true ->
  RealTime.includes [RealTime.ORDERS; RealTime.DEALS; RealTime.POSITIONS]
    (RealTime.channel s) = true ->
  RealTime.outputs st (RealTime.AddSubscription s) =
  [RealTime.Subscribe (RealTime.socketMessageCount st) (RealTime.socketClientId st)
     ("/" ++ RealTime.channel_value (RealTime.channel s)
          ++ String.concat "," (RealTime.ids s))%string].
Proof.
  intros Ha Hc. apply sends_outputs.
  cbn [RealTime.step]. unfold RealTime.addSubscription_next.
  rewrite subscriptionPipeline_closed.
  simpl RealTime.addSubscription. simpl RealTime.isSocketAuth. rewrite Ha.
  unfold RealTime.subscriptionFrames. rewrite Hc.
  apply (sends_sendFrames _ (RealTime.set_addSubscription (Some s) st)).
Qed.

(** For orders with ids 5 and 6, after the answer to the connect frame:
    one frame, path [/orders5,6]. *)
Lemma C4_orders_5_6 :
  RealTime.outputs RealTime.connected (RealTime.AddSubscription RealTime.orders56) =
  [RealTime.Subscribe 4 (Some "C1"%string) "/orders5,6"].
Proof.
  exact (C4_account_channel_path RealTime.connected RealTime.orders56
           eq_refl eq_refl).
Defined.

Lemma pathsOf_nil (fs : list RealTime.Frame) :
  RealTime.pathsOf fs = [] -> RealTime.subscribesOf fs = [].
Proof.
  induction fs as [|f fs IH]; [reflexivity|].
  destruct f; simpl; auto. discriminate.
Qed.








(** ** The request helper *)

Lemma get_set (k k' : string) (v : Http.json) (o : Http.object) :
  Http.get k (Http.set k' v o) =
  if String.eqb k' k then Some v else Http.get k o.
Proof.
  induction o as [|[k0 w] o IH]; simpl.
  - reflexivity.
  - destruct (String.eqb k0 k') eqn:E; simpl.
    + apply String.eqb_eq in E. subst k0.
      destruct (String.eqb k' k); reflexivity.
    + destruct (String.eqb k0 k) eqn:E'; simpl.
      * apply String.eqb_eq in E'. subst k0. now rewrite String.eqb_sym, E.
      * exact IH.
Qed.

(** Looking a name up after an assignment of a list of properties: the
    list wins over the target. *)
Lemma get_assign (k : string) (props : list (string * Http.json)) (target : Http.object) :
  Http.get k (Http.assign target props) =
  match Http.get k (Http.assign [] props) with
  | Some v => Some v
  | None => Http.get k target
  end.
Proof.
  unfold Http.assign. revert target.
  induction props as [|[k1 v1] props IH]; intro target; simpl.
  - reflexivity.
  - rewrite IH. rewrite (IH [(k1, v1)]).
    match goal with
    | |- context [Http.get k (fold_left ?f props [])] =>
        destruct (Http.get k (fold_left f props []))
    end.
    + reflexivity.
    + rewrite get_set. simpl. destruct (String.eqb k1 k); reflexivity.
Qed.

Lemma request_json_statusCode (response : Http.Response) (parsed : Http.json) :
  Http.body response = Some parsed ->
  exists json,
    Http.request_json response = Some json /\
    Http.get "statusCode" json =
      match Http.property parsed "statusCode" with
      | Some v => Some v
      | None => Some (Http.JNum (Http.status response))
      end.
Proof.
  intro Hb. unfold Http.request_json. rewrite Hb.
  eexists. split; [reflexivity|].
  unfold Http.spread. rewrite get_assign. reflexivity.
Qed.

(** C10.  [request] builds [{ statusCode: response.status, ...body }]: a
    [statusCode] member of the body replaces the status of the transport,
    and the test [statusCode !== 200] of the login and second-factor steps
    reads the body's value when there is one.  A pipeline waiting for the
    answer treats it as a failure exactly on that test: when the test
    fails the answer is thrown, and when it passes the login step goes on
    to the second factor and the second-factor step emits the session,
    whatever the status line says. *)
Theorem C10_body_statusCode_wins (response : Http.Response) (parsed : Http.json) :
  Http.body response = Some parsed ->
  exists json,
    Http.request_json response = Some json /\
    Http.get "statusCode" json =
      match Http.property parsed "statusCode" with
      | Some v => Some v
      | None => Some (Http.JNum (Http.status response))
      end /\
    Http.statusCode_isnt_200 json =
      match Http.property parsed "statusCode" with
      | Some (Http.JNum n) => negb (n =? 200)
      | Some _ => true
      | None => negb (Http.status response =? 200)
      end /\
    (forall d nextId id p,
       Login.active p = true -> Login.awaits (Login.login p) id = true ->
       Http.statusCode_isnt_200 json = true ->
       Login.loginResponse d nextId id response p =
       Login.fail d (Http.ThrownJson json) p) /\
    (forall d nextId id p credentials totpCode twoFactorLogin,
       Login.active p = true -> Login.awaits (Login.login p) id = true ->
       Http.statusCode_isnt_200 json = false ->
       Login.latest p = Some (credentials, totpCode) ->
       Http.get "twoFactorLogin" json = Some twoFactorLogin ->
       twoFactorLogin <> Http.JNull ->
       Login.loginResponse d nextId id response p =
       (Login.mkPipeline true (Login.latest p) None (Some (nextId, twoFactorLogin))
          (Login.errors p) false,
        [Login.Post (Login.TotpRequest totpCode
                       (Http.property twoFactorLogin "transactionId"))])) /\
    (forall d id twoFactorLogin p,
       Login.active p = true -> Login.second p = Some (id, twoFactorLogin) ->
       Login.totpResponse d id response p =
       if Http.statusCode_isnt_200 json
       then Login.fail d (Http.ThrownJson json) p
       else (Login.mkPipeline true (Login.latest p) (Login.login p) None
               (Login.errors p) false,
             [Login.Emit (Login.mkAuthSession json twoFactorLogin
                            (Http.headers_get "x-securitytoken"
                               (Http.headers response)))])).
Proof.
  intro Hb.
  destruct (request_json_statusCode response parsed Hb) as (json & Hj & Hs).
  exists json. split; [exact Hj|]. split; [exact Hs|]. split; [|split; [|split]].
  - unfold Http.statusCode_isnt_200. rewrite Hs.
    destruct (Http.property parsed "statusCode") as [[]|]; reflexivity.
  - intros d nextId id p Ha Hw Hn. unfold Login.loginResponse.
    now rewrite Ha, Hw, Hj, Hn.
  - intros d nextId id p c code v Ha Hw Hn Hl Hg Hv. unfold Login.loginResponse.
    rewrite Ha, Hw, Hj, Hn, Hl, Hg. cbn [andb].
    destruct v; try reflexivity. now contradiction Hv.
  - intros d id tfl p Ha H2. unfold Login.totpResponse.
    now rewrite H2, Ha, Nat.eqb_refl, Hj.
Qed.

(** An answer with status line 500 whose body says [statusCode: 200] passes
    the test: a pipeline that waits for it as the answer to its login
    request posts the second factor. *)
Lemma C10_status_500_passes :
  exists json,
    Http.request_json Login.disguised500 = Some json /\
    Http.get "statusCode" json = Some (Http.JNum 200) /\
    Http.statusCode_isnt_200 json = false /\
    Login.loginResponse Retry.defaultExcluded_service 1 0 Login.disguised500
      (Login.mkPipeline true (Some (Login.someone, "123456"%string)) (Some 0%nat)
         None 0 false) =
    (Login.mkPipeline true (Some (Login.someone, "123456"%string)) None
       (Some (1%nat, Http.JObj [("transactionId"%string, Http.JStr "tx-1")])) 0 false,
     [Login.Post (Login.TotpRequest "123456" (Some (Http.JStr "tx-1")))]).
Proof.
  destruct (C10_body_statusCode_wins Login.disguised500 _ eq_refl)
    as (json & H1 & H2 & H3 & _ & H5 & _).
  exists json. split; [exact H1|]. split; [exact H2|]. split; [exact H3|].
  refine (H5 Retry.defaultExcluded_service 1%nat 0%nat
            (Login.mkPipeline true (Some (Login.someone, "123456"%string))
               (Some 0%nat) None 0 false)
            Login.someone "123456"%string
            (Http.JObj [("transactionId"%string, Http.JStr "tx-1")])
            eq_refl eq_refl H3 eq_refl _ _).
  - injection H1 as <-. reflexivity.
  - discriminate.
Defined.

(** ** The retry policy *)

Lemma retryLoop_delays {A : Type} (d : list Z) (o : Retry.Options)
    (outcomes : list (Http.Thrown + A)) (i : Z) (made : nat) (waited : list Z) :
  exists n,
    Retry.delays (Retry.retryLoop d o outcomes i made waited) =
    waited ++ map (fun k => (i + Z.of_nat k)
                            * Retry.orDefault (Retry.scalingDuration o) 1000)
                  (seq 1 n).
Proof.
  revert i made waited.
  induction outcomes as [|[error|value] rest IH]; intros i made waited.
  - exists 0%nat. simpl. now rewrite app_nil_r.
  - cbn [Retry.retryLoop]. unfold Retry.genericRetryStrategy.
    destruct (_ || _).
    + exists 0%nat. simpl. now rewrite app_nil_r.
    + destruct (IH (i + 1) (S made)
                  (waited ++ [(i + 1) * Retry.orDefault (Retry.scalingDuration o) 1000]))
        as (n & Hn).
      exists (S n). rewrite Hn. rewrite <- app_assoc. f_equal.
      cbn [seq map app]. f_equal.
      rewrite <- (seq_shift n 1), map_map. apply map_ext. intro k.
      f_equal. lia.
  - exists 0%nat. simpl. now rewrite app_nil_r.
Qed.

(** ** The login sequence and the class of the service file *)

Lemma fail_posts (d : list Z) (error : Http.Thrown) (p : Login.Pipeline) :
  Login.posts (snd (Login.fail d error p)) = [] /\
  Login.emitted (snd (Login.fail d error p)) = [].
Proof.
  unfold Login.fail. destruct (Retry.genericRetryStrategy _ _ _ _); split; reflexivity.
Qed.

Lemma credentials_next_posts totp d validate now c (p : Login.Pipeline) :
  Login.posts (snd (Login.credentials_next totp d validate now c p)) = [] /\
  Login.emitted (snd (Login.credentials_next totp d validate now c p)) = [].
Proof.
  unfold Login.credentials_next.
  destruct (Login.active p); [|split; reflexivity].
  destruct (validate c); [split; reflexivity|]. apply fail_posts.
Qed.

Lemma perform_requests (k : nat) (st : Service.State) (e : Login.Effect) :
  Service.requests (Service.perform k st e) = Service.requests st ++ Login.posts [e].
Proof.
  destruct e; simpl; try now rewrite app_nil_r.
  - reflexivity.
  - unfold Service.settle. destruct (nth_error _ _); simpl; now rewrite app_nil_r.
  - unfold Service.settle. destruct (nth_error _ _); simpl; now rewrite app_nil_r.
Qed.

Lemma posts_app (a b : list Login.Effect) :
  Login.posts (a ++ b) = Login.posts a ++ Login.posts b.
Proof. apply flat_map_app. Qed.

Lemma performs_requests (k : nat) (effects : list Login.Effect) (st : Service.State) :
  Service.requests (fold_left (Service.perform k) effects st) =
  Service.requests st ++ Login.posts effects.
Proof.
  revert st. induction effects as [|e effects IH]; intro st.
  - simpl. now rewrite app_nil_r.
  - cbn [fold_left]. rewrite IH, perform_requests.
    rewrite <- app_assoc. f_equal.
    change (e :: effects) with ([e] ++ effects). now rewrite posts_app.
Qed.

(** A step of a call posts what its pipeline asks for, nothing else. *)
Lemma drive_requests (f : nat -> Login.Pipeline -> Login.Pipeline * list Login.Effect)
    (st : Service.State) (k : nat) :
  Service.requests (Service.drive f st k) =
  Service.requests st ++
  match nth_error (Service.calls st) k with
  | Some (Service.mkCall p Service.Pending) =>
      Login.posts (snd (f (List.length (Service.requests st)) p))
  | _ => []
  end.
Proof.
  unfold Service.drive.
  destruct (nth_error (Service.calls st) k) as [[p [| |]]|];
    try now rewrite app_nil_r.
  destruct (f (List.length (Service.requests st)) p) as [p' effects].
  now rewrite performs_requests.
Qed.

Lemma broadcast_posts_nothing
    (f : nat -> Login.Pipeline -> Login.Pipeline * list Login.Effect)
    (st : Service.State) :
  (forall n p, Login.posts (snd (f n p)) = []) ->
  Service.requests (Service.broadcast f st) = Service.requests st.
Proof.
  intro Hf. unfold Service.broadcast.
  generalize (seq 0 (List.length (Service.calls st))). intro ks.
  revert st. induction ks as [|k ks IH]; intro st; [reflexivity|].
  cbn [fold_left]. rewrite IH, drive_requests.
  destruct (nth_error (Service.calls st) k) as [[p [| |]]|];
    try now rewrite app_nil_r.
  now rewrite Hf, app_nil_r.
Qed.

Lemma setCredentials_requests totp (c : Validation.Credentials) (st : Service.State) :
  Service.requests (Service.setCredentials totp c st) = Service.requests st.
Proof.
  unfold Service.setCredentials.
  rewrite broadcast_posts_nothing.
  - unfold Service.watch. simpl Service.watching.
    destruct (Service.watching st); [|reflexivity].
    destruct (Service.validate c); reflexivity.
  - intros n p. apply credentials_next_posts.
Qed.

Lemma falsy_iff (s : string) : Validation.falsy s = true <-> s = ""%string.
Proof. unfold Validation.falsy. apply String.eqb_eq. Qed.

Lemma in_range_iff (t : Z) :
  (t >=? Validation.MIN_INACTIVE_MINUTES) && (t <=? Validation.MAX_INACTIVE_MINUTES)
  = true <-> 30 <= t <= 1440.
Proof.
  unfold Validation.MIN_INACTIVE_MINUTES, Validation.MAX_INACTIVE_MINUTES.
  rewrite andb_true_iff, Z.geb_le, Z.leb_le. lia.
Qed.

(** The outcome of [checkCredentials], case by case. *)
Lemma checkCredentials_cases (c : Validation.Credentials) (t : Z) :
  (Validation.username c = ""%string /\
   Validation.checkCredentials c t = Validation.Throws Validation.MissingUsername) \/
  (Validation.username c <> ""%string /\ Validation.password c = ""%string /\
   Validation.checkCredentials c t = Validation.Throws Validation.MissingPassword) \/
  (Validation.username c <> ""%string /\ Validation.password c <> ""%string /\
   ~ 30 <= t <= 1440 /\
   Validation.checkCredentials c t = Validation.Throws Validation.TimeoutNotInRange) \/
  (Validation.username c <> ""%string /\ Validation.password c <> ""%string /\
   30 <= t <= 1440 /\
   Validation.checkCredentials c t = Validation.Returns).
Proof.
  unfold Validation.checkCredentials.
  destruct (Validation.falsy (Validation.username c)) eqn:Hu.
  { left. split; [now apply falsy_iff|reflexivity]. }
  assert (Hu' : Validation.username c <> ""%string).
  { intro E. apply falsy_iff in E. congruence. }
  destruct (Validation.falsy (Validation.password c)) eqn:Hp.
  { right; left. repeat split; auto. now apply falsy_iff. }
  assert (Hp' : Validation.password c <> ""%string).
  { intro E. apply falsy_iff in E. congruence. }
  destruct ((t >=? _) && (t <=? _)) eqn:Hr; cbn [negb].
  - right; right; right. repeat split; auto; now apply in_range_iff.
  - right; right; left. repeat split; auto.
    intro H. apply in_range_iff in H. congruence.
Qed.

(** C8, as the specification states it, fails: with an empty user name the
    check throws for the user name, whatever the timeout. *)
Lemma C8_empty_username_hides_timeout : ~ Stated.timeout_failure_iff_out_of_range.
Proof.
  intro H.
  destruct (proj2 (H (Validation.mkCredentials "" "secret" None "s") 0))
    as (e & He & Hk).
  - left. lia.
  - vm_compute in He. inversion He. subst e. discriminate Hk.
Qed.

(** C8, amended.  [checkCredentials] tests the user name, then the
    password, then the timeout, and throws at the first test that fails:
    InvalidCredentials exactly when the user name or the password is empty;
    InvalidTimeout exactly when both are non-empty and the timeout is
    outside 30..1440; no failure exactly when both are non-empty and the
    timeout is inside.  The check calls nothing: [setCredentials] posts no
    request, and the constructor of the single-file class ends at a throw
    of the check, before any subscription. *)
Theorem C8_validation_order (c : Validation.Credentials) (t : Z) :
  (Validation.failsWith Validation.InvalidCredentials c t <->
   Validation.username c = ""%string \/ Validation.password c = ""%string) /\
  (Validation.failsWith Validation.InvalidTimeout c t <->
   Validation.username c <> ""%string /\ Validation.password c <> ""%string /\
   (t < 30 \/ 1440 < t)) /\
  (Validation.checkCredentials c t = Validation.Returns <->
   Validation.username c <> ""%string /\ Validation.password c <> ""%string /\
   30 <= t <= 1440) /\
  (forall totp st,
     Service.requests (Service.setCredentials totp c st) = Service.requests st) /\
  (forall totp e,
     Validation.checkCredentials c t = Validation.Throws e ->
     Monolith.construct totp c t = inl e).
Proof.
  unfold Validation.failsWith.
  split; [|split; [|split; [|split]]].
  - destruct (checkCredentials_cases c t)
      as [(U & E)|[(U & P & E)|[(U & P & R & E)|(U & P & R & E)]]];
      rewrite E; split.
    + auto.
    + intros _. eexists; split; reflexivity.
    + auto.
    + intros _. eexists; split; reflexivity.
    + intros (e & He & Hk). inversion He; subst e. discriminate Hk.
    + intros [H|H]; contradiction.
    + intros (e & He & _). discriminate He.
    + intros [H|H]; contradiction.
  - destruct (checkCredentials_cases c t)
      as [(U & E)|[(U & P & E)|[(U & P & R & E)|(U & P & R & E)]]];
      rewrite E; split.
    + intros (e & He & Hk). inversion He; subst e. discriminate Hk.
    + intros (H & _). contradiction.
    + intros (e & He & Hk). inversion He; subst e. discriminate Hk.
    + intros (_ & H & _). contradiction.
    + intros _. repeat split; auto. lia.
    + intros _. eexists; split; reflexivity.
    + intros (e & He & _). discriminate He.
    + intros (_ & _ & H). lia.
  - destruct (checkCredentials_cases c t)
      as [(U & E)|[(U & P & E)|[(U & P & R & E)|(U & P & R & E)]]];
      rewrite E; split; try discriminate; auto.
    + intros (H & _). contradiction.
    + intros (_ & H & _). contradiction.
    + intros (_ & _ & H). contradiction.
  - intros totp st. apply setCredentials_requests.
  - intros totp e He. unfold Monolith.construct. now rewrite He.
Qed.

Lemma nth_error_update_same {A : Type} (k : nat) (x c : A) (l : list A) :
  nth_error l k = Some c -> nth_error (Service.update k x l) k = Some x.
Proof.
  revert k. induction l as [|y l IH]; intros [|k] H; simpl in *;
    try discriminate; auto.
Qed.

Lemma nth_error_update_other {A : Type} (j k : nat) (x : A) (l : list A) :
  j <> k -> nth_error (Service.update k x l) j = nth_error l j.
Proof.
  revert j k. induction l as [|y l IH]; intros [|j] [|k] H; simpl;
    try reflexivity; try congruence.
  apply IH. congruence.
Qed.

Lemma update_app_length {A : Type} (x y : A) (l : list A) :
  Service.update (List.length l) x (l ++ [y]) = l ++ [x].
Proof. induction l as [|z l IH]; simpl; [reflexivity | now rewrite IH]. Qed.

Lemma nth_error_app_length {A : Type} (y : A) (l : list A) :
  nth_error (l ++ [y]) (List.length l) = Some y.
Proof. induction l as [|z l IH]; simpl; auto. Qed.

Lemma perform_calls_same (k : nat) (st : Service.State) (e : Login.Effect) :
  nth_error (Service.calls (Service.perform k st e)) k =
  option_map (fun c => Service.applyEffect c e) (nth_error (Service.calls st) k).
Proof.
  destruct e; simpl; unfold Service.settle;
    destruct (nth_error (Service.calls st) k) as [c|] eqn:E; simpl;
    rewrite ?E; try reflexivity;
    now apply nth_error_update_same with (c := c).
Qed.

Lemma perform_calls_other (j k : nat) (st : Service.State) (e : Login.Effect) :
  j <> k ->
  nth_error (Service.calls (Service.perform k st e)) j =
  nth_error (Service.calls st) j.
Proof.
  intro H. destruct e; simpl; unfold Service.settle; try reflexivity;
    destruct (nth_error (Service.calls st) k); simpl; try reflexivity;
    now apply nth_error_update_other.
Qed.

Lemma performs_calls_same (k : nat) (effects : list Login.Effect)
    (st : Service.State) (c : Service.Call) :
  nth_error (Service.calls st) k = Some c ->
  nth_error (Service.calls (fold_left (Service.perform k) effects st)) k =
  Some (fold_left Service.applyEffect effects c).
Proof.
  revert st c. induction effects as [|e effects IH]; intros st c H.
  - exact H.
  - cbn [fold_left]. apply IH. rewrite perform_calls_same, H. reflexivity.
Qed.

Lemma performs_calls_other (j k : nat) (effects : list Login.Effect)
    (st : Service.State) :
  j <> k ->
  nth_error (Service.calls (fold_left (Service.perform k) effects st)) j =
  nth_error (Service.calls st) j.
Proof.
  intro H. revert st. induction effects as [|e effects IH]; intro st.
  - reflexivity.
  - cbn [fold_left]. rewrite IH. now apply perform_calls_other.
Qed.

(** A step of call [k] changes call [k] as [callAfter] says, and no other. *)
Lemma drive_calls_same (f : nat -> Login.Pipeline -> Login.Pipeline * list Login.Effect)
    (st : Service.State) (k : nat) :
  nth_error (Service.calls (Service.drive f st k)) k =
  option_map (Service.callAfter f (List.length (Service.requests st)))
             (nth_error (Service.calls st) k).
Proof.
  unfold Service.drive, Service.callAfter.
  destruct (nth_error (Service.calls st) k) as [[p pr]|] eqn:E; simpl.
  - destruct pr; simpl; try exact E.
    destruct (f (List.length (Service.requests st)) p) as [p' effects].
    apply performs_calls_same. simpl.
    now apply nth_error_update_same with (c := Service.mkCall p Service.Pending).
  - exact E.
Qed.

Lemma drive_calls_other (f : nat -> Login.Pipeline -> Login.Pipeline * list Login.Effect)
    (st : Service.State) (j k : nat) :
  j <> k ->
  nth_error (Service.calls (Service.drive f st k)) j =
  nth_error (Service.calls st) j.
Proof.
  intro H. unfold Service.drive.
  destruct (nth_error (Service.calls st) k) as [[p [| |]]|]; try reflexivity.
  destruct (f (List.length (Service.requests st)) p) as [p' effects].
  rewrite performs_calls_other by exact H. simpl.
  now apply nth_error_update_other.
Qed.

Lemma drives_calls (f : nat -> Login.Pipeline -> Login.Pipeline * list Login.Effect)
    (ks : list nat) (st : Service.State) (k : nat) :
  (forall n m p, f n p = f m p) ->
  NoDup ks ->
  nth_error (Service.calls (fold_left (Service.drive f) ks st)) k =
  if existsb (Nat.eqb k) ks
  then option_map (Service.callAfter f 0) (nth_error (Service.calls st) k)
  else nth_error (Service.calls st) k.
Proof.
  intros Hf. revert st. induction ks as [|i ks IH]; intros st Hd.
  - reflexivity.
  - inversion Hd as [|? ? Hi Hd']; subst.
    cbn [fold_left existsb]. rewrite (IH _ Hd').
    destruct (Nat.eqb k i) eqn:E.
    + apply Nat.eqb_eq in E. subst i. cbn [orb].
      assert (N : existsb (Nat.eqb k) ks = false).
      { destruct (existsb (Nat.eqb k) ks) eqn:X; [|reflexivity].
        apply existsb_exists in X. destruct X as (x & Hx & Ex).
        apply Nat.eqb_eq in Ex. subst x. contradiction. }
      rewrite N, drive_calls_same.
      destruct (nth_error (Service.calls st) k) as [c|]; [|reflexivity].
      simpl. f_equal. unfold Service.callAfter.
      destruct (Service.promise c); try reflexivity.
      now rewrite (Hf _ 0%nat).
    + cbn [orb]. apply Nat.eqb_neq in E.
      rewrite drive_calls_other by exact E.
      destruct (existsb (Nat.eqb k) ks); [|reflexivity].
      reflexivity.
Qed.

(** The same step for every call, when the step does not look at the
    number of the next request. *)
Lemma broadcast_calls (f : nat -> Login.Pipeline -> Login.Pipeline * list Login.Effect)
    (st : Service.State) (k : nat) :
  (forall n m p, f n p = f m p) ->
  nth_error (Service.calls (Service.broadcast f st)) k =
  option_map (Service.callAfter f 0) (nth_error (Service.calls st) k).
Proof.
  intro Hf. unfold Service.broadcast.
  rewrite drives_calls by (auto using seq_NoDup).
  destruct (existsb (Nat.eqb k) (seq 0 (List.length (Service.calls st)))) eqn:E.
  - reflexivity.
  - destruct (nth_error (Service.calls st) k) as [c|] eqn:N; [|reflexivity].
    exfalso.
    assert (L : (k < List.length (Service.calls st))%nat).
    { apply nth_error_Some. congruence. }
    assert (X : existsb (Nat.eqb k) (seq 0 (List.length (Service.calls st))) = true).
    { apply existsb_exists. exists k. split; [|apply Nat.eqb_refl].
      apply in_seq. lia. }
    congruence.
Qed.

Lemma authenticate_closed totp (st : Service.State) (c : Validation.Credentials) :
  Service.lastCredentials st = Some c ->
  Service.validate c = Validation.Returns ->
  Service.authenticate totp st =
  Service.mkState (Service.now st) (Service.authenticationTimeout st)
    (Service.onSetCredentials st) (Service.watching st) (Service.uncaught st)
    (Service.calls st ++
       [Service.mkCall
          (Login.mkPipeline true
             (Some (c, totp (Validation.totpSecret c) (Service.now st)))
             (Some (List.length (Service.requests st))) None 0 false)
          Service.Pending])
    (Service.requests st ++
       [Login.LoginRequest (Service.authenticationTimeout st)
          (Validation.password c) (Validation.username c)])
    (Service.timers st) (Service.authSession st).
Proof.
  intros Hc Hv.
  unfold Service.authenticate, Service.drive. cbn [Service.calls].
  rewrite nth_error_app_length.
  unfold Service.subscribe', Login.subscribe.
  replace (Service.lastCredentials (Service.mkState _ _ _ _ _ _ _ _ _))
    with (Some c) by (symmetry; exact Hc).
  unfold Login.credentials_next. cbn [Login.active]. fold Service.validate.
  rewrite Hv. unfold Login.emit. cbn.
  now rewrite update_app_length.
Qed.

(** C7, as the specification states it, fails: a second call made while
    the login request of the first is awaited posts a login request too. *)
Lemma C7_second_call_posts_again :
  ~ Stated.joins_in_flight Login.fixedCode
      (Service.authenticate Login.fixedCode
         (Service.construct (Some Login.someone) 30)).
Proof.
  intro H.
  assert (P : exists c,
             In c (Service.calls
                     (Service.authenticate Login.fixedCode
                        (Service.construct (Some Login.someone) 30))) /\
             Service.promise c = Service.Pending /\
             Login.login (Service.pipeline c) <> None).
  { eexists. split; [left; reflexivity|]. split; [reflexivity|discriminate]. }
  specialize (H P). vm_compute in H. discriminate H.
Qed.

(** C7, amended.  With valid credentials set, every call of [authenticate]
    starts a login sequence of its own: it posts a login request, whatever
    the calls already in flight, and adds one pending call without touching
    the others.  The answer to a second-factor request leaves every call
    that does not wait for that request as it is, and resolves a call that
    waits for it when the answer passes the status test: each caller
    receives the result of its own sequence. *)
Theorem C7_each_call_logs_in totp (st : Service.State) (c : Validation.Credentials) :
  Service.lastCredentials st = Some c ->
  Service.validate c = Validation.Returns ->
  Service.requests (Service.authenticate totp st) =
    Service.requests st ++
    [Login.LoginRequest (Service.authenticationTimeout st)
       (Validation.password c) (Validation.username c)] /\
  Service.calls (Service.authenticate totp st) =
    Service.calls st ++
    [Service.mkCall
       (Login.mkPipeline true
          (Some (c, totp (Validation.totpSecret c) (Service.now st)))
          (Some (List.length (Service.requests st))) None 0 false)
       Service.Pending] /\
  (forall id response k call,
     nth_error (Service.calls st) k = Some call ->
     (forall twoFactorLogin,
        Login.second (Service.pipeline call) <> Some (id, twoFactorLogin)) ->
     nth_error
       (Service.calls (Service.step totp st (Service.TotpResponse id response))) k
     = Some call) /\
  (forall id response k p twoFactorLogin json,
     nth_error (Service.calls st) k = Some (Service.mkCall p Service.Pending) ->
     Login.active p = true ->
     Login.second p = Some (id, twoFactorLogin) ->
     Http.request_json response = Some json ->
     Http.statusCode_isnt_200 json = false ->
     option_map Service.promise
       (nth_error
          (Service.calls (Service.step totp st (Service.TotpResponse id response))) k)
     = Some (Service.Resolved
               (Service.toSessionAuth
                  (Login.mkAuthSession json twoFactorLogin
                     (Http.headers_get "x-securitytoken"
                        (Http.headers response)))))).
Proof.
  intros Hc Hv. rewrite (authenticate_closed totp st c Hc Hv).
  split; [reflexivity|]. split; [reflexivity|]. split.
  - intros id response k call Hk Hs. cbn [Service.step].
    rewrite broadcast_calls by reflexivity. rewrite Hk. cbn [option_map].
    f_equal. unfold Service.callAfter.
    destruct call as [p pr]. cbn [Service.promise Service.pipeline] in *.
    destruct pr; try reflexivity.
    unfold Login.totpResponse.
    destruct (Login.second p) as [[i tfl]|] eqn:E; [|reflexivity].
    destruct (Nat.eqb i id) eqn:Ei.
    + apply Nat.eqb_eq in Ei. subst i. exfalso. now apply (Hs tfl).
    + now rewrite andb_false_r.
  - intros id response k p tfl json Hk Ha H2 Hj Hn. cbn [Service.step].
    rewrite broadcast_calls by reflexivity. rewrite Hk. cbn [option_map].
    unfold Service.callAfter. cbn [Service.promise Service.pipeline].
    unfold Login.totpResponse. rewrite H2, Ha, Nat.eqb_refl, Hj, Hn.
    reflexivity.
Qed.

(** A first call is waiting for the answer to its login request; a second
    call posts the same request again. *)
Lemma C7_two_calls_two_requests :
  Service.requests
    (Service.authenticate Login.fixedCode
       (Service.authenticate Login.fixedCode
          (Service.construct (Some Login.someone) 30))) =
  [Login.LoginRequest 30 "secret" "user"; Login.LoginRequest 30 "secret" "user"].
Proof.
  exact (proj1 (C7_each_call_logs_in Login.fixedCode
                  (Service.authenticate Login.fixedCode
                     (Service.construct (Some Login.someone) 30))
                  Login.someone eq_refl eq_refl)).
Defined.

(** ** Renewal *)

Lemma schedule_retry_renewals (due : Z) (k : nat) (ts : list Login.Scheduled) :
  filter Service.isRenewal (Login.schedule (due, Login.RetryOf k) ts) =
  filter Service.isRenewal ts.
Proof.
  induction ts as [|u ts IH]; [reflexivity|].
  cbn [Login.schedule]. destruct (fst u <=? fst (due, Login.RetryOf k)).
  - cbn [filter]. now rewrite IH.
  - reflexivity.
Qed.

Lemma perform_renewals (k : nat) (st : Service.State) (e : Login.Effect) :
  filter Service.isRenewal (Service.timers (Service.perform k st e)) =
  filter Service.isRenewal (Service.timers st).
Proof.
  destruct e; simpl; try reflexivity.
  - apply schedule_retry_renewals.
  - unfold Service.settle. now destruct (nth_error _ _).
  - unfold Service.settle. now destruct (nth_error _ _).
Qed.

Lemma drive_renewals f (st : Service.State) (k : nat) :
  filter Service.isRenewal (Service.timers (Service.drive f st k)) =
  filter Service.isRenewal (Service.timers st).
Proof.
  unfold Service.drive.
  destruct (nth_error (Service.calls st) k) as [[p [| |]]|]; try reflexivity.
  destruct (f (List.length (Service.requests st)) p) as [p' effects].
  assert (G : forall s, filter Service.isRenewal
                          (Service.timers (fold_left (Service.perform k) effects s))
                        = filter Service.isRenewal (Service.timers s)).
  { induction effects as [|e effects IH]; intro s; [reflexivity|].
    cbn [fold_left]. rewrite IH. apply perform_renewals. }
  now rewrite G.
Qed.

Lemma broadcast_renewals f (st : Service.State) :
  filter Service.isRenewal (Service.timers (Service.broadcast f st)) =
  filter Service.isRenewal (Service.timers st).
Proof.
  unfold Service.broadcast.
  generalize (seq 0 (List.length (Service.calls st))). intro ks.
  revert st. induction ks as [|k ks IH]; intro st; [reflexivity|].
  cbn [fold_left]. rewrite IH. apply drive_renewals.
Qed.

(** In the service class, nothing but a value pushed into [authSession$]
    starts a renewal. *)
Lemma internal_step_renewals totp (st : Service.State) (e : Service.Event) :
  Service.internal e = true ->
  filter Service.isRenewal (Service.timers st) = [] ->
  filter Service.isRenewal (Service.timers (Service.step totp st e)) = [].
Proof.
  intros Hi H0.
  destruct e as [c| |id r|id r|v|ms|]; cbn [Service.step]; try discriminate Hi.
  - unfold Service.setCredentials. rewrite broadcast_renewals.
    unfold Service.watch. simpl Service.watching.
    destruct (Service.watching st); [|exact H0].
    destruct (Service.validate c); exact H0.
  - unfold Service.authenticate. rewrite drive_renewals. exact H0.
  - now rewrite broadcast_renewals.
  - now rewrite broadcast_renewals.
  - exact H0.
  - unfold Service.fire.
    destruct (Service.timers st) as [|[due kind] rest] eqn:T; [now rewrite T|].
    destruct (due <=? Service.now st); [|now rewrite T].
    destruct kind as [|k].
    + discriminate H0.
    + rewrite drive_renewals. exact H0.
Qed.

Lemma internal_run_renewals totp (es : list Service.Event) (st : Service.State) :
  forallb Service.internal es = true ->
  filter Service.isRenewal (Service.timers st) = [] ->
  filter Service.isRenewal (Service.timers (Service.run totp st es)) = [].
Proof.
  revert st. induction es as [|e es IH]; intros st Hi H0; [exact H0|].
  simpl in Hi. apply andb_true_iff in Hi. destruct Hi as [H1 H2].
  cbn [Service.run fold_left]. apply IH; [exact H2|].
  now apply internal_step_renewals.
Qed.

Lemma construct_renewals (c : option Validation.Credentials) (t : Z) :
  Service.timers (Service.construct c t) = [].
Proof.
  unfold Service.construct, Service.watch. destruct c as [c|]; [|reflexivity].
  simpl. destruct (Service.validate c); reflexivity.
Qed.

(** C6.  In the service class no call of [authenticate] starts a renewal:
    in every run in which no user of the class pushes a value into
    [authSession$], no renewal timer is ever pending.  After a complete,
    successful login with a timeout of 30 minutes the promise is resolved,
    no timer is pending, and 29 minutes later nothing runs: the requests
    are the two of the login.  The single-file class, on the same answers,
    has one renewal pending, due 29 minutes after the login; it does not
    run one millisecond earlier; at 29 minutes it posts the credentials
    again. *)
Theorem C6_no_renewal_after_authenticate totp :
  (forall c t es,
     forallb Service.internal es = true ->
     filter Service.isRenewal
       (Service.timers (Service.run totp (Service.construct c t) es)) = []) /\
  (let st := Service.run totp (Service.construct (Some Login.someone) 30)
               Service.loggedIn in
   Service.promiseOf st 0 =
     Some (Service.Resolved
             (Service.mkSessionAuth (Some "token-1"%string)
                (Some (Http.JStr "session-1")) (Some (Http.JStr "push-1")))) /\
   Service.timers st = [] /\
   Service.requests st =
     [Login.LoginRequest 30 "secret" "user";
      Login.TotpRequest (totp "JBSWY3DPEHPK3PXP"%string 0)
        (Some (Http.JStr "tx-1"))] /\
   Service.requests (Service.run totp st Service.renewalDue) = Service.requests st) /\
  (exists st0,
     Monolith.construct totp Login.someone 30 = inr st0 /\
     let st := Monolith.run totp st0 Monolith.loggedIn in
     Monolith.timers st = [(29 * 60 * 1000, Login.Renewal)] /\
     List.length
       (Monolith.requests
          (Monolith.run totp st [Monolith.Elapse (29 * 60 * 1000 - 1); Monolith.Fire]))
       = 3%nat /\
     Monolith.requests
       (Monolith.run totp st [Monolith.Elapse (29 * 60 * 1000); Monolith.Fire]) =
     Monolith.requests st ++ [Login.LoginRequest 30 "secret" "user"]).
Proof.
  split; [|split].
  - intros c t es Hi. apply internal_run_renewals; [exact Hi|].
    now rewrite construct_renewals.
  - cbv zeta. repeat split; reflexivity.
  - eexists. split; [reflexivity|]. cbv zeta. repeat split; reflexivity.
Qed.

(** The delay of the renewal, in minutes, for a timeout the check accepts. *)
Lemma renewalDelay_minutes (t : Z) :
  1 <= t -> Login.renewalDelay t = (t - 1) * 60 * 1000.
Proof. intro H. unfold Login.renewalDelay. apply Z.abs_eq. lia. Qed.

(** In the single-file class a second-factor answer that passes the status
    test publishes the session and starts one renewal, due
    [authenticationTimeout - 1] minutes later (the constructor has checked
    that the timeout is at least 30). *)
Theorem monolith_login_starts_renewal totp (st : Monolith.State) (id : nat)
    (twoFactorLogin : Http.json) (response : Http.Response) (json : Http.object) :
  Login.stopped (Monolith.pipeline st) = false ->
  Login.active (Monolith.pipeline st) = true ->
  Login.second (Monolith.pipeline st) = Some (id, twoFactorLogin) ->
  Http.request_json response = Some json ->
  Http.statusCode_isnt_200 json = false ->
  30 <= Monolith.authenticationTimeout st ->
  let st' := Monolith.step totp st (Monolith.TotpResponse id response) in
  Monolith.timers st' =
    Login.schedule
      (Monolith.now st + (Monolith.authenticationTimeout st - 1) * 60 * 1000,
       Login.Renewal)
      (Monolith.timers st) /\
  Monolith.authSession st' =
    Some (Login.mkAuthSession json twoFactorLogin
            (Http.headers_get "x-securitytoken" (Http.headers response))) /\
  Monolith.requests st' = Monolith.requests st.
Proof.
  intros Hs Ha H2 Hj Hn Ht. cbv zeta. cbn [Monolith.step].
  unfold Monolith.drive. rewrite Hs.
  unfold Login.totpResponse. rewrite H2, Ha, Nat.eqb_refl, Hj, Hn.
  cbn. rewrite renewalDelay_minutes by lia. repeat split.
Qed.

Lemma monolith_login_starts_renewal_example :
  Monolith.construct Login.fixedCode Login.someone 30 =
    inr (Monolith.started Login.fixedCode) /\
  Monolith.timers
    (Monolith.run Login.fixedCode (Monolith.started Login.fixedCode)
       Monolith.loggedIn) =
  [(1740000, Login.Renewal)].
Proof.
  split; [reflexivity|].
  exact (proj1 (monolith_login_starts_renewal Login.fixedCode
                  (Monolith.step Login.fixedCode (Monolith.started Login.fixedCode)
                     (Monolith.LoginResponse 1 Login.loginOk))
                  2%nat _ Login.totpOk _ eq_refl eq_refl eq_refl eq_refl eq_refl
                  (proj1 (Z.leb_le 30 30) eq_refl))).
Defined.

(** In the single-file class a pending renewal runs when the clock reaches
    its due time: not earlier, and the clock does not pass the due time
    before it has run.  When it runs, the pipeline posts the credentials
    again. *)
Theorem monolith_renewal_on_time totp (st : Monolith.State) (due : Z)
    (rest : list Login.Scheduled) (c : Validation.Credentials) (code : string) :
  Monolith.timers st = (due, Login.Renewal) :: rest ->
  Monolith.now st <= due ->
  Login.stopped (Monolith.pipeline st) = false ->
  Login.active (Monolith.pipeline st) = true ->
  Login.latest (Monolith.pipeline st) = Some (c, code) ->
  (forall ms, 0 <= ms -> Monolith.now st + ms < due ->
     Monolith.run totp st [Monolith.Elapse ms; Monolith.Fire] =
     Monolith.step totp st (Monolith.Elapse ms)) /\
  (forall ms, Monolith.now (Monolith.step totp st (Monolith.Elapse ms)) <= due) /\
  Monolith.requests
    (Monolith.run totp st [Monolith.Elapse (due - Monolith.now st); Monolith.Fire]) =
    Monolith.requests st ++
    [Login.LoginRequest (Monolith.authenticationTimeout st)
       (Validation.password c) (Validation.username c)] /\
  Monolith.timers
    (Monolith.run totp st [Monolith.Elapse (due - Monolith.now st); Monolith.Fire]) =
    rest.
Proof.
  intros Ht Hn Hs Ha Hl.
  assert (E : forall ms, Monolith.now (Monolith.step totp st (Monolith.Elapse ms))
                         = Z.max (Monolith.now st)
                             (Z.min due (Monolith.now st + Z.max 0 ms))).
  { intro ms. cbn [Monolith.step Monolith.now]. unfold Login.elapse.
    now rewrite Ht. }
  split; [|split; [|split]].
  - intros ms Hms0 Hms. cbn [Monolith.run fold_left].
    unfold Monolith.step at 1. unfold Monolith.fire.
    change (Monolith.timers (Monolith.step totp st (Monolith.Elapse ms)))
      with (Monolith.timers st).
    rewrite Ht, E.
    assert (G : (due <=? Z.max (Monolith.now st)
                           (Z.min due (Monolith.now st + Z.max 0 ms))) = false).
    { apply Z.leb_gt. lia. }
    now rewrite G.
  - intro ms. rewrite E. lia.
  - cbn [Monolith.run fold_left]. unfold Monolith.step at 1. unfold Monolith.fire.
    change (Monolith.timers (Monolith.step totp st
                               (Monolith.Elapse (due - Monolith.now st))))
      with (Monolith.timers st).
    rewrite Ht, E.
    assert (G : (due <=? Z.max (Monolith.now st)
                           (Z.min due (Monolith.now st
                                       + Z.max 0 (due - Monolith.now st)))) = true).
    { apply Z.leb_le. lia. }
    rewrite G. unfold Monolith.drive, Monolith.emit', Login.emit. cbn.
    rewrite Hs, Ha, Hl. reflexivity.
  - cbn [Monolith.run fold_left]. unfold Monolith.step at 1. unfold Monolith.fire.
    change (Monolith.timers (Monolith.step totp st
                               (Monolith.Elapse (due - Monolith.now st))))
      with (Monolith.timers st).
    rewrite Ht, E.
    assert (G : (due <=? Z.max (Monolith.now st)
                           (Z.min due (Monolith.now st
                                       + Z.max 0 (due - Monolith.now st)))) = true).
    { apply Z.leb_le. lia. }
    rewrite G. unfold Monolith.drive, Monolith.emit', Login.emit. cbn.
    rewrite Hs, Ha, Hl. reflexivity.
Qed.

Lemma monolith_renewal_on_time_example :
  Monolith.requests
    (Monolith.run Login.fixedCode
       (Monolith.run Login.fixedCode (Monolith.started Login.fixedCode)
          Monolith.loggedIn)
       [Monolith.Elapse 1740000; Monolith.Fire]) =
  [Login.LoginRequest 30 "secret" "user"; Login.LoginRequest 30 "secret" "user";
   Login.TotpRequest "123456" (Some (Http.JStr "tx-1"));
   Login.LoginRequest 30 "secret" "user"].
Proof.
  exact (proj1 (proj2 (proj2
           (monolith_renewal_on_time Login.fixedCode
              (Monolith.run Login.fixedCode (Monolith.started Login.fixedCode)
                 Monolith.loggedIn)
              1740000 [] Login.someone "123456"
              eq_refl (proj1 (Z.leb_le 0 1740000) eq_refl) eq_refl eq_refl eq_refl)))).
Defined.

(** In the service class the timeout given to the constructor is not
    checked: with a user name and a password, whatever the timeout, nothing
    is thrown and [authenticate] posts the credentials with that timeout. *)
Theorem service_timeout_unchecked totp (c : Validation.Credentials) (t : Z) :
  Validation.username c <> ""%string ->
  Validation.password c <> ""%string ->
  Service.uncaught (Service.construct (Some c) t) = [] /\
  Service.requests (Service.authenticate totp (Service.construct (Some c) t)) =
    [Login.LoginRequest t (Validation.password c) (Validation.username c)] /\
  Service.promiseOf (Service.authenticate totp (Service.construct (Some c) t)) 0 =
    Some Service.Pending.
Proof.
  intros Hu Hp.
  assert (V : Service.validate c = Validation.Returns).
  { unfold Service.validate.
    destruct (checkCredentials_cases c Validation.MAX_INACTIVE_MINUTES)
      as [(U & E)|[(U & P & E)|[(U & P & R & E)|(U & P & R & E)]]];
      try contradiction; [|exact E].
    exfalso. apply R. unfold Validation.MAX_INACTIVE_MINUTES. lia. }
  assert (C : Service.construct (Some c) t =
              Service.mkState 0 t [c] true [] [] [] [] None).
  { unfold Service.construct, Service.watch. cbn. now rewrite V. }
  rewrite C. split; [reflexivity|].
  rewrite (authenticate_closed totp
             (Service.mkState 0 t [c] true [] [] [] [] None) c eq_refl V).
  split; reflexivity.
Qed.

Lemma service_timeout_unchecked_example :
  Service.requests
    (Service.authenticate Login.fixedCode (Service.construct (Some Login.someone) 5)) =
  [Login.LoginRequest 5 "secret" "user"].
Proof.
  exact (proj1 (proj2 (service_timeout_unchecked Login.fixedCode Login.someone 5
                         ltac:(discriminate) ltac:(discriminate)))).
Defined.

(** The answer to the handshake: a successful one stores the client id and
    makes the next frame a connect frame that carries it; a refused one
    sends nothing. *)
Theorem handshake_answer_sends_connect (st : RealTime.State) (m : RealTime.Message) :
  RealTime.msg_channel m = "/meta/handshake"%string ->
  RealTime.outputs st (RealTime.SocketMessage [m]) =
    (if RealTime.successful m
     then [RealTime.Connect (RealTime.socketMessageCount st) (RealTime.clientId m) true]
     else []) /\
  RealTime.socketClientId (RealTime.step st (RealTime.SocketMessage [m])) =
    (if RealTime.successful m then RealTime.clientId m
     else RealTime.socketClientId st).
Proof.
  intro Hc. split.
  - apply sends_outputs. cbn [RealTime.step]. unfold RealTime.onSocketMessage.
    cbn [fold_left]. unfold RealTime.dispatch. rewrite Hc. cbn [String.eqb].
    replace (String.eqb "/meta/handshake" "/meta/handshake") with true by reflexivity.
    destruct (RealTime.successful m).
    + split; reflexivity.
    + apply sends_refl.
  - cbn [RealTime.step]. unfold RealTime.onSocketMessage.
    cbn [fold_left]. unfold RealTime.dispatch. rewrite Hc.
    replace (String.eqb "/meta/handshake" "/meta/handshake") with true by reflexivity.
    destruct (RealTime.successful m); reflexivity.
Qed.

Lemma handshake_answer_sends_connect_example :
  RealTime.outputs
    (RealTime.run RealTime.init [RealTime.AuthSession RealTime.session0;
                                 RealTime.SocketOpen])
    (RealTime.SocketMessage [RealTime.handshakeOk "C1"]) =
  [RealTime.Connect 2 (Some "C1"%string) true].
Proof.
  exact (proj1 (handshake_answer_sends_connect
                  (RealTime.run RealTime.init [RealTime.AuthSession RealTime.session0;
                                               RealTime.SocketOpen])
                  (RealTime.handshakeOk "C1") eq_refl)).
Defined.

(** ** More on the multiplexer: forwarding, ledger, numbering *)

Lemma isSocketAuth_next_fields (v : bool) (st : RealTime.State) :
  RealTime.messages (RealTime.isSocketAuth_next v st) = RealTime.messages st /\
  RealTime.socketClientId (RealTime.isSocketAuth_next v st) =
    RealTime.socketClientId st.
Proof.
  unfold RealTime.isSocketAuth_next.
  destruct (Bool.eqb v (RealTime.isSocketAuth st)); [split; reflexivity|].
  rewrite subscriptionPipeline_closed, sendFrames_closed. split; reflexivity.
Qed.

Lemma dispatch_messages (c0 : Z) (cid0 : option string) (st : RealTime.State)
    (m : RealTime.Message) :
  RealTime.messages (RealTime.dispatch c0 cid0 st m) =
  RealTime.messages st ++ (if Traffic.isData m then [m] else []).
Proof.
  unfold RealTime.dispatch, Traffic.isData.
  destruct (String.eqb (RealTime.msg_channel m) "/meta/handshake").
  - cbn [negb andb]. rewrite app_nil_r.
    destruct (RealTime.successful m); reflexivity.
  - destruct (String.eqb (RealTime.msg_channel m) "/meta/connect");
      cbn [negb andb].
    + rewrite app_nil_r. cbn [RealTime.onSocketSend_next RealTime.messages].
      apply isSocketAuth_next_fields.
    + reflexivity.
Qed.

Lemma dispatch_loop_messages (c0 : Z) (cid0 : option string)
    (batch : list RealTime.Message) (st : RealTime.State) :
  RealTime.messages (fold_left (RealTime.dispatch c0 cid0) batch st) =
  RealTime.messages st ++ filter Traffic.isData batch.
Proof.
  revert st. induction batch as [|m batch IH]; intro st.
  - simpl. now rewrite app_nil_r.
  - cbn [fold_left filter]. rewrite IH, dispatch_messages, <- app_assoc.
    f_equal. destruct (Traffic.isData m); reflexivity.
Qed.

Lemma step_messages (st : RealTime.State) (e : RealTime.Event) :
  RealTime.messages (RealTime.step st e) =
  RealTime.messages st ++ Traffic.forwarded [e].
Proof.
  destruct e as [| |batch|session|s]; cbn [RealTime.step Traffic.forwarded flat_map];
    rewrite ?app_nil_r.
  - now rewrite openPipeline_closed, sendFrames_closed.
  - now rewrite openPipeline_closed, sendFrames_closed.
  - apply dispatch_loop_messages.
  - now rewrite openPipeline_closed, sendFrames_closed.
  - unfold RealTime.addSubscription_next.
    now rewrite subscriptionPipeline_closed, sendFrames_closed.
Qed.

Lemma forwarded_cons (e : RealTime.Event) (es : list RealTime.Event) :
  Traffic.forwarded (e :: es) = Traffic.forwarded [e] ++ Traffic.forwarded es.
Proof. unfold Traffic.forwarded. cbn [flat_map]. now rewrite app_nil_r. Qed.

(** Every inbound frame whose channel is neither [/meta/handshake] nor
    [/meta/connect] is appended to [messages$], unchanged, in the order of
    arrival within a batch and across batches; protocol frames are never
    forwarded and no other event touches [messages$]. *)
Theorem data_frames_forwarded_in_order (es : list RealTime.Event)
    (st : RealTime.State) :
  RealTime.messages (RealTime.run st es) =
  RealTime.messages st ++ Traffic.forwarded es.
Proof.
  revert st. induction es as [|e es IH]; intro st.
  - simpl. now rewrite app_nil_r.
  - cbn [RealTime.run fold_left]. fold (RealTime.run (RealTime.step st e) es).
    rewrite (forwarded_cons e es), IH, step_messages. now rewrite app_assoc.
Qed.

Lemma step_subscriptions (st : RealTime.State) (e : RealTime.Event) :
  RealTime.subscriptions (RealTime.step st e) =
  RealTime.subscriptions st ++ Traffic.requested [e].
Proof.
  destruct e as [| |batch|session|s]; cbn [RealTime.step Traffic.requested flat_map];
    rewrite ?app_nil_r.
  - now rewrite openPipeline_closed, sendFrames_closed.
  - now rewrite openPipeline_closed, sendFrames_closed.
  - destruct (dispatch_loop (RealTime.socketMessageCount st)
                (RealTime.socketClientId st) batch st)
      as (out & _ & (_ & K & _) & _).
    exact K.
  - now rewrite openPipeline_closed, sendFrames_closed.
  - unfold RealTime.addSubscription_next.
    now rewrite subscriptionPipeline_closed, sendFrames_closed.
Qed.

(** The ledger an observer of [subscriptions$] holds is append-only: after
    any run it is what it was, followed by every request made during the
    run, in order, duplicates included.  Nothing is ever removed, neither
    by a close event nor by a replay. *)
Theorem ledger_is_append_only (es : list RealTime.Event) (st : RealTime.State) :
  RealTime.subscriptions (RealTime.run st es) =
  RealTime.subscriptions st ++ Traffic.requested es.
Proof.
  revert st. induction es as [|e es IH]; intro st.
  - simpl. now rewrite app_nil_r.
  - cbn [RealTime.run fold_left]. fold (RealTime.run (RealTime.step st e) es).
    rewrite IH, step_subscriptions, <- app_assoc. f_equal.
    unfold Traffic.requested. cbn [flat_map]. now rewrite app_nil_r.
Qed.

(** Once the authenticated flag is up it stays up, whatever happens (close
    events included), and no inbound batch replays a request again: after
    that, subscribe frames are sent by [addSubscription] only. *)
Theorem authenticated_flag_never_drops (es : list RealTime.Event)
    (st : RealTime.State) :
  RealTime.isSocketAuth st = true ->
  RealTime.isSocketAuth (RealTime.run st es) = true /\
  forall batch,
    RealTime.subscribesOf
      (RealTime.outputs (RealTime.run st es) (RealTime.SocketMessage batch)) = [].
Proof.
  intro Ha.
  assert (H : RealTime.isSocketAuth (RealTime.run st es) = true).
  { revert st Ha. induction es as [|e es IH]; intros st Ha; [exact Ha|].
    cbn [RealTime.run fold_left]. apply IH.
    rewrite isSocketAuth_step, Ha. now destruct e. }
  split; [exact H|].
  intro batch. apply pathsOf_nil. now rewrite outputs_SocketMessage, H.
Qed.

Lemma authenticated_flag_never_drops_example :
  RealTime.isSocketAuth
    (RealTime.run RealTime.connected [RealTime.SocketClose; RealTime.SocketOpen]) = true.
Proof.
  exact (proj1 (authenticated_flag_never_drops
                  [RealTime.SocketClose; RealTime.SocketOpen] RealTime.connected
                  eq_refl)).
Defined.

Lemma wellNumbered_send (f : RealTime.Frame) (st : RealTime.State) :
  Traffic.wellNumbered st ->
  1 <= RealTime.frame_id f <= RealTime.socketMessageCount st ->
  Traffic.wellNumbered (RealTime.onSocketSend_next f st).
Proof.
  intros [Hc Hk] Hf. split.
  - cbn [RealTime.onSocketSend_next RealTime.socketMessageCount RealTime.sent].
    rewrite Hc, length_app, Nat2Z.inj_add. cbn [List.length]. lia.
  - intros k g Hg. cbn [RealTime.onSocketSend_next RealTime.sent] in Hg.
    destruct (Nat.lt_ge_cases k (List.length (RealTime.sent st))) as [L|L].
    + rewrite nth_error_app1 in Hg by exact L. now apply Hk.
    + rewrite nth_error_app2 in Hg by exact L.
      destruct (k - List.length (RealTime.sent st))%nat as [|j] eqn:E.
      * simpl in Hg. inversion Hg. subst g. lia.
      * simpl in Hg. destruct j; discriminate Hg.
Qed.

Lemma wellNumbered_sendFrames (fs : list RealTime.Frame) (st : RealTime.State) :
  Traffic.wellNumbered st ->
  Forall (fun f => 1 <= RealTime.frame_id f <= RealTime.socketMessageCount st) fs ->
  Traffic.wellNumbered (RealTime.sendFrames fs st).
Proof.
  unfold RealTime.sendFrames. revert st.
  induction fs as [|f fs IH]; intros st Hw Hf; [exact Hw|].
  inversion Hf as [|? ? H1 H2]; subst. cbn [fold_left]. apply IH.
  - now apply wellNumbered_send.
  - eapply Forall_impl; [|exact H2]. cbn. intros g Hg. lia.
Qed.

Lemma wellNumbered_positive (st : RealTime.State) :
  Traffic.wellNumbered st -> 1 <= RealTime.socketMessageCount st.
Proof. intros [Hc _]. lia. Qed.

Lemma subscriptionFrames_ids (s : RealTime.Subscription) (count : Z)
    (cid : option string) :
  Forall (fun f => RealTime.frame_id f = count)
         (RealTime.subscriptionFrames s count cid).
Proof.
  unfold RealTime.subscriptionFrames.
  destruct (RealTime.includes _ _).
  - repeat constructor.
  - induction (RealTime.ids s); constructor; auto.
Qed.

Lemma wellNumbered_subscriptionPipeline (st : RealTime.State) :
  Traffic.wellNumbered st ->
  Traffic.wellNumbered (RealTime.subscriptionPipeline st).
Proof.
  intro Hw. rewrite subscriptionPipeline_closed.
  apply wellNumbered_sendFrames; [exact Hw|].
  pose proof (wellNumbered_positive st Hw) as Hp.
  destruct (RealTime.addSubscription st) as [s|]; [|constructor].
  destruct (RealTime.isSocketAuth st); [|constructor].
  eapply Forall_impl; [|apply subscriptionFrames_ids].
  cbn. intros f Hf. lia.
Qed.

Lemma count_grows_sendFrames (fs : list RealTime.Frame) (st : RealTime.State) :
  RealTime.socketMessageCount st <=
  RealTime.socketMessageCount (RealTime.sendFrames fs st).
Proof. rewrite sendFrames_closed. cbn. lia. Qed.

Lemma wellNumbered_dispatch (c0 : Z) (cid0 : option string) (st : RealTime.State)
    (m : RealTime.Message) :
  Traffic.wellNumbered st ->
  1 <= c0 <= RealTime.socketMessageCount st ->
  Traffic.wellNumbered (RealTime.dispatch c0 cid0 st m) /\
  c0 <= RealTime.socketMessageCount (RealTime.dispatch c0 cid0 st m).
Proof.
  intros Hw Hc. unfold RealTime.dispatch.
  destruct (String.eqb (RealTime.msg_channel m) "/meta/handshake").
  - destruct (RealTime.successful m).
    + split.
      * apply wellNumbered_send; [exact Hw | exact Hc].
      * cbn. lia.
    + split; [exact Hw | lia].
  - destruct (String.eqb (RealTime.msg_channel m) "/meta/connect").
    + assert (Hw' : Traffic.wellNumbered (RealTime.isSocketAuth_next true st) /\
                    RealTime.socketMessageCount st <=
                    RealTime.socketMessageCount (RealTime.isSocketAuth_next true st)).
      { unfold RealTime.isSocketAuth_next.
        destruct (Bool.eqb true (RealTime.isSocketAuth st)); [split; [exact Hw|lia]|].
        split.
        - apply wellNumbered_subscriptionPipeline. exact Hw.
        - rewrite subscriptionPipeline_closed.
          apply (count_grows_sendFrames _ (RealTime.set_isSocketAuth true st)). }
      destruct Hw' as [Hw' Hg]. split.
      * apply wellNumbered_send; [exact Hw'|]. cbn. lia.
      * cbn. lia.
    + split; [exact Hw | cbn; lia].
Qed.

Lemma wellNumbered_step (st : RealTime.State) (e : RealTime.Event) :
  Traffic.wellNumbered st -> Traffic.wellNumbered (RealTime.step st e).
Proof.
  intro Hw. pose proof (wellNumbered_positive st Hw) as Hp.
  destruct e as [| |batch|session|s]; cbn [RealTime.step].
  - rewrite openPipeline_closed. apply wellNumbered_sendFrames; [exact Hw|].
    cbn. destruct (RealTime.authSession st); repeat constructor; cbn; lia.
  - exact Hw.
  - unfold RealTime.onSocketMessage.
    assert (G : forall c0 cid0 st0,
               Traffic.wellNumbered st0 ->
               1 <= c0 <= RealTime.socketMessageCount st0 ->
               Traffic.wellNumbered (fold_left (RealTime.dispatch c0 cid0) batch st0)).
    { clear. induction batch as [|m batch IH]; intros c0 cid0 st0 Hw Hc; [exact Hw|].
      cbn [fold_left].
      destruct (wellNumbered_dispatch c0 cid0 st0 m Hw Hc) as [Hw' Hc'].
      apply IH; [exact Hw'|lia]. }
    apply G; [exact Hw | lia].
  - rewrite openPipeline_closed. apply wellNumbered_sendFrames; [exact Hw|].
    cbn. destruct (RealTime.isSocketOpen st) as [[|]|]; repeat constructor; cbn; lia.
  - unfold RealTime.addSubscription_next.
    apply wellNumbered_subscriptionPipeline. exact Hw.
Qed.

(** A frame never carries an id ahead of the counter: in every run from a
    new instance, the frame at position [k] on the wire (from 0) has an id
    between 1 and [k + 1].  Ids can repeat or fall back, they cannot run
    ahead. *)
Theorem frame_ids_never_ahead (es : list RealTime.Event) (k : nat)
    (f : RealTime.Frame) :
  nth_error (RealTime.sent (RealTime.run RealTime.init es)) k = Some f ->
  1 <= RealTime.frame_id f <= Z.of_nat k + 1.
Proof.
  assert (Hw : Traffic.wellNumbered (RealTime.run RealTime.init es)).
  { assert (G : forall st, Traffic.wellNumbered st ->
                           Traffic.wellNumbered (RealTime.run st es)).
    { induction es as [|e es IH]; intros st Hw; [exact Hw|].
      cbn [RealTime.run fold_left]. apply IH. now apply wellNumbered_step. }
    apply G. split; [reflexivity|]. intros j g Hg. destruct j; discriminate Hg. }
  apply Hw.
Qed.

Lemma frame_ids_never_ahead_example :
  1 <= RealTime.frame_id (RealTime.Connect 3 (Some "C1"%string) false) <= 4 + 1.
Proof.
  exact (frame_ids_never_ahead RealTime.replayTrace 4
           (RealTime.Connect 3 (Some "C1"%string) false) eq_refl).
Defined.

Lemma subscriptionFrames_kinds (s : RealTime.Subscription) (count : Z)
    (cid : option string) :
  filter Traffic.isConnectFrame (RealTime.subscriptionFrames s count cid) = [] /\
  filter Traffic.isHandshakeFrame (RealTime.subscriptionFrames s count cid) = [].
Proof.
  unfold RealTime.subscriptionFrames.
  destruct (RealTime.includes _ _); [split; reflexivity|].
  induction (RealTime.ids s) as [|id l IH]; [split; reflexivity|exact IH].
Qed.

Lemma dispatch_frames (c0 : Z) (cid0 : option string) (st : RealTime.State)
    (m : RealTime.Message) :
  exists out,
    RealTime.sends st (RealTime.dispatch c0 cid0 st m) out /\
    filter Traffic.isConnectFrame out = Traffic.connectFrames c0 cid0 [m] /\
    filter Traffic.isHandshakeFrame out = [].
Proof.
  unfold RealTime.dispatch, Traffic.connectFrames. cbn [flat_map].
  rewrite app_nil_r.
  destruct (String.eqb (RealTime.msg_channel m) "/meta/handshake").
  - destruct (RealTime.successful m).
    + eexists. split; [split; reflexivity|]. split; reflexivity.
    + exists []. split; [apply sends_refl|]. split; reflexivity.
  - destruct (String.eqb (RealTime.msg_channel m) "/meta/connect").
    + unfold RealTime.isSocketAuth_next.
      destruct (Bool.eqb true (RealTime.isSocketAuth st)).
      * eexists. split; [split; reflexivity|]. split; reflexivity.
      * rewrite subscriptionPipeline_closed.
        match goal with
        | |- context [RealTime.sendFrames ?fs ?s0] =>
            exists (fs ++ [RealTime.Connect c0 cid0 false]);
            assert (K : filter Traffic.isConnectFrame fs = [] /\
                        filter Traffic.isHandshakeFrame fs = [])
        end.
        { cbn. destruct (RealTime.addSubscription st); [|split; reflexivity].
          apply subscriptionFrames_kinds. }
        destruct K as [K1 K2]. split; [|split].
        -- eapply sends_trans.
           ++ apply (sends_sendFrames _ (RealTime.set_isSocketAuth true st)).
           ++ split; reflexivity.
        -- now rewrite filter_app, K1.
        -- now rewrite filter_app, K2.
    + exists []. split; [|split; reflexivity].
      split; cbn; [now rewrite app_nil_r | lia].
Qed.

Lemma dispatch_loop_frames (c0 : Z) (cid0 : option string)
    (batch : list RealTime.Message) (st : RealTime.State) :
  exists out,
    RealTime.sends st (fold_left (RealTime.dispatch c0 cid0) batch st) out /\
    filter Traffic.isConnectFrame out = Traffic.connectFrames c0 cid0 batch /\
    filter Traffic.isHandshakeFrame out = [].
Proof.
  revert st. induction batch as [|m batch IH]; intro st.
  - exists []. split; [apply sends_refl|]. split; reflexivity.
  - cbn [fold_left].
    destruct (dispatch_frames c0 cid0 st m) as (o1 & S1 & C1 & H1).
    destruct (IH (RealTime.dispatch c0 cid0 st m)) as (o2 & S2 & C2 & H2).
    exists (o1 ++ o2). split; [eapply sends_trans; eauto|].
    rewrite !filter_app, C1, C2, H1, H2. split; [|reflexivity].
    unfold Traffic.connectFrames. cbn [flat_map]. now rewrite app_nil_r.
Qed.

(** The connect frames sent for an inbound batch are, in order, one per
    successful [/meta/handshake] frame (with the client id of that frame)
    and one per [/meta/connect] frame; the latter carry the client id that
    was stored when the batch arrived, not one a handshake of the same
    batch has just brought.  All carry the counter value read when the
    batch arrived.  An inbound batch never makes the instance send a
    handshake frame. *)
Theorem connect_frames_of_a_batch (st : RealTime.State)
    (batch : list RealTime.Message) :
  filter Traffic.isConnectFrame
    (RealTime.outputs st (RealTime.SocketMessage batch)) =
    Traffic.connectFrames (RealTime.socketMessageCount st)
      (RealTime.socketClientId st) batch /\
  filter Traffic.isHandshakeFrame
    (RealTime.outputs st (RealTime.SocketMessage batch)) = [].
Proof.
  destruct (dispatch_loop_frames (RealTime.socketMessageCount st)
              (RealTime.socketClientId st) batch st) as (out & S & C & H).
  now rewrite (sends_outputs st (RealTime.SocketMessage batch) out S).
Qed.

(** A handshake frame is sent by an open event when a session is
    available and by a session pushed while the socket is open, also when
    the connection is already authenticated, and by nothing else; it is then
    the only frame sent and carries the current counter and the push
    subscription id of the latest session. *)
Theorem handshake_frames_by_event (st : RealTime.State) (e : RealTime.Event) :
  filter Traffic.isHandshakeFrame (RealTime.outputs st e) =
    match e with
    | RealTime.SocketOpen =>
        match RealTime.authSession st with
        | Some session =>
            [RealTime.Handshake (RealTime.socketMessageCount st)
               (RealTime.pushSubscriptionId session)]
        | None => []
        end
    | RealTime.AuthSession session =>
        match RealTime.isSocketOpen st with
        | Some true =>
            [RealTime.Handshake (RealTime.socketMessageCount st)
               (RealTime.pushSubscriptionId session)]
        | _ => []
        end
    | _ => []
    end /\
  match e with
  | RealTime.SocketOpen | RealTime.AuthSession _ =>
      RealTime.outputs st e = filter Traffic.isHandshakeFrame (RealTime.outputs st e)
  | _ => True
  end.
Proof.
  destruct e as [| |batch|session|s].
  - assert (E : RealTime.outputs st RealTime.SocketOpen =
                match RealTime.authSession st with
                | Some session =>
                    [RealTime.Handshake (RealTime.socketMessageCount st)
                       (RealTime.pushSubscriptionId session)]
                | None => []
                end).
    { apply sends_outputs. cbn [RealTime.step]. rewrite openPipeline_closed.
      cbn [RealTime.set_isSocketOpen RealTime.isSocketOpen RealTime.authSession
           RealTime.socketMessageCount].
      apply (sends_sendFrames _ (RealTime.set_isSocketOpen true st)). }
    rewrite E. destruct (RealTime.authSession st); split; reflexivity.
  - replace (RealTime.outputs st RealTime.SocketClose) with (@nil RealTime.Frame).
    + split; [reflexivity|exact I].
    + symmetry. apply sends_outputs. split; cbn; [now rewrite app_nil_r | lia].
  - split; [|exact I].
    destruct (dispatch_loop_frames (RealTime.socketMessageCount st)
                (RealTime.socketClientId st) batch st) as (out & S & C & H).
    now rewrite (sends_outputs st (RealTime.SocketMessage batch) out S).
  - assert (E : RealTime.outputs st (RealTime.AuthSession session) =
                match RealTime.isSocketOpen st with
                | Some true =>
                    [RealTime.Handshake (RealTime.socketMessageCount st)
                       (RealTime.pushSubscriptionId session)]
                | _ => []
                end).
    { apply sends_outputs. cbn [RealTime.step]. rewrite openPipeline_closed.
      cbn [RealTime.set_authSession RealTime.isSocketOpen RealTime.authSession
           RealTime.socketMessageCount].
      destruct (RealTime.isSocketOpen st) as [[|]|];
        apply (sends_sendFrames _ (RealTime.set_authSession session st)). }
    rewrite E. destruct (RealTime.isSocketOpen st) as [[|]|]; split; reflexivity.
  - split; [|exact I].
    assert (E : RealTime.sends st (RealTime.step st (RealTime.AddSubscription s))
                  (match RealTime.isSocketAuth st with
                   | true => RealTime.subscriptionFrames s
                               (RealTime.socketMessageCount st)
                               (RealTime.socketClientId st)
                   | false => []
                   end)).
    { cbn [RealTime.step]. unfold RealTime.addSubscription_next.
      rewrite subscriptionPipeline_closed.
      apply (sends_sendFrames _ (RealTime.set_addSubscription (Some s) st)). }
    rewrite (sends_outputs _ _ _ E).
    destruct (RealTime.isSocketAuth st); [apply subscriptionFrames_kinds|reflexivity].
Qed.

(** A request made while the authenticated flag is down sends nothing.
    Made while it is up, for a channel other than orders, deals and
    positions, it sends one subscribe frame per id, in the order of the
    ids; all these frames carry the same id, the counter value read before
    the first was sent, and the stored client id.  An empty id list sends
    nothing. *)
Theorem request_frames_share_one_id (st : RealTime.State) (s : RealTime.Subscription) :
  RealTime.includes [RealTime.ORDERS; RealTime.DEALS; RealTime.POSITIONS]
    (RealTime.channel s) = false ->
  RealTime.outputs st (RealTime.AddSubscription s) =
  if RealTime.isSocketAuth st
  then map (fun id =>
              RealTime.Subscribe (RealTime.socketMessageCount st)
                (RealTime.socketClientId st)
                ("/" ++ RealTime.channel_value (RealTime.channel s) ++ "/" ++ id)%string)
           (RealTime.ids s)
  else [].
Proof.
  intro Hc. apply sends_outputs. cbn [RealTime.step].
  unfold RealTime.addSubscription_next. rewrite subscriptionPipeline_closed.
  cbn [RealTime.set_addSubscription RealTime.addSubscription RealTime.isSocketAuth
       RealTime.socketMessageCount RealTime.socketClientId].
  unfold RealTime.subscriptionFrames. rewrite Hc.
  destruct (RealTime.isSocketAuth st);
    apply (sends_sendFrames _ (RealTime.set_addSubscription (Some s) st)).
Qed.

Lemma request_frames_share_one_id_example :
  RealTime.outputs RealTime.connected (RealTime.AddSubscription RealTime.quotes56) =
  [RealTime.Subscribe 4 (Some "C1"%string) "/quotes/5";
   RealTime.Subscribe 4 (Some "C1"%string) "/quotes/6"].
Proof.
  exact (request_frames_share_one_id RealTime.connected RealTime.quotes56 eq_refl).
Defined.

(** ** More on the retry policy: where the loop ends, and its bounds *)

Section RetryLoop.

Context {A : Type}.
Variable d : list Z.
Variable o : Retry.Options.

Let max := Retry.orDefault (Retry.maxRetryAttempts o) 3.
Let base := Retry.orDefault (Retry.scalingDuration o) 1000.
Let excluded := Retry.orDefault (Retry.excludedStatusCodes o) d.

Lemma strategy_stops (k : nat) (error : Http.Thrown) :
  Retry.genericRetryStrategy d o error (Z.of_nat k) =
  if RetryRun.stopsAt max excluded k (@inl _ A error)
  then Retry.ThrowError error
  else Retry.Timer ((Z.of_nat k + 1) * base).
Proof. reflexivity. Qed.

Lemma retryLoop_ends (outcomes : list (Http.Thrown + A)) (k0 : nat)
    (waited : list Z) :
  let r := Retry.retryLoop d o outcomes (Z.of_nat k0) k0 waited in
  ((forall j x, nth_error outcomes j = Some x ->
                RetryRun.stopsAt max excluded (k0 + j) x = false) /\
   Retry.ending r = Retry.Waiting /\
   Retry.attempts r = (k0 + List.length outcomes)%nat /\
   List.length (Retry.delays r) = (List.length waited + List.length outcomes)%nat)
  \/
  (exists j x,
     nth_error outcomes j = Some x /\
     RetryRun.stopsAt max excluded (k0 + j) x = true /\
     (forall j' x', (j' < j)%nat -> nth_error outcomes j' = Some x' ->
                    RetryRun.stopsAt max excluded (k0 + j') x' = false) /\
     Retry.ending r = RetryRun.endingOf x /\
     Retry.attempts r = (k0 + j + 1)%nat /\
     List.length (Retry.delays r) = (List.length waited + j)%nat).
Proof.
  revert k0 waited. induction outcomes as [|x rest IH]; intros k0 waited; cbn zeta.
  - left. cbn. repeat split; try lia. intros j x Hj. destruct j; discriminate Hj.
  - destruct x as [error|value].
    + cbn [Retry.retryLoop]. rewrite strategy_stops.
      destruct (RetryRun.stopsAt max excluded k0 (inl error)) eqn:E.
      * right. exists 0%nat, (inl error). cbn.
        rewrite Nat.add_0_r. repeat split; auto; try lia.
      * replace (Z.of_nat k0 + 1) with (Z.of_nat (S k0)) by lia.
        destruct (IH (S k0) (waited ++ [Z.of_nat (S k0) * base]))
          as [(N & W & At & Dl)|(j & x & Hj & St & Bf & En & At & Dl)].
        -- left. repeat split.
           ++ intros j x Hj. destruct j as [|j].
              ** inversion Hj. subst x. now rewrite Nat.add_0_r.
              ** cbn in Hj. replace (k0 + S j)%nat with (S k0 + j)%nat by lia.
                 now apply N.
           ++ exact W.
           ++ rewrite At. cbn. lia.
           ++ rewrite Dl, length_app. cbn. lia.
        -- right. exists (S j), x. repeat split.
           ++ exact Hj.
           ++ replace (k0 + S j)%nat with (S k0 + j)%nat by lia. exact St.
           ++ intros j' x' Hlt Hj'. destruct j' as [|j'].
              ** inversion Hj'. subst x'. now rewrite Nat.add_0_r.
              ** cbn in Hj'. replace (k0 + S j')%nat with (S k0 + j')%nat by lia.
                 apply Bf; [lia | exact Hj'].
           ++ exact En.
           ++ rewrite At. lia.
           ++ rewrite Dl, length_app. cbn. lia.
    + right. exists 0%nat, (inr value). cbn. rewrite Nat.add_0_r.
      repeat split; auto; try lia.
Qed.

(** The loop ends at the first subscription whose outcome is a value, an
    error with an excluded status code, or an error that comes after
    [maxRetryAttempts] errors: it ends as that outcome says, after exactly
    that many subscriptions and one delay for each earlier one.  If no
    outcome is of that kind the loop is still waiting, having subscribed
    once per outcome. *)
Theorem retry_ends_at_first_stop (outcomes : list (Http.Thrown + A)) :
  let r := Retry.retryWhen d o outcomes in
  ((forall j x, nth_error outcomes j = Some x ->
                RetryRun.stopsAt max excluded j x = false) /\
   Retry.ending r = Retry.Waiting /\
   Retry.attempts r = List.length outcomes /\
   List.length (Retry.delays r) = List.length outcomes)
  \/
  (exists j x,
     nth_error outcomes j = Some x /\
     RetryRun.stopsAt max excluded j x = true /\
     (forall j' x', (j' < j)%nat -> nth_error outcomes j' = Some x' ->
                    RetryRun.stopsAt max excluded j' x' = false) /\
     Retry.ending r = RetryRun.endingOf x /\
     Retry.attempts r = (j + 1)%nat /\
     List.length (Retry.delays r) = j).
Proof.
  exact (retryLoop_ends outcomes 0 []).
Qed.



Lemma retry_counts_bounded (outcomes : list (Http.Thrown + A)) :
  0 <= max ->
  Z.of_nat (Retry.attempts (Retry.retryWhen d o outcomes)) <= max + 1 /\
  Z.of_nat (List.length (Retry.delays (Retry.retryWhen d o outcomes))) <= max.
Proof.
  intros Hm. set (r := Retry.retryWhen d o outcomes).
  assert (NS : forall j (x : Http.Thrown + A),
             RetryRun.stopsAt max excluded j x = false -> Z.of_nat j + 1 <= max).
  { intros j x H. destruct x as [e|v]; [|discriminate H].
    cbn in H. apply orb_false_iff in H. destruct H as [H _].
    destruct (Z.of_nat j + 1 >? max) eqn:G; [discriminate H|].
    rewrite Z.gtb_ltb in G. apply Z.ltb_ge in G. exact G. }
  destruct (retryLoop_ends outcomes 0 [])
    as [(N & _ & At & Dl)|(j & x & Hj & _ & Bf & _ & At & Dl)];
    cbn [Nat.add List.length] in At, Dl;
    change (Retry.retryLoop d o outcomes (Z.of_nat 0) 0 []) with r in At, Dl;
    rewrite At, Dl.
  - destruct outcomes as [|x0 rest] eqn:E; [cbn; lia|].
    rewrite <- E in *.
    assert (L : (List.length outcomes - 1 < List.length outcomes)%nat)
      by (rewrite E; cbn; lia).
    destruct (nth_error outcomes (List.length outcomes - 1)) as [x|] eqn:Hx.
    + pose proof (NS _ _ (N _ _ Hx)). lia.
    + apply nth_error_None in Hx. lia.
  - destruct j as [|j]; [cbn; lia|].
    assert (L : (j < List.length outcomes)%nat).
    { assert (S j < List.length outcomes)%nat
        by (apply nth_error_Some; congruence). lia. }
    destruct (nth_error outcomes j) as [x'|] eqn:Hx.
    + pose proof (NS _ _ (Bf j x' ltac:(lia) Hx)). lia.
    + apply nth_error_None in Hx. lia.
Qed.

Lemma retry_delays_closed (outcomes : list (Http.Thrown + A)) :
  Retry.delays (Retry.retryWhen d o outcomes) =
  map (fun k => Z.of_nat k * base)
      (seq 1 (List.length (Retry.delays (Retry.retryWhen d o outcomes)))).
Proof.
  unfold Retry.retryWhen.
  destruct (retryLoop_delays d o outcomes 0 0%nat []) as (n & Hn).
  rewrite Hn. cbn [app]. rewrite length_map, length_seq. reflexivity.
Qed.

Lemma retry_delays_honoured (outcomes : list (Http.Thrown + A)) (ms : Z) :
  0 <= max -> 1 <= base -> max * base <= Retry.TIMEOUT_MAX ->
  In ms (Retry.delays (Retry.retryWhen d o outcomes)) ->
  base <= ms <= max * base /\ Retry.honoured ms = true.
Proof.
  intros Hm Hb Hr Hin.
  destruct (retry_counts_bounded outcomes Hm) as [_ B].
  rewrite (retry_delays_closed outcomes) in Hin. apply in_map_iff in Hin.
  destruct Hin as (k & <- & Hk). apply in_seq in Hk.
  assert (R : base <= Z.of_nat k * base <= max * base) by nia.
  split; [exact R|]. unfold Retry.honoured.
  apply andb_true_iff. split; apply Z.leb_le; lia.
Qed.


End RetryLoop.


(** ** More on the login sequence: invalid credentials, retries, stale code *)

Lemma perform_onSetCredentials (k : nat) (st : Service.State) (e : Login.Effect) :
  Service.onSetCredentials (Service.perform k st e) = Service.onSetCredentials st.
Proof.
  destruct e; cbn; try reflexivity;
    unfold Service.settle; destruct (nth_error _ _); reflexivity.
Qed.

Lemma drive_onSetCredentials f (st : Service.State) (k : nat) :
  Service.onSetCredentials (Service.drive f st k) = Service.onSetCredentials st.
Proof.
  unfold Service.drive.
  destruct (nth_error (Service.calls st) k) as [[p [| |]]|]; try reflexivity.
  destruct (f (List.length (Service.requests st)) p) as [p' effects].
  assert (G : forall s, Service.onSetCredentials
                          (fold_left (Service.perform k) effects s)
                        = Service.onSetCredentials s).
  { induction effects as [|e effects IH]; intro s; [reflexivity|].
    cbn [fold_left]. rewrite IH. apply perform_onSetCredentials. }
  now rewrite G.
Qed.

Lemma stop_idle (p : Login.Pipeline) : Runs.idle (Login.stop p).
Proof. repeat split. Qed.

Lemma applyEffects_idle (effects : list Login.Effect) (c : Service.Call) :
  Runs.idle (Service.pipeline c) ->
  Runs.idle (Service.pipeline (fold_left Service.applyEffect effects c)).
Proof.
  revert c. induction effects as [|e effects IH]; intros c Hc; [exact Hc|].
  cbn [fold_left]. apply IH. destruct e; cbn; auto using stop_idle.
Qed.

Lemma callAfter_idle f (n : nat) (c : Service.Call) :
  Runs.harmless f -> Runs.idle (Service.pipeline c) ->
  Runs.idle (Service.pipeline (Service.callAfter f n c)).
Proof.
  intros Hf Hc. unfold Service.callAfter.
  destruct (Service.promise c); try exact Hc.
  destruct (Hf n (Service.pipeline c) Hc) as [Hi _].
  destruct (f n (Service.pipeline c)) as [p' effects].
  now apply applyEffects_idle.
Qed.

Lemma drive_harmless f (st : Service.State) (k : nat) :
  Runs.harmless f -> Runs.allIdle st ->
  Runs.allIdle (Service.drive f st k) /\
  Service.requests (Service.drive f st k) = Service.requests st.
Proof.
  intros Hf Hi. split.
  - intros j call Hj. destruct (Nat.eq_dec j k) as [->|Hne].
    + rewrite drive_calls_same in Hj.
      destruct (nth_error (Service.calls st) k) as [c|] eqn:E; [|discriminate Hj].
      cbn in Hj. inversion Hj. subst call.
      apply callAfter_idle; [exact Hf | now apply (Hi k)].
    + rewrite drive_calls_other in Hj by exact Hne. now apply (Hi j).
  - rewrite drive_requests.
    destruct (nth_error (Service.calls st) k) as [[p [| |]]|] eqn:E;
      try now rewrite app_nil_r.
    destruct (Hf (List.length (Service.requests st)) p (Hi k _ E)) as [_ Hp].
    now rewrite Hp, app_nil_r.
Qed.

Lemma broadcast_harmless f (st : Service.State) :
  Runs.harmless f -> Runs.allIdle st ->
  Runs.allIdle (Service.broadcast f st) /\
  Service.requests (Service.broadcast f st) = Service.requests st /\
  Service.onSetCredentials (Service.broadcast f st) = Service.onSetCredentials st.
Proof.
  intros Hf. unfold Service.broadcast.
  generalize (seq 0 (List.length (Service.calls st))). intro ks.
  revert st. induction ks as [|k ks IH]; intros st Hi;
    [split; [exact Hi | split; reflexivity]|].
  cbn [fold_left].
  destruct (drive_harmless f st k Hf Hi) as [Hi' Hr].
  destruct (IH _ Hi') as (A & B & C).
  split; [exact A|]. split; [congruence|].
  now rewrite C, drive_onSetCredentials.
Qed.

Lemma harmless_loginResponse d id response :
  Runs.harmless (fun nextId => Login.loginResponse d nextId id response).
Proof.
  intros n p (Hl & Hg & Hs). unfold Login.loginResponse.
  rewrite Hg. cbn. rewrite andb_false_r. cbn. repeat split; auto.
Qed.

Lemma harmless_totpResponse d id response :
  Runs.harmless (fun _ => Login.totpResponse d id response).
Proof.
  intros n p (Hl & Hg & Hs). unfold Login.totpResponse.
  rewrite Hs. cbn. repeat split; auto.
Qed.

Lemma harmless_emit t : Runs.harmless (fun nextId => Login.emit t nextId).
Proof.
  intros n p (Hl & Hg & Hs). unfold Login.emit.
  rewrite Hl. destruct (Login.active p); cbn; repeat split; auto.
Qed.

Lemma harmless_subscribe totp d validate t now (c : Validation.Credentials) e :
  validate c = Validation.Throws e ->
  Runs.harmless (fun nextId => Login.subscribe totp d validate t now nextId (Some c)).
Proof.
  intros Hv n p _. unfold Login.subscribe, Login.credentials_next.
  cbn [Login.active]. rewrite Hv.
  unfold Login.fail. destruct (Retry.genericRetryStrategy _ _ _ _);
    cbn; repeat split.
Qed.

Lemma invalid_step totp (c : Validation.Credentials) (e0 : Validation.CheckError)
    (st : Service.State) (e : Service.Event) :
  Service.validate c = Validation.Throws e0 ->
  Runs.keepsCredentials e = true ->
  Service.lastCredentials st = Some c ->
  Runs.allIdle st ->
  Service.lastCredentials (Service.step totp st e) = Some c /\
  Runs.allIdle (Service.step totp st e) /\
  Service.requests (Service.step totp st e) = Service.requests st.
Proof.
  intros Hv Hk Hc Hi.
  destruct e as [c'| |id r|id r|v|ms|]; cbn [Service.step]; try discriminate Hk.
  - unfold Service.authenticate.
    match goal with |- context [Service.drive ?f ?s ?k] =>
      assert (Hi1 : Runs.allIdle s);
      [| assert (Hf : Runs.harmless f);
         [| destruct (drive_harmless f s k Hf Hi1) as [A B] ] ]
    end.
    + intros j call Hj. cbn [Service.calls] in Hj.
      destruct (Nat.lt_ge_cases j (List.length (Service.calls st))) as [L|L].
      * rewrite nth_error_app1 in Hj by exact L. now apply (Hi j).
      * rewrite nth_error_app2 in Hj by exact L.
        destruct (j - List.length (Service.calls st))%nat as [|i]; cbn in Hj.
        -- inversion Hj. repeat split.
        -- destruct i; discriminate Hj.
    + unfold Service.subscribe'.
      replace (Service.lastCredentials _) with (Some c) by (symmetry; exact Hc).
      eapply harmless_subscribe. exact Hv.
    + split; [|split; [exact A | exact B]]. unfold Service.lastCredentials.
      rewrite drive_onSetCredentials. exact Hc.
  - destruct (broadcast_harmless _ st (harmless_loginResponse
                Retry.defaultExcluded_service id r) Hi) as (A & B & C).
    split; [|split; [exact A | exact B]].
    unfold Service.lastCredentials in *. rewrite <- Hc. f_equal. f_equal. exact C.
  - destruct (broadcast_harmless _ st (harmless_totpResponse
                Retry.defaultExcluded_service id r) Hi) as (A & B & C).
    split; [|split; [exact A | exact B]].
    unfold Service.lastCredentials in *. rewrite <- Hc. f_equal. f_equal. exact C.
  - split; [exact Hc | split; [exact Hi | reflexivity]].
  - split; [exact Hc | split; [exact Hi | reflexivity]].
  - unfold Service.fire.
    destruct (Service.timers st) as [|[due kind] rest];
      [split; [exact Hc | split; [exact Hi | reflexivity]]|].
    destruct (due <=? Service.now st);
      [|split; [exact Hc | split; [exact Hi | reflexivity]]].
    assert (Hi1 : Runs.allIdle (Service.set_timers rest st)) by exact Hi.
    destruct kind as [|k].
    + destruct (broadcast_harmless _ _ (harmless_emit
                  (Service.authenticationTimeout (Service.set_timers rest st))) Hi1)
        as (A & B & C).
      split; [|split; [exact A | exact B]].
      unfold Service.lastCredentials in *. rewrite <- Hc. f_equal. f_equal. exact C.
    + assert (Hf : Runs.harmless (Service.subscribe' totp (Service.set_timers rest st))).
      { unfold Service.subscribe'.
        replace (Service.lastCredentials _) with (Some c) by (symmetry; exact Hc).
        eapply harmless_subscribe. exact Hv. }
      destruct (drive_harmless _ _ k Hf Hi1) as [A B].
      split; [|split; [exact A | exact B]]. unfold Service.lastCredentials.
      rewrite drive_onSetCredentials. exact Hc.
Qed.

(** With credentials that fail the check (an empty user name or password)
    the service class never posts anything: whatever calls of
    [authenticate], answers and timers follow, as long as [setCredentials]
    is not called again, the list of requests stays empty. *)
Theorem invalid_credentials_never_posted totp (c : Validation.Credentials)
    (timeout : Z) (es : list Service.Event) :
  Service.validate c <> Validation.Returns ->
  forallb Runs.keepsCredentials es = true ->
  Service.requests (Service.run totp (Service.construct (Some c) timeout) es) = [].
Proof.
  intros Hv Hk.
  destruct (Service.validate c) as [|e0] eqn:V; [contradiction|].
  assert (G : forall st,
             Service.lastCredentials st = Some c -> Runs.allIdle st ->
             Service.requests (Service.run totp st es) = Service.requests st).
  { clear Hv. induction es as [|e es IH]; intros st Hc Hi; [reflexivity|].
    cbn in Hk. apply andb_true_iff in Hk. destruct Hk as [K1 K2].
    destruct (invalid_step totp c e0 st e V K1 Hc Hi) as (A & B & C).
    cbn [Service.run fold_left]. fold (Service.run totp (Service.step totp st e) es).
    rewrite (IH K2 _ A B). exact C. }
  rewrite G.
  - unfold Service.construct, Service.watch. cbn. rewrite V. reflexivity.
  - unfold Service.construct, Service.watch. cbn. rewrite V. reflexivity.
  - unfold Service.construct, Service.watch. cbn. rewrite V.
    intros k call Hk'. destruct k; discriminate Hk'.
Qed.

Lemma invalid_credentials_never_posted_example :
  Service.requests
    (Service.run Login.fixedCode (Service.construct (Some Runs.nobody) 30)
       [Service.Authenticate; Service.Elapse 10000; Service.Fire;
        Service.LoginResponse 0 Login.loginOk; Service.Authenticate]) = [].
Proof.
  exact (invalid_credentials_never_posted Login.fixedCode Runs.nobody 30
           [Service.Authenticate; Service.Elapse 10000; Service.Fire;
            Service.LoginResponse 0 Login.loginOk; Service.Authenticate]
           ltac:(discriminate) eq_refl).
Defined.

Lemma elapse_to_due (i now : Z) (kind : Login.TimerKind) :
  1 <= i ->
  Login.elapse (i * 10000) now [(now + i * 10000, kind)] = now + i * 10000.
Proof. intro H. unfold Login.elapse. lia. Qed.

Lemma failing_round totp (c : Validation.Credentials) (e : Validation.CheckError)
    (timeout i now : Z) :
  Service.validate c = Validation.Throws e ->
  1 <= i < 10 ->
  Service.run totp (Runs.failing c timeout (Validation.thrownText e) i now)
    [Service.Elapse (i * 10000); Service.Fire] =
  Runs.failing c timeout (Validation.thrownText e) (i + 1) (now + i * 10000).
Proof.
  intros Hv Hi. cbn [Service.run fold_left Service.step].
  unfold Runs.failing at 1 2 3 4 5 6 7 8 9.
  cbn [Service.now Service.timers Service.authenticationTimeout
       Service.onSetCredentials Service.watching Service.uncaught Service.calls
       Service.requests Service.authSession].
  rewrite elapse_to_due by lia.
  unfold Service.fire.
  cbn [Service.now Service.timers]. rewrite Z.leb_refl.
  unfold Service.drive, Service.set_timers.
  cbn [Service.calls nth_error Service.requests List.length].
  unfold Service.subscribe', Service.lastCredentials.
  cbn [Service.onSetCredentials map last Service.now Service.authenticationTimeout].
  unfold Login.subscribe, Login.credentials_next. cbn [Login.active Login.errors].
  fold Service.validate. rewrite Hv.
  unfold Login.fail, Retry.genericRetryStrategy, Retry.isExcluded.
  cbn [Retry.authenticateOptions Retry.maxRetryAttempts Retry.scalingDuration
       Retry.excludedStatusCodes Retry.orDefault Http.statusCode_of Login.errors].
  assert (G : (i + 1 >? 10) = false).
  { rewrite Z.gtb_ltb. apply Z.ltb_ge. lia. }
  rewrite G. cbn [orb]. unfold Login.emit. cbn [Login.active fst snd app].
  cbn [fold_left Service.perform Service.set_call Service.update Service.calls
       Service.now Service.timers Service.set_timers Login.schedule
       Service.authenticationTimeout Service.onSetCredentials Service.watching
       Service.uncaught Service.requests Service.authSession].
  reflexivity.
Qed.

Lemma failing_last_round totp (c : Validation.Credentials) (e : Validation.CheckError)
    (timeout now : Z) :
  Service.validate c = Validation.Throws e ->
  Service.run totp (Runs.failing c timeout (Validation.thrownText e) 10 now)
    [Service.Elapse (10 * 10000); Service.Fire] =
  Runs.rejected c timeout (Validation.thrownText e) (now + 10 * 10000).
Proof.
  intros Hv. cbn [Service.run fold_left Service.step].
  unfold Runs.failing at 1 2 3 4 5 6 7 8 9.
  cbn [Service.now Service.timers Service.authenticationTimeout
       Service.onSetCredentials Service.watching Service.uncaught Service.calls
       Service.requests Service.authSession].
  rewrite elapse_to_due by lia.
  unfold Service.fire.
  cbn [Service.now Service.timers]. rewrite Z.leb_refl.
  unfold Service.drive, Service.set_timers.
  cbn [Service.calls nth_error Service.requests List.length].
  unfold Service.subscribe', Service.lastCredentials.
  cbn [Service.onSetCredentials map last Service.now Service.authenticationTimeout].
  unfold Login.subscribe, Login.credentials_next. cbn [Login.active Login.errors].
  fold Service.validate. rewrite Hv.
  reflexivity.
Qed.

Lemma failing_start totp (c : Validation.Credentials) (e : Validation.CheckError)
    (timeout : Z) :
  Service.validate c = Validation.Throws e ->
  Service.authenticate totp (Service.construct (Some c) timeout) =
  Runs.failing c timeout (Validation.thrownText e) 1 0.
Proof.
  intro Hv. unfold Service.construct, Service.watch. cbn [Service.watching].
  rewrite Hv. unfold Service.authenticate, Service.drive.
  cbn [Service.calls app nth_error List.length Service.requests].
  unfold Service.subscribe', Service.lastCredentials.
  cbn [Service.onSetCredentials map last Service.now Service.authenticationTimeout].
  unfold Login.subscribe, Login.credentials_next.
  cbn [Login.active Login.errors Login.fresh].
  fold Service.validate. rewrite Hv. reflexivity.
Qed.

Lemma retryRounds_S (n : nat) :
  Runs.retryRounds (S n) =
  Runs.retryRounds n ++ [Service.Elapse (Z.of_nat (S n) * 10000); Service.Fire].
Proof.
  unfold Runs.retryRounds. rewrite seq_S, flat_map_app. cbn [flat_map].
  now rewrite app_nil_r.
Qed.

Lemma service_run_app totp (st : Service.State) (a b : list Service.Event) :
  Service.run totp st (a ++ b) = Service.run totp (Service.run totp st a) b.
Proof. unfold Service.run. apply fold_left_app. Qed.

Lemma failing_rounds totp (c : Validation.Credentials) (e : Validation.CheckError)
    (timeout : Z) (n : nat) :
  Service.validate c = Validation.Throws e ->
  (n <= 9)%nat ->
  Service.run totp (Runs.failing c timeout (Validation.thrownText e) 1 0)
    (Runs.retryRounds n) =
  Runs.failing c timeout (Validation.thrownText e) (Z.of_nat n + 1)
    (5000 * Z.of_nat n * (Z.of_nat n + 1)).
Proof.
  intros Hv. induction n as [|n IH]; intro Hn.
  - reflexivity.
  - rewrite retryRounds_S, service_run_app, IH by lia.
    replace (Z.of_nat (S n) * 10000) with ((Z.of_nat n + 1) * 10000) by lia.
    rewrite (failing_round totp c e timeout _ _ Hv) by lia.
    f_equal; lia.
Qed.

(** With credentials that fail the check, [authenticate] does not fail
    fast: the error goes through the retry policy.  The promise is still
    pending after each of the first nine retry timers (10, 20, ..., 90
    seconds apart) and is rejected, with the text thrown by the check, when
    the tenth has run, 550 seconds after the call.  All the while the one
    error on record as uncaught is the one the subscription of the
    constructor met: the calls report theirs through the promise only. *)
Theorem invalid_credentials_rejected_after_550s totp (c : Validation.Credentials)
    (e : Validation.CheckError) (timeout : Z) :
  Service.validate c = Validation.Throws e ->
  (forall n, (n <= 9)%nat ->
     let st := Service.run totp (Service.construct (Some c) timeout)
                 (Service.Authenticate :: Runs.retryRounds n) in
     Service.promiseOf st 0 = Some Service.Pending /\
     Service.now st = 5000 * Z.of_nat n * (Z.of_nat n + 1)) /\
  (let st := Service.run totp (Service.construct (Some c) timeout)
               (Service.Authenticate :: Runs.retryRounds 10) in
   Service.promiseOf st 0 =
     Some (Service.Rejected (Http.ThrownOther (Validation.thrownText e))) /\
   Service.now st = 550000 /\
   Service.timers st = [] /\
   Service.requests st = [] /\
   Service.uncaught st = [Http.ThrownOther (Validation.thrownText e)]).
Proof.
  intro Hv.
  assert (S : forall es,
             Service.run totp (Service.construct (Some c) timeout)
               (Service.Authenticate :: es) =
             Service.run totp
               (Runs.failing c timeout (Validation.thrownText e) 1 0) es).
  { intro es. rewrite <- (failing_start totp c e timeout Hv). reflexivity. }
  split.
  - intros n Hn. cbv zeta. rewrite S.
    rewrite (failing_rounds totp c e timeout n Hv Hn). split; reflexivity.
  - cbv zeta. rewrite S.
    rewrite (retryRounds_S 9), service_run_app.
    rewrite (failing_rounds totp c e timeout 9 Hv) by lia.
    rewrite (failing_last_round totp c e timeout _ Hv).
    unfold Runs.rejected.
    cbn [Service.promiseOf Service.calls nth_error Service.promise option_map
         Service.now Service.timers Service.requests Service.uncaught].
    repeat split.
Qed.

Lemma invalid_credentials_rejected_after_550s_example :
  Service.promiseOf
    (Service.run Login.fixedCode (Service.construct (Some Runs.nobody) 30)
       (Service.Authenticate :: Runs.retryRounds 10)) 0 =
  Some (Service.Rejected (Http.ThrownOther "Missing credentials.username.")).
Proof.
  exact (proj1 (proj2 (invalid_credentials_rejected_after_550s Login.fixedCode
                         Runs.nobody Validation.MissingUsername 30 eq_refl))).
Defined.

(** Runs a trace whose answers are described by hypotheses: evaluate up
    to the next test on an answer, rewrite with the hypotheses, go on. *)
Ltac walk :=
  repeat (progress
            (try unfold Login.fail, Retry.genericRetryStrategy;
             try unfold Service.setCredentials, Service.watch;
             cbn -[Service.validate Validation.checkCredentials
                   Http.request_json Http.statusCode_isnt_200 Http.get
                   Http.property Retry.isExcluded Z.max];
             repeat match goal with
                    | H : _ = _ |- _ => rewrite H
                    end)).

(** The second-factor code is generated when the call subscribes to the
    credentials, not when the answer to the login request arrives: however
    long that answer takes, the code posted is the one of the time of the
    call ([totp] reads the clock, and a code is valid for a short time). *)
Theorem second_factor_code_is_from_call_time totp (c : Validation.Credentials)
    (timeout ms : Z) (r : Http.Response) (json : Http.object) (v : Http.json) :
  Service.validate c = Validation.Returns ->
  Http.request_json r = Some json ->
  Http.statusCode_isnt_200 json = false ->
  Http.get "twoFactorLogin" json = Some v ->
  v <> Http.JNull ->
  let st := Service.run totp (Service.construct (Some c) timeout)
              [Service.Authenticate; Service.Elapse ms;
               Service.LoginResponse 0 r] in
  Service.now st = Z.max 0 ms /\
  Service.requests st =
    [Login.LoginRequest timeout (Validation.password c) (Validation.username c);
     Login.TotpRequest (totp (Validation.totpSecret c) 0)
       (Http.property v "transactionId")].
Proof.
  intros Hv Hr Hs Hg Hn. walk. destruct v; try contradiction; split; reflexivity.
Qed.

Lemma second_factor_code_is_from_call_time_example :
  Service.requests
    (Service.run Login.fixedCode (Service.construct (Some Login.someone) 30)
       [Service.Authenticate; Service.Elapse 45000;
        Service.LoginResponse 0 Login.loginOk]) =
  [Login.LoginRequest 30 "secret" "user";
   Login.TotpRequest "123456" (Some (Http.JStr "tx-1"))].
Proof.
  refine (proj2 (second_factor_code_is_from_call_time Login.fixedCode
                   Login.someone 30 45000 Login.loginOk _ _
                   eq_refl eq_refl eq_refl eq_refl _)).
  discriminate.
Defined.

(** A second-factor answer that fails with a status the policy does not
    exclude leaves the promise pending and starts a timer of 10 seconds.
    When it runs, the whole sequence starts over: the credentials are posted
    again, and the second-factor request that follows a good answer carries
    a code generated at the time of the retry. *)
Theorem second_factor_failure_restarts_login totp (c : Validation.Credentials)
    (timeout : Z) (r1 r2 : Http.Response) (json1 json2 : Http.object)
    (v : Http.json) :
  Service.validate c = Validation.Returns ->
  Http.request_json r1 = Some json1 ->
  Http.statusCode_isnt_200 json1 = false ->
  Http.get "twoFactorLogin" json1 = Some v ->
  v <> Http.JNull ->
  Http.request_json r2 = Some json2 ->
  Http.statusCode_isnt_200 json2 = true ->
  Retry.isExcluded Retry.defaultExcluded_service (Http.ThrownJson json2) = false ->
  let st := Service.run totp (Service.construct (Some c) timeout)
              [Service.Authenticate; Service.LoginResponse 0 r1;
               Service.TotpResponse 1 r2] in
  let st' := Service.run totp st [Service.Elapse 10000; Service.Fire] in
  Service.promiseOf st 0 = Some Service.Pending /\
  Service.timers st = [(10000, Login.RetryOf 0)] /\
  Service.requests st' =
    Service.requests st ++
    [Login.LoginRequest timeout (Validation.password c) (Validation.username c)] /\
  Service.requests (Service.run totp st' [Service.LoginResponse 2 r1]) =
    Service.requests st' ++
    [Login.TotpRequest (totp (Validation.totpSecret c) 10000)
       (Http.property v "transactionId")].
Proof.
  intros Hv Hr1 Hs1 Hg Hn Hr2 Hs2 He.
  destruct v; try contradiction; walk;
    change (Z.max 0 (Z.min 10000 (Z.max 0 10000))) with 10000; walk;
    repeat split; reflexivity.
Qed.

Lemma second_factor_failure_restarts_login_example :
  Service.timers
    (Service.run Login.fixedCode (Service.construct (Some Login.someone) 30)
       [Service.Authenticate; Service.LoginResponse 0 Login.loginOk;
        Service.TotpResponse 1 Runs.unavailable]) =
  [(10000, Login.RetryOf 0)].
Proof.
  refine (proj1 (proj2 (second_factor_failure_restarts_login Login.fixedCode
                          Login.someone 30 Login.loginOk Runs.unavailable _ _ _
                          eq_refl eq_refl eq_refl eq_refl _
                          eq_refl eq_refl eq_refl))).
  discriminate.
Defined.

Lemma checked_for_any_timeout (c : Validation.Credentials) (timeout : Z) :
  Validation.checkCredentials c timeout = Validation.Returns ->
  Service.validate c = Validation.Returns.
Proof.
  unfold Service.validate, Validation.checkCredentials.
  destruct (Validation.falsy (Validation.username c)); [discriminate|].
  destruct (Validation.falsy (Validation.password c)); [discriminate|].
  reflexivity.
Qed.

(** The two files disagree on status 400.  In the service file it is
    excluded from the retries: a login answer with status code 400 rejects
    the promise of [authenticate] at once, with the answer, and starts no
    timer.  In the single-file class it is not: the same answer is retried
    after 10 seconds, when the credentials are posted again. *)
Theorem status_400_rejected_or_retried totp (c : Validation.Credentials)
    (timeout : Z) (r : Http.Response) (json : Http.object) :
  Validation.checkCredentials c timeout = Validation.Returns ->
  Http.request_json r = Some json ->
  Http.get "statusCode" json = Some (Http.JNum 400) ->
  (let st := Service.run totp (Service.construct (Some c) timeout)
               [Service.Authenticate; Service.LoginResponse 0 r] in
   Service.promiseOf st 0 = Some (Service.Rejected (Http.ThrownJson json)) /\
   Service.timers st = [] /\
   Service.requests (Service.run totp st [Service.Elapse 10000; Service.Fire]) =
     Service.requests st) /\
  (exists st0,
     Monolith.construct totp c timeout = inr st0 /\
     let st := Monolith.step totp st0 (Monolith.LoginResponse 1 r) in
     Monolith.uncaught st = [] /\
     Monolith.timers st = [(10000, Login.RetryOf 0)] /\
     Monolith.requests
       (Monolith.run totp st [Monolith.Elapse 10000; Monolith.Fire]) =
     Monolith.requests st ++
     [Login.LoginRequest timeout (Validation.password c) (Validation.username c)]).
Proof.
  intros Hc Hr Hg.
  pose proof (checked_for_any_timeout c timeout Hc) as Hv.
  assert (Hs : Http.statusCode_isnt_200 json = true).
  { unfold Http.statusCode_isnt_200. now rewrite Hg. }
  split.
  - assert (He : Retry.isExcluded Retry.defaultExcluded_service
                   (Http.ThrownJson json) = true).
    { unfold Retry.isExcluded. cbn [Http.statusCode_of]. now rewrite Hg. }
    clear Hc Hg. walk. repeat split; reflexivity.
  - assert (He : Retry.isExcluded Retry.defaultExcluded_monolith
                   (Http.ThrownJson json) = false).
    { unfold Retry.isExcluded. cbn [Http.statusCode_of]. now rewrite Hg. }
    clear Hg Hv. unfold Monolith.construct. rewrite Hc. eexists. split; [reflexivity|].
    walk. change (Z.max 0 (Z.min 10000 (Z.max 0 10000))) with 10000. walk.
    repeat split; reflexivity.
Qed.

Lemma status_400_rejected_or_retried_example :
  Service.promiseOf
    (Service.run Login.fixedCode (Service.construct (Some Login.someone) 30)
       [Service.Authenticate; Service.LoginResponse 0 Runs.badRequest]) 0 =
  Some (Service.Rejected
          (Http.ThrownJson [("statusCode"%string, Http.JNum 400);
                            ("message"%string, Http.JStr "bad request")])).
Proof.
  exact (proj1 (proj1 (status_400_rejected_or_retried Login.fixedCode
                         Login.someone 30 Runs.badRequest _
                         eq_refl eq_refl eq_refl))).
Defined.

(** The constructor of the single-file class posts the credentials twice:
    once when the pipeline subscribes ([authenticate$] is a
    [BehaviorSubject] and emits at once) and once for the
    [authenticate$.next()] that ends the constructor.  The second request
    replaces the first in [switchMap]: whatever answer the first request
    gets, nothing happens; a good answer to the second one posts the second
    factor. *)
Theorem monolith_constructor_two_logins totp (c : Validation.Credentials)
    (timeout : Z) :
  Validation.checkCredentials c timeout = Validation.Returns ->
  exists st0,
    Monolith.construct totp c timeout = inr st0 /\
    Monolith.requests st0 =
      [Login.LoginRequest timeout (Validation.password c) (Validation.username c);
       Login.LoginRequest timeout (Validation.password c) (Validation.username c)] /\
    Monolith.timers st0 = [] /\
    (forall r, Monolith.step totp st0 (Monolith.LoginResponse 0 r) = st0) /\
    (forall r json v,
       Http.request_json r = Some json ->
       Http.statusCode_isnt_200 json = false ->
       Http.get "twoFactorLogin" json = Some v ->
       v <> Http.JNull ->
       Monolith.requests (Monolith.step totp st0 (Monolith.LoginResponse 1 r)) =
       Monolith.requests st0 ++
       [Login.TotpRequest (totp (Validation.totpSecret c) 0)
          (Http.property v "transactionId")]).
Proof.
  intros Hc. unfold Monolith.construct. rewrite Hc. eexists.
  split; [reflexivity|]. split; [reflexivity|]. split; [reflexivity|]. split.
  - intro r. reflexivity.
  - intros r json v Hr Hs Hg Hn. clear Hc. walk.
    destruct v; try contradiction; reflexivity.
Qed.

Lemma monolith_constructor_two_logins_example :
  exists st0,
    Monolith.construct Login.fixedCode Login.someone 30 = inr st0 /\
    List.length (Monolith.requests st0) = 2%nat.
Proof.
  destruct (monolith_constructor_two_logins Login.fixedCode Login.someone 30
              eq_refl) as [st0 [H0 [H1 _]]].
  exists st0. split; [exact H0|]. now rewrite H1.
Defined.

(** A login answer that is malformed (no JSON body, or status 200 without
    a [twoFactorLogin] object) is not reported to the caller: no second
    factor is posted, the promise stays pending, and the call is retried 10
    seconds later like any failure that has no excluded status code. *)
Theorem malformed_login_answer_is_retried totp (c : Validation.Credentials)
    (timeout : Z) (r : Http.Response) :
  Service.validate c = Validation.Returns ->
  Runs.malformed r = true ->
  let st := Service.run totp (Service.construct (Some c) timeout)
              [Service.Authenticate; Service.LoginResponse 0 r] in
  Service.promiseOf st 0 = Some Service.Pending /\
  Service.requests st =
    [Login.LoginRequest timeout (Validation.password c) (Validation.username c)] /\
  Service.timers st = [(10000, Login.RetryOf 0)] /\
  Service.uncaught st = [].
Proof.
  intros Hv Hm. unfold Runs.malformed in Hm.
  destruct (Http.request_json r) as [json|] eqn:Hr.
  - apply andb_prop in Hm. destruct Hm as [Hs Hg].
    apply negb_true_iff in Hs.
    destruct (Http.get "twoFactorLogin" json) as [v|] eqn:Hg'.
    + destruct v; try discriminate. clear Hg. walk. repeat split; reflexivity.
    + clear Hg. walk. repeat split; reflexivity.
  - clear Hm. walk. repeat split; reflexivity.
Qed.

Lemma malformed_login_answer_is_retried_example :
  Service.timers
    (Service.run Login.fixedCode (Service.construct (Some Login.someone) 30)
       [Service.Authenticate; Service.LoginResponse 0 Runs.emptyOk]) =
  [(10000, Login.RetryOf 0)].
Proof.
  exact (proj1 (proj2 (proj2 (malformed_login_answer_is_retried Login.fixedCode
                                Login.someone 30 Runs.emptyOk eq_refl eq_refl)))).
Defined.

(** [request] hands the body on unchanged next to the status: every member
    of the parsed body other than [statusCode] is read from the result
    exactly as from the body (for an array or a string body, its indices). *)
Theorem request_keeps_body_members (response : Http.Response)
    (parsed : Http.json) (json : Http.object) (key : string) :
  Http.body response = Some parsed ->
  Http.request_json response = Some json ->
  key <> "statusCode"%string ->
  Http.get key json = Http.property parsed key.
Proof.
  intros Hb Hr Hk. unfold Http.request_json in Hr. rewrite Hb in Hr.
  injection Hr as <-. unfold Http.spread, Http.property, Http.objectOf.
  rewrite get_assign.
  destruct (Http.get key (Http.assign [] (Http.members parsed))); [reflexivity|].
  cbn [Http.get]. destruct (String.eqb "statusCode" key) eqn:E; [|reflexivity].
  apply String.eqb_eq in E. now subst key.
Qed.

Lemma request_keeps_body_members_example :
  Http.get "customerId" 
    [("statusCode"%string, Http.JNum 200);
     ("authenticationSession"%string, Http.JStr "session-1");
     ("pushSubscriptionId"%string, Http.JStr "push-1");
     ("customerId"%string, Http.JStr "42");
     ("registrationComplete"%string, Http.JBool true)] =
  Some (Http.JStr "42").
Proof.
  refine (request_keeps_body_members Login.totpOk _ _ "customerId"
            eq_refl eq_refl _).
  discriminate.
Defined.

(** ** The REST calls *)

Lemma expand_plain (matched before after x : string) :
  Api.plain x = true -> Api.expand matched before after x = x.
Proof.
  induction x as [|c x IH]; intro H; [reflexivity|].
  cbn [Api.plain] in H. apply andb_prop in H. destruct H as [Hc Hx].
  apply negb_true_iff in Hc. cbn [Api.expand]. rewrite Hc.
  now rewrite IH.
Qed.

Lemma replace_plain (pattern x s before after : string) :
  Api.plain x = true ->
  Api.findFirst pattern s = Some (before, after) ->
  Api.replace pattern x s = (before ++ x ++ after)%string.
Proof.
  intros Hx Hf. unfold Api.replace. rewrite Hf. now rewrite expand_plain.
Qed.

Lemma append_empty (s : string) : (s ++ "")%string = s.
Proof. induction s as [|c s IH]; [reflexivity|]. cbn. now rewrite IH. Qed.

Lemma plain_append (a b : string) :
  Api.plain (a ++ b) = Api.plain a && Api.plain b.
Proof.
  induction a as [|c a IH]; [reflexivity|].
  cbn [append Api.plain]. rewrite IH. now rewrite andb_assoc.
Qed.

Lemma plain_concat (ids : list string) :
  forallb Api.plain ids = true -> Api.plain (String.concat "," ids) = true.
Proof.
  induction ids as [|a ids IH]; intro H; [reflexivity|].
  cbn [forallb] in H. apply andb_prop in H. destruct H as [Ha Hi].
  destruct ids as [|b ids]; [exact Ha|].
  change (String.concat "," (a :: b :: ids))
    with (a ++ "," ++ String.concat "," (b :: ids))%string.
  rewrite !plain_append, Ha, (IH Hi). reflexivity.
Qed.

(** [getAccountOverview] of both files: for an account id without dollar
    sign the request goes to /_mobile/account/<id>/overview on the base
    host, with method GET; in the service file it carries the two fixed
    headers and the two session headers, with the values of the session
    given by the caller. *)
Theorem account_overview_request (accountId : string) (auth : Service.SessionAuth)
    (st : Client.State) :
  Api.plain accountId = true ->
  Api.getAccountOverview accountId auth =
    Api.mkFetch ("https://www.avanza.se/_mobile/account/" ++ accountId ++ "/overview")
      "GET"
      [("Accept"%string, Some (Http.JStr "*/*"));
       ("Content-Type"%string, Some (Http.JStr "application/json"));
       ("X-AuthenticationSession"%string, Service.authenticationSession auth);
       ("X-SecurityToken"%string, Api.ofToken (Service.securityToken auth))] /\
  Client.getAccountOverview accountId st =
    Client.call "GET" ("/_mobile/account/" ++ accountId ++ "/overview") st.
Proof.
  intro H.
  assert (R : Api.replace "{0}" accountId Api.ACCOUNT_OVERVIEW_PATH =
              ("/_mobile/account/" ++ accountId ++ "/overview")%string).
  { now apply replace_plain. }
  unfold Api.getAccountOverview, Client.getAccountOverview. cbv zeta.
  rewrite R. split; reflexivity.
Qed.

Lemma account_overview_request_example :
  Api.url (Api.getAccountOverview "1234567" Api.someAuth) =
  "https://www.avanza.se/_mobile/account/1234567/overview"%string.
Proof.
  exact (f_equal Api.url
           (proj1 (account_overview_request "1234567" Api.someAuth
                     (Client.mkState (Monolith.started Login.fixedCode) [] [])
                     eq_refl))).
Defined.

(** [getInstrument]: for every instrument type and every instrument id
    without dollar sign the address is /_mobile/market/<type>/<id>, the type
    being the string of the enum member (lower case already). *)
Theorem instrument_request (instrumentType : Api.InstrumentType)
    (instrumentId : string) (auth : Service.SessionAuth) :
  Api.plain instrumentId = true ->
  Api.url (Api.getInstrument instrumentType instrumentId auth) =
    ("https://www.avanza.se/_mobile/market/" ++
     Api.instrument_value instrumentType ++ "/" ++ instrumentId)%string /\
  Api.method (Api.getInstrument instrumentType instrumentId auth) = "GET"%string.
Proof.
  intro H. split; [|reflexivity].
  unfold Api.getInstrument. cbv zeta.
  destruct instrumentType;
    (erewrite replace_plain; [|exact H|vm_compute; reflexivity]);
    cbn; now rewrite append_empty.
Qed.

Lemma instrument_request_example :
  Api.url (Api.getInstrument Api.ETF "5361" Api.someAuth) =
  "https://www.avanza.se/_mobile/market/exchange_traded_fund/5361"%string.
Proof.
  exact (proj1 (instrument_request Api.ETF "5361" Api.someAuth eq_refl)).
Defined.

(** [getOrderbooks]: the ids are joined with commas into the path; when no
    id holds a dollar sign the address is
    /_mobile/market/orderbooklist/<id1>,<id2>,...?<query>, whatever [stringify]
    makes of [{ sort: "name" }]. *)
Theorem orderbooks_request (stringify : list (string * string) -> string)
    (orderbookIds : list string) (auth : Service.SessionAuth) :
  forallb Api.plain orderbookIds = true ->
  Api.url (Api.getOrderbooks stringify orderbookIds auth) =
    ("https://www.avanza.se/_mobile/market/orderbooklist/" ++
     String.concat "," orderbookIds ++ "?" ++
     stringify [("sort"%string, "name"%string)])%string.
Proof.
  intro H. unfold Api.getOrderbooks. cbv zeta.
  rewrite (replace_plain "{0}" _ Api.ORDERBOOK_LIST_PATH
             "/_mobile/market/orderbooklist/" "" (plain_concat _ H) eq_refl).
  rewrite append_empty. reflexivity.
Qed.

Lemma orderbooks_request_example :
  Api.url (Api.getOrderbooks (fun _ => "sort=name"%string) ["5361"; "5362"]%string
             Api.someAuth) =
  "https://www.avanza.se/_mobile/market/orderbooklist/5361,5362?sort=name"%string.
Proof.
  exact (orderbooks_request (fun _ => "sort=name"%string) ["5361"; "5362"]%string
           Api.someAuth eq_refl).
Defined.

(** ** Calls of the single-file class *)

Lemma monolith_perform_session (st : Monolith.State) (e : Login.Effect) :
  Monolith.authSession st <> None ->
  Monolith.authSession (Monolith.perform st e) <> None.
Proof. destruct e; cbn; [auto|auto|discriminate|auto]. Qed.

Lemma monolith_performs_session (effects : list Login.Effect) (st : Monolith.State) :
  Monolith.authSession st <> None ->
  Monolith.authSession (fold_left Monolith.perform effects st) <> None.
Proof.
  revert st. induction effects as [|e effects IH]; intros st H; [exact H|].
  cbn [fold_left]. apply IH. now apply monolith_perform_session.
Qed.

Lemma monolith_drive_session f (st : Monolith.State) :
  Monolith.authSession st <> None ->
  Monolith.authSession (Monolith.drive f st) <> None.
Proof.
  intro H. unfold Monolith.drive.
  destruct (Login.stopped (Monolith.pipeline st)); [exact H|].
  destruct (f (List.length (Monolith.requests st)) (Monolith.pipeline st))
    as [p' effects].
  apply monolith_performs_session. exact H.
Qed.

(** A session that was published stays: nothing resets [authSession$]. *)
Lemma monolith_step_session totp (st : Monolith.State) (e : Monolith.Event) :
  Monolith.authSession st <> None ->
  Monolith.authSession (Monolith.step totp st e) <> None.
Proof.
  intro H. destruct e; cbn [Monolith.step].
  - now apply monolith_drive_session.
  - now apply monolith_drive_session.
  - exact H.
  - unfold Monolith.fire. destruct (Monolith.timers st) as [|[due kind] rest];
      [exact H|].
    destruct (due <=? Monolith.now st); [|exact H].
    destruct kind; now apply monolith_drive_session.
Qed.

Lemma addressed_fetchWith (s : Login.AuthSession) (target : string * string) :
  Client.addressed (Client.fetchWith s target) = Client.addressOf target.
Proof. reflexivity. Qed.

Lemma client_run_app totp (st : Client.State) (a b : list Client.Event) :
  Client.run totp st (a ++ b) = Client.run totp (Client.run totp st a) b.
Proof. unfold Client.run. apply fold_left_app. Qed.

Lemma callsOf_app (a b : list Client.Event) :
  Client.callsOf (a ++ b) = Client.callsOf a ++ Client.callsOf b.
Proof. unfold Client.callsOf. apply flat_map_app. Qed.

(** [call] of the single-file class, over every sequence of calls and login
    events after the constructor: each call leads to exactly one request,
    the requests are made in the order of the calls, none is made before a
    session has been published, and none waits once there is one.  A
    renewed session sends nothing again. *)
Theorem calls_sent_once_in_order totp (c : Validation.Credentials) (timeout : Z)
    (st0 : Client.State) (es : list Client.Event) :
  Client.construct totp c timeout = inr st0 ->
  let st := Client.run totp st0 es in
  map Client.addressed (Client.fetched st) ++
    map Client.addressOf (Client.waiting st) =
    map Client.addressOf (Client.callsOf es) /\
  (Monolith.authSession (Client.core st) = None -> Client.fetched st = []) /\
  (Monolith.authSession (Client.core st) <> None -> Client.waiting st = []).
Proof.
  intro Hc. cbv zeta.
  assert (H0 : Client.waiting st0 = [] /\ Client.fetched st0 = []).
  { unfold Client.construct in Hc.
    destruct (Monolith.construct totp c timeout); [discriminate|].
    injection Hc as <-. split; reflexivity. }
  destruct H0 as [Hw Hf]. clear Hc.
  induction es as [|e es IH] using rev_ind.
  - cbn. rewrite Hw, Hf. repeat split; auto.
  - rewrite client_run_app, callsOf_app, map_app.
    destruct IH as [I1 [I2 I3]]. rewrite <- I1.
    set (st := Client.run totp st0 es) in *.
    cbn [Client.run fold_left Client.step].
    destruct e as [m p|e]; cbn [Client.callsOf flat_map app map Client.step].
    + unfold Client.call.
      destruct (Monolith.authSession (Client.core st)) as [s|] eqn:E;
        cbn [Client.fetched Client.waiting Client.core]; rewrite E.
      * rewrite I3 by discriminate.
        rewrite map_app. cbn [map]. rewrite addressed_fetchWith.
        rewrite !app_nil_r. repeat split; auto. discriminate.
      * rewrite map_app, app_assoc. repeat split; auto.
        intro H. now contradiction H.
    + unfold Client.login.
      destruct (Monolith.authSession (Monolith.step totp (Client.core st) e))
        as [s|] eqn:E; cbn [Client.fetched Client.waiting Client.core]; rewrite E.
      * rewrite map_app, map_map.
        rewrite (map_ext _ Client.addressOf (addressed_fetchWith s)).
        rewrite !app_nil_r. repeat split; auto. discriminate.
      * rewrite app_nil_r. split; [reflexivity|]. split.
        -- intros _. apply I2.
           destruct (Monolith.authSession (Client.core st)) eqn:E'; [|reflexivity].
           exfalso. apply (monolith_step_session totp (Client.core st) e).
           ++ rewrite E'. discriminate.
           ++ exact E.
        -- intro H. now contradiction H.
Qed.

Lemma calls_sent_once_in_order_example :
  let st := Client.run Login.fixedCode
              (Client.mkState (Monolith.started Login.fixedCode) [] [])
              [Client.Call "GET" Api.POSITIONS_PATH;
               Client.Login (Monolith.LoginResponse 1 Login.loginOk);
               Client.Login (Monolith.TotpResponse 2 Login.totpOk)] in
  map Client.addressed (Client.fetched st) ++
    map Client.addressOf (Client.waiting st) =
  [("GET"%string, "https://www.avanza.se/_mobile/account/positions"%string)].
Proof.
  exact (proj1 (calls_sent_once_in_order Login.fixedCode Login.someone 30
                  (Client.mkState (Monolith.started Login.fixedCode) [] [])
                  [Client.Call "GET" Api.POSITIONS_PATH;
                   Client.Login (Monolith.LoginResponse 1 Login.loginOk);
                   Client.Login (Monolith.TotpResponse 2 Login.totpOk)]
                  eq_refl)).
Defined.

Lemma calls_before_session totp (targets : list (string * string))
    (st : Client.State) :
  Monolith.authSession (Client.core st) = None ->
  Client.run totp st (map Client.callOf targets) =
  Client.mkState (Client.core st) (Client.waiting st ++ targets)
                 (Client.fetched st).
Proof.
  revert st. induction targets as [|[m p] targets IH]; intros st H.
  - cbn. rewrite app_nil_r. now destruct st.
  - cbn [map Client.callOf Client.run fold_left Client.step fst snd].
    unfold Client.call. rewrite H.
    change (fold_left (Client.step totp) (map Client.callOf targets) ?s)
      with (Client.run totp s (map Client.callOf targets)).
    rewrite IH by exact H.
    cbn [Client.core Client.waiting Client.fetched].
    now rewrite <- app_assoc.
Qed.

(** Calls made before the login has finished are held back, then sent when
    the second-factor answer arrives, in order, with the session of that
    answer: [X-AuthenticationSession] is the member
    [authenticationSession] of its body and [X-SecurityToken] its header
    [x-securitytoken].  A call made afterwards is sent at once with the
    same values. *)
Theorem queued_calls_use_login_session totp (c : Validation.Credentials)
    (timeout : Z) (targets : list (string * string)) (r1 r2 : Http.Response)
    (json1 json2 : Http.object) (v : Http.json) :
  Validation.checkCredentials c timeout = Validation.Returns ->
  Http.request_json r1 = Some json1 ->
  Http.statusCode_isnt_200 json1 = false ->
  Http.get "twoFactorLogin" json1 = Some v ->
  v <> Http.JNull ->
  Http.request_json r2 = Some json2 ->
  Http.statusCode_isnt_200 json2 = false ->
  exists st0,
    Client.construct totp c timeout = inr st0 /\
    let session :=
      Login.mkAuthSession json2 v
        (Http.headers_get "x-securitytoken" (Http.headers r2)) in
    let queued := Client.run totp st0 (map Client.callOf targets) in
    let st := Client.run totp queued
                [Client.Login (Monolith.LoginResponse 1 r1);
                 Client.Login (Monolith.TotpResponse 2 r2)] in
    Client.fetched queued = [] /\
    Client.waiting st = [] /\
    Client.fetched st = map (Client.fetchWith session) targets /\
    forall method path,
      Client.fetched (Client.step totp st (Client.Call method path)) =
      Client.fetched st ++ [Client.fetchWith session (method, path)].
Proof.
  intros Hc Hr1 Hs1 Hg Hn Hr2 Hs2.
  unfold Client.construct, Monolith.construct. rewrite Hc.
  eexists. split; [reflexivity|]. cbv zeta.
  rewrite calls_before_session by reflexivity.
  clear Hc.
  destruct v; try contradiction;
    cbn [Client.run fold_left Client.step Client.core Client.waiting
         Client.fetched app];
    unfold Client.login; cbn [Client.core Client.waiting Client.fetched];
    walk; repeat split; reflexivity.
Qed.

Lemma queued_calls_use_login_session_example :
  exists st0,
    Client.construct Login.fixedCode Login.someone 30 = inr st0 /\
    Client.waiting
      (Client.run Login.fixedCode
         (Client.run Login.fixedCode st0
            (map Client.callOf [("GET"%string, Api.OVERVIEW_PATH)]))
         [Client.Login (Monolith.LoginResponse 1 Login.loginOk);
          Client.Login (Monolith.TotpResponse 2 Login.totpOk)]) = [].
Proof.
  destruct (queued_calls_use_login_session Login.fixedCode Login.someone 30
              [("GET"%string, Api.OVERVIEW_PATH)] Login.loginOk Login.totpOk
              _ _ _ eq_refl eq_refl eq_refl eq_refl
              (fun H : Http.JObj [("transactionId"%string, Http.JStr "tx-1");
                                  ("method"%string, Http.JStr "TOTP")] = Http.JNull =>
                 eq_ind (Http.JObj [("transactionId"%string, Http.JStr "tx-1");
                                    ("method"%string, Http.JStr "TOTP")])
                        (fun j => match j with Http.JObj _ => True | _ => False end)
                        I Http.JNull H)
              eq_refl eq_refl) as [st0 [H0 H]].
  exists st0. split; [exact H0|]. exact (proj1 (proj2 H)).
Defined.

(** ** Credentials changed while a call is in flight *)

(** [setCredentials] during a login in flight posts nothing and does not
    restart the call, but the two halves of the login no longer belong
    together: the login request was posted with the old user name and
    password, and the second-factor request that follows its answer carries
    a code of the new secret, generated when [setCredentials] was called. *)
Theorem credentials_changed_in_flight totp (c1 c2 : Validation.Credentials)
    (timeout ms : Z) (r : Http.Response) (json : Http.object) (v : Http.json) :
  Service.validate c1 = Validation.Returns ->
  Service.validate c2 = Validation.Returns ->
  Http.request_json r = Some json ->
  Http.statusCode_isnt_200 json = false ->
  Http.get "twoFactorLogin" json = Some v ->
  v <> Http.JNull ->
  let st := Service.run totp (Service.construct (Some c1) timeout)
              [Service.Authenticate; Service.Elapse ms;
               Service.SetCredentials c2] in
  Service.requests st =
    [Login.LoginRequest timeout (Validation.password c1) (Validation.username c1)] /\
  Service.promiseOf st 0 = Some Service.Pending /\
  Service.requests (Service.step totp st (Service.LoginResponse 0 r)) =
    [Login.LoginRequest timeout (Validation.password c1) (Validation.username c1);
     Login.TotpRequest (totp (Validation.totpSecret c2) (Z.max 0 ms))
       (Http.property v "transactionId")].
Proof.
  intros Hv1 Hv2 Hr Hs Hg Hn.
  destruct v; try contradiction; walk; repeat split; reflexivity.
Qed.

Lemma credentials_changed_in_flight_example :
  Service.requests
    (Service.run Login.fixedCode (Service.construct (Some Login.someone) 30)
       [Service.Authenticate; Service.Elapse 5000;
        Service.SetCredentials Runs.other]) =
  [Login.LoginRequest 30 "secret" "user"].
Proof.
  refine (proj1 (credentials_changed_in_flight Login.fixedCode Login.someone
                   Runs.other 30 5000 Login.loginOk _ _
                   eq_refl eq_refl eq_refl eq_refl eq_refl _)).
  discriminate.
Defined.

(** ** The retry policy, by the status code of the failure *)

Lemma isExcluded_iff (codes : list Z) (error : Http.Thrown) :
  Retry.isExcluded codes error = true <->
  exists n, Http.statusCode_of error = Some (Http.JNum n) /\ In n codes.
Proof.
  unfold Retry.isExcluded.
  destruct (Http.statusCode_of error) as [v|].
  - destruct v as [|b|n|t|items|fields];
      try (split; [discriminate|intros (n' & H & _); discriminate]).
    split.
    + intro H. apply existsb_exists in H. destruct H as (x & Hx & E).
      apply Z.eqb_eq in E. subst x. now exists n.
    + intros (n' & H & Hin). injection H as ->.
      apply existsb_exists. exists n'. split; [exact Hin|apply Z.eqb_refl].
  - split; [discriminate|intros (n & H & _); discriminate].
Qed.

Lemma isExcluded_not (codes : list Z) (error : Http.Thrown) :
  (forall n, Http.statusCode_of error = Some (Http.JNum n) -> ~ In n codes) ->
  Retry.isExcluded codes error = false.
Proof.
  intro H. destruct (Retry.isExcluded codes error) eqn:E; [|reflexivity].
  apply isExcluded_iff in E. destruct E as (n & Hs & Hin).
  now contradiction (H n Hs).
Qed.

(** Evaluates the clock after [walk], when the times are numbers. *)
Ltac clock :=
  repeat match goal with
         | |- context [Z.max ?a ?b] =>
             let v := eval cbv in (Z.max a b) in
             lazymatch v with
             | Zpos _ => idtac | Z0 => idtac | Zneg _ => idtac
             end;
             change (Z.max a b) with v
         | |- context [Z.min ?a ?b] =>
             let v := eval cbv in (Z.min a b) in
             lazymatch v with
             | Zpos _ => idtac | Z0 => idtac | Zneg _ => idtac
             end;
             change (Z.min a b) with v
         end.

(** The login of the single-file class when the login request fails twice
    with a status code that is neither 200 nor 401, then succeeds: the
    first retry timer is due 10 seconds after the first failure, the second
    20 seconds after the second, and the good answers that follow publish
    the session. *)
Lemma monolith_login_retried_twice totp (c : Validation.Credentials)
    (timeout n : Z) (r r1 r2 : Http.Response) (json json1 json2 : Http.object)
    (v : Http.json) :
  Validation.checkCredentials c timeout = Validation.Returns ->
  Http.request_json r = Some json ->
  Http.get "statusCode" json = Some (Http.JNum n) ->
  n <> 200 -> n <> 401 ->
  Http.request_json r1 = Some json1 ->
  Http.statusCode_isnt_200 json1 = false ->
  Http.get "twoFactorLogin" json1 = Some v ->
  v <> Http.JNull ->
  Http.request_json r2 = Some json2 ->
  Http.statusCode_isnt_200 json2 = false ->
  exists st0,
    Monolith.construct totp c timeout = inr st0 /\
    let st1 := Monolith.step totp st0 (Monolith.LoginResponse 1 r) in
    let st2 := Monolith.run totp st1
                 [Monolith.Elapse 10000; Monolith.Fire;
                  Monolith.LoginResponse 2 r] in
    let st3 := Monolith.run totp st2
                 [Monolith.Elapse 20000; Monolith.Fire;
                  Monolith.LoginResponse 3 r1; Monolith.TotpResponse 4 r2] in
    Monolith.timers st1 = [(10000, Login.RetryOf 0)] /\
    Monolith.now st2 = 10000 /\
    Monolith.timers st2 = [(10000 + 20000, Login.RetryOf 0)] /\
    Monolith.now st3 = 30000 /\
    Monolith.uncaught st3 = [] /\
    Monolith.authSession st3 =
      Some (Login.mkAuthSession json2 v
              (Http.headers_get "x-securitytoken" (Http.headers r2))).
Proof.
  intros Hc Hr Hg H200 H401 Hr1 Hs1 Hg1 Hv Hr2 Hs2.
  assert (Hs : Http.statusCode_isnt_200 json = true).
  { unfold Http.statusCode_isnt_200. rewrite Hg. apply negb_true_iff.
    now apply Z.eqb_neq. }
  assert (He : Retry.isExcluded Retry.defaultExcluded_monolith
                 (Http.ThrownJson json) = false).
  { apply isExcluded_not. cbn [Http.statusCode_of]. intros m Hm [E|[]].
    rewrite Hg in Hm. injection Hm as <-. now apply H401. }
  clear Hg H200 H401.
  unfold Monolith.construct. rewrite Hc. eexists. split; [reflexivity|].
  clear Hc.
  repeat (progress (walk; clock)).
  destruct v; try contradiction;
    repeat (progress (walk; clock)); repeat split; reflexivity.
Qed.

(** C9, as stated, fails on "401 always being excluded": the list of
    excluded codes is an option of the caller, and with a list that does not
    hold 401 a failure with that status code is retried. *)
Lemma C9_custom_list_retries_401 :
  Retry.genericRetryStrategy Retry.defaultExcluded_monolith
    (Retry.mkOptions None None (Some [400]))
    (Http.ThrownJson [("statusCode"%string, Http.JNum 401)]) 0 =
  Retry.Timer 1000 /\
  ~ Stated.always_excludes_401.
Proof.
  split; [reflexivity|].
  intro H.
  specialize (H Retry.defaultExcluded_monolith
                (Retry.mkOptions None None (Some [400]))
                (Http.ThrownJson [("statusCode"%string, Http.JNum 401)]) 0
                (or_intror eq_refl) eq_refl).
  discriminate H.
Qed.

(** C9.  When a subscription fails, the error is passed on at once if it
    carries a status code that is a number of the excluded list, or if it
    is failure number [maxRetryAttempts + 1] or later; otherwise (no status
    code, or one that is not in the list) the policy starts a timer of the
    number of the failure times [scalingDuration] and subscribes again when
    it fires.  So the timers are 1, 2, 3, ... times [scalingDuration], in
    this order, and they are the times waited when [scalingDuration] is at
    least 1 and [maxRetryAttempts] times [scalingDuration] at most 2^31 - 1;
    two failures followed by a value give three attempts and the timers
    base, 2 base.  With the default list of either file, which the login
    pipelines use, 401 is excluded: such a failure ends the loop after one
    attempt, and a second-factor answer with status code 401 ends the login
    pipeline with no timer started.  In the single-file class a login
    request that fails twice with another status code is retried after 10
    and then 20 seconds, and the good answers that follow publish the
    session. *)
Theorem C9_retry_policy (d : list Z) (o : Retry.Options) :
  let max := Retry.orDefault (Retry.maxRetryAttempts o) 3 in
  let base := Retry.orDefault (Retry.scalingDuration o) 1000 in
  let excluded := Retry.orDefault (Retry.excludedStatusCodes o) d in
  (forall (A : Type) (error : Http.Thrown) (rest : list (Http.Thrown + A))
          (i : Z) (made : nat) (asked : list Z),
     (exists n, Http.statusCode_of error = Some (Http.JNum n) /\ In n excluded)
     \/ max < i + 1 ->
     Retry.retryLoop d o (inl error :: rest) i made asked =
     Retry.mkRun (Retry.Failed error) (S made) asked) /\
  (forall (A : Type) (error : Http.Thrown) (rest : list (Http.Thrown + A))
          (i : Z) (made : nat) (asked : list Z),
     (forall n, Http.statusCode_of error = Some (Http.JNum n) -> ~ In n excluded) ->
     i + 1 <= max ->
     Retry.retryLoop d o (inl error :: rest) i made asked =
     Retry.retryLoop d o rest (i + 1) (S made) (asked ++ [(i + 1) * base])) /\
  (forall (A : Type) (outcomes : list (Http.Thrown + A)),
     Retry.delays (Retry.retryWhen d o outcomes) =
     map (fun k => Z.of_nat k * base)
         (seq 1 (List.length (Retry.delays (Retry.retryWhen d o outcomes))))) /\
  (forall (A : Type) (outcomes : list (Http.Thrown + A)) (ms : Z),
     0 <= max -> 1 <= base -> max * base <= Retry.TIMEOUT_MAX ->
     In ms (Retry.delays (Retry.retryWhen d o outcomes)) ->
     Retry.honoured ms = true) /\
  (forall (A : Type) (e1 e2 : Http.Thrown) (v : A),
     (forall n, Http.statusCode_of e1 = Some (Http.JNum n) -> ~ In n excluded) ->
     (forall n, Http.statusCode_of e2 = Some (Http.JNum n) -> ~ In n excluded) ->
     2 <= max ->
     Retry.retryWhen d o [inl e1; inl e2; inr v] =
     Retry.mkRun (Retry.Emitted v) 3 [1 * base; 2 * base]) /\
  (Retry.excludedStatusCodes o = None ->
   d = Retry.defaultExcluded_service \/ d = Retry.defaultExcluded_monolith ->
   forall (A : Type) (error : Http.Thrown) (rest : list (Http.Thrown + A)),
     Http.statusCode_of error = Some (Http.JNum 401) ->
     Retry.retryWhen d o (inl error :: rest) =
     Retry.mkRun (Retry.Failed error) 1 []) /\
  (d = Retry.defaultExcluded_service \/ d = Retry.defaultExcluded_monolith ->
   forall (p : Login.Pipeline) (id : nat) (twoFactorLogin : Http.json)
          (response : Http.Response) (json : Http.object),
     Login.active p = true ->
     Login.second p = Some (id, twoFactorLogin) ->
     Http.request_json response = Some json ->
     Http.get "statusCode" json = Some (Http.JNum 401) ->
     Login.totpResponse d id response p =
     (Login.mkPipeline false None None None (Login.errors p + 1) true,
      [Login.Raise (Http.ThrownJson json)])) /\
  (forall totp (c : Validation.Credentials) (timeout n : Z)
          (r r1 r2 : Http.Response) (json json1 json2 : Http.object)
          (v : Http.json),
     Validation.checkCredentials c timeout = Validation.Returns ->
     Http.request_json r = Some json ->
     Http.get "statusCode" json = Some (Http.JNum n) ->
     n <> 200 -> n <> 401 ->
     Http.request_json r1 = Some json1 ->
     Http.statusCode_isnt_200 json1 = false ->
     Http.get "twoFactorLogin" json1 = Some v ->
     v <> Http.JNull ->
     Http.request_json r2 = Some json2 ->
     Http.statusCode_isnt_200 json2 = false ->
     exists st0,
       Monolith.construct totp c timeout = inr st0 /\
       let st1 := Monolith.step totp st0 (Monolith.LoginResponse 1 r) in
       let st2 := Monolith.run totp st1
                    [Monolith.Elapse 10000; Monolith.Fire;
                     Monolith.LoginResponse 2 r] in
       let st3 := Monolith.run totp st2
                    [Monolith.Elapse 20000; Monolith.Fire;
                     Monolith.LoginResponse 3 r1; Monolith.TotpResponse 4 r2] in
       Monolith.timers st1 = [(10000, Login.RetryOf 0)] /\
       Monolith.now st2 = 10000 /\
       Monolith.timers st2 = [(10000 + 20000, Login.RetryOf 0)] /\
       Monolith.now st3 = 30000 /\
       Monolith.uncaught st3 = [] /\
       Monolith.authSession st3 =
         Some (Login.mkAuthSession json2 v
                 (Http.headers_get "x-securitytoken" (Http.headers r2)))).
Proof.
  intros max base excluded.
  assert (E401 : Retry.excludedStatusCodes o = None ->
                 d = Retry.defaultExcluded_service \/
                 d = Retry.defaultExcluded_monolith ->
                 forall error, Http.statusCode_of error = Some (Http.JNum 401) ->
                               Retry.isExcluded excluded error = true).
  { intros Ho Hd error He. apply isExcluded_iff. exists 401.
    split; [exact He|]. unfold excluded. rewrite Ho. cbn [Retry.orDefault].
    destruct Hd as [->| ->]; cbn; auto. }
  assert (G : forall i, i + 1 <= max -> (i + 1 >? max) = false).
  { intros i Hi. destruct (i + 1 >? max) eqn:G; [|reflexivity].
    apply Z.gtb_lt in G. lia. }
  split; [|split; [|split; [|split; [|split; [|split; [|split]]]]]].
  - intros A error rest i made asked H.
    cbn [Retry.retryLoop]. unfold Retry.genericRetryStrategy.
    fold max. fold excluded.
    destruct H as [H|H].
    + apply isExcluded_iff in H. now rewrite H, orb_true_r.
    + assert (G' : (i + 1 >? max) = true) by (apply Z.gtb_lt; lia).
      now rewrite G'.
  - intros A error rest i made asked Hx Hi.
    cbn [Retry.retryLoop]. unfold Retry.genericRetryStrategy.
    fold max. fold excluded. fold base.
    now rewrite (G i Hi), (isExcluded_not excluded error Hx).
  - intros A outcomes. exact (retry_delays_closed d o outcomes).
  - intros A outcomes ms Hm Hb Hr Hin.
    exact (proj2 (retry_delays_honoured d o outcomes ms Hm Hb Hr Hin)).
  - intros A e1 e2 v H1 H2 Hm.
    unfold Retry.retryWhen. cbn [Retry.retryLoop].
    unfold Retry.genericRetryStrategy. fold max. fold excluded. fold base.
    rewrite (G 0) by lia. rewrite (isExcluded_not excluded e1 H1).
    cbn [orb]. rewrite (G (0 + 1)) by lia.
    rewrite (isExcluded_not excluded e2 H2). reflexivity.
  - intros Ho Hd A error rest He.
    unfold Retry.retryWhen. cbn [Retry.retryLoop].
    unfold Retry.genericRetryStrategy. fold excluded.
    now rewrite (E401 Ho Hd error He), orb_true_r.
  - intros Hd p id tfl response json Ha H2 Hj Hs.
    unfold Login.totpResponse. rewrite H2, Ha, Nat.eqb_refl, Hj.
    unfold Http.statusCode_isnt_200. rewrite Hs. cbn [andb negb Z.eqb].
    unfold Login.fail, Retry.genericRetryStrategy, Retry.isExcluded.
    cbn [Http.statusCode_of]. rewrite Hs.
    destruct Hd as [->| ->]; cbn; now rewrite orb_true_r.
  - exact monolith_login_retried_twice.
Qed.

(** The options of the login pipelines.  Two failures that are retried (a
    status code 503, then an error without status code) and a value: three
    attempts, timers of 10 and 20 seconds.  A first failure with status code
    401: one attempt, no timer. *)
Lemma C9_login_retries_and_401 :
  Retry.retryWhen Retry.defaultExcluded_monolith Retry.authenticateOptions
    [inl (Http.ThrownJson [("statusCode"%string, Http.JNum 503)]);
     inl (Http.ThrownOther "response.json() rejected");
     inr Login.totpOk] =
  Retry.mkRun (Retry.Emitted Login.totpOk) 3 [1 * 10000; 2 * 10000] /\
  Retry.retryWhen Retry.defaultExcluded_service Retry.authenticateOptions
    [inl (Http.ThrownJson [("statusCode"%string, Http.JNum 401)]);
     inr Login.totpOk] =
  Retry.mkRun (Retry.Failed (Http.ThrownJson [("statusCode"%string, Http.JNum 401)]))
              1 [].
Proof.
  split.
  - refine (proj1 (proj2 (proj2 (proj2 (proj2
             (C9_retry_policy Retry.defaultExcluded_monolith
                Retry.authenticateOptions)))))
             Http.Response
             (Http.ThrownJson [("statusCode"%string, Http.JNum 503)])
             (Http.ThrownOther "response.json() rejected")
             Login.totpOk _ _ (proj1 (Z.leb_le 2 10) eq_refl)).
    + intros n H [E|[]]. injection H as <-. discriminate E.
    + intros n H. discriminate H.
  - exact (proj1 (proj2 (proj2 (proj2 (proj2 (proj2
             (C9_retry_policy Retry.defaultExcluded_service
                Retry.authenticateOptions))))))
             eq_refl (or_introl eq_refl) Http.Response
             (Http.ThrownJson [("statusCode"%string, Http.JNum 401)])
             [inr Login.totpOk] eq_refl).
Defined.
